(** * Volatility carry strategy

    A shallow embedding of [src/strategies/volatility_carry.py]
    (class [VolatilityCarryStrategy]) and the properties its specification
    states about it.

    Modelling choices.
    - A Python [float] is an exact rational ([Qc], canonical fractions, so that
      equality of values is Leibniz equality).  Rounding, infinities and NaN
      are outside the model; the division operator raises
      [ZeroDivisionError] on a zero divisor, as Python's does.  The three
      arithmetic expressions of the analyzer are also written on IEEE 754
      doubles ([Binary64]) and evaluated there on the worked examples.
    - A [dict] is a [gmap] with [string] keys; [d.get(k, v)] is
      [default v (d !! k)] and [d[k]] raises [KeyError] on a missing key.
    - The collaborators the strategy calls (the price-history manager and the
      methods inherited from [BaseStrategy]) are not part of the file.  Each is
      an oracle, a field of [Oracles], that gives the outcome of the call: a
      value or a raised exception.
    - An [except Exception] clause catches the instances of [Exception] and
      lets [KeyboardInterrupt] and [SystemExit] through ([try_except]).
      [Collaborators] are oracles that raise instances of [Exception] only;
      the statements are about them, and the theorem on the propagation of
      exceptions tells what the other exceptions do.
    - A method is a computation in the monad [M]: it threads the mutable
      attributes of the instance ([StrategyState]), may raise, and records
      the collaborator calls and the log records it makes. *)

From Stdlib Require Import ZArith QArith Qcanon Qcabs Lqa Floats.
From stdpp Require Import base option strings list gmap fin_maps numbers.

Set Warnings "-inexact-float".

(** ** Exceptions and results *)

(** The exceptions of the model.  The first four are instances of
    [Exception]: the three the operations of the file itself can raise, and
    [CollaboratorError] for any instance of [Exception] raised inside a
    collaborator.  [KeyboardInterrupt] and [SystemExit] derive from
    [BaseException] only. *)
Inductive exn : Type :=
| ZeroDivisionError
| KeyError (key : string)
| IndexError
| CollaboratorError (msg : string)
| KeyboardInterrupt
| SystemExit.

(** [isinstance(e, Exception)]: what an [except Exception] clause catches. *)
Definition is_Exception (e : exn) : bool :=
  match e with
  | KeyboardInterrupt | SystemExit => false
  | _ => true
  end.

Inductive res (A : Type) : Type :=
| Ok (a : A)
| Raise (e : exn).

Arguments Ok {A} a.
Arguments Raise {A} e.

(** ** Python primitives *)

Module Py.

(** A float literal. *)
Definition float (q : Q) : Qc := Q2Qc q.

Definition lt (x y : Qc) : bool := bool_decide (x < y)%Qc.
Definition gt (x y : Qc) : bool := bool_decide (y < x)%Qc.

(** [min(a, b)]: the first argument unless the second is strictly smaller. *)
Definition min (a b : Qc) : Qc := if lt b a then b else a.

Definition abs (x : Qc) : Qc := Qcabs x.

(** [l[-n:]]: the last [n] items, the whole list when it is shorter. *)
Definition last_n {A : Type} (n : nat) (l : list A) : list A :=
  drop (length l - n) l.

(** The values found in the breakout dictionary: booleans and floats. *)
Inductive value : Type :=
| Bool (b : bool)
| Float (x : Qc).

(** Truth value of an object in a condition. *)
Definition truthy (v : value) : bool :=
  match v with
  | Bool b => b
  | Float x => negb (bool_decide (x = 0%Qc))
  end.

(** The number a value stands for in a comparison ([True] is 1). *)
Definition number (v : value) : Qc :=
  match v with
  | Bool b => if b then 1%Qc else 0%Qc
  | Float x => x
  end.

(** A dictionary is true in a condition when its length is not zero. *)
Definition nonempty {V : Type} (d : gmap string V) : bool :=
  negb (size d =? 0)%nat.

(** [x / y] on floats. *)
Definition truediv (x y : Qc) : res Qc :=
  if bool_decide (y = 0%Qc) then Raise ZeroDivisionError else Ok (x / y)%Qc.

(** [d[k]]. *)
Definition getitem {V : Type} (d : gmap string V) (k : string) : res V :=
  match d !! k with
  | Some v => Ok v
  | None => Raise (KeyError k)
  end.

(** [l[i]] with Python's negative indices. *)
Definition index {A : Type} (l : list A) (i : Z) : res A :=
  let n := Z.of_nat (length l) in
  let j := if (i <? 0)%Z then (i + n)%Z else i in
  if (j <? 0)%Z then Raise IndexError
  else match l !! Z.to_nat j with
       | Some a => Ok a
       | None => Raise IndexError
       end.

End Py.

(** ** The arithmetic of the analyzer on binary64 floats

    Lines 110-112, 121-122 and 140-141 on the kernel's IEEE 754 doubles:
    operations round to nearest, comparisons with a NaN are false, and the
    division raises on a divisor equal to zero (of either sign). *)

Module Binary64.

Definition min (a b : PrimFloat.float) : PrimFloat.float :=
  if PrimFloat.ltb b a then b else a.

Definition truediv (x y : PrimFloat.float) : res PrimFloat.float :=
  if PrimFloat.eqb y 0%float then Raise ZeroDivisionError else Ok (x / y)%float.

Definition slope (longer shorter : PrimFloat.float) : res PrimFloat.float :=
  if PrimFloat.ltb 0%float shorter
  then truediv (longer - shorter)%float shorter
  else Ok 0%float.

Definition signal_strength (x threshold : PrimFloat.float) : res PrimFloat.float :=
  match truediv x threshold with
  | Ok q => Ok (min q 2.0%float)
  | Raise e => Raise e
  end.

Definition signal_confidence (strength : PrimFloat.float) : PrimFloat.float :=
  min (0.5 + strength * 0.2)%float 0.9%float.

End Binary64.

(** ** Data model *)

(** The part of [MarketData] the strategy reads. *)
Record MarketData : Type := {
  current_price : Qc;
  price_15m : list Qc
}.

(** [Signal.action]: 0 is HOLD, 1 is BUY, 2 is SELL. *)
Definition HOLD : Z := 0.
Definition BUY : Z := 1.
Definition SELL : Z := 2.

(** The reason text is an f-string: its fixed part and the slope it formats. *)
Record Reason : Type := {
  reason_text : string;
  reason_slope : Qc
}.

Record Signal : Type := {
  action : Z;
  confidence : Qc;
  entry_price : Qc;
  stop_price : Qc;
  target_price : Qc;
  reason : Reason
}.

(** [self.config]. *)
Record StrategyConfig : Type := {
  contango_threshold : Qc;
  backwardation_threshold : Qc;
  target_atr_multiplier : Qc;
  min_carry_confidence : Qc
}.

(** [self.system_config.risk_management]. *)
Record RiskManagement : Type := {
  stop_loss_atr_multiplier : Qc;
  min_confidence : Qc
}.

Record SystemConfig : Type := {
  risk_management : RiskManagement
}.

(** The attributes that are fixed once the instance is built. *)
Record Strategy : Type := {
  name : string;
  config : StrategyConfig;
  system_config : SystemConfig
}.

(** The attributes [__init__] sets under "Carry tracking". *)
Record StrategyState : Type := {
  vol_term_structure : gmap string (gmap string Qc);
  carry_history : list Signal;
  last_carry_signal : option Signal;
  carry_threshold_breached : bool
}.

(** [__init__] (lines 18-27). *)
Definition init (config : StrategyConfig) (system_config : SystemConfig)
  : Strategy * StrategyState :=
  ({| name := "VolatilityCarry"; config := config; system_config := system_config |},
   {| vol_term_structure := ∅;
      carry_history := [];
      last_carry_signal := None;
      carry_threshold_breached := false |}).

(** ** Collaborators *)

(** The outcome of every call the strategy makes outside this file: the
    methods of the price-history manager and those inherited from
    [BaseStrategy].  A collaborator answers with a value or raises; it has no
    access to the four carry-tracking attributes, which this class alone
    declares. *)
Record Oracles : Type := {
  update_price_history : MarketData -> res unit;
  should_trade : MarketData -> res bool;
  calculate_atr_simple : list Qc -> res Qc;
  calculate_volatility_metrics : res (gmap string Qc);
  get_status : res (gmap string (gmap string Z));
  calculate_realized_volatility : string -> Z * Z -> res (option (gmap string Qc));
  calculate_volatility_regime : string -> res string;
  calculate_volatility_breakout : string -> res (option (gmap string Py.value))
}.

(** An outcome that an [except Exception] clause handles: a value, or an
    instance of [Exception]. *)
Definition catchable {A : Type} (r : res A) : Prop :=
  forall e, r = Raise e -> is_Exception e = true.

(** Oracles none of which raises anything but instances of [Exception]. *)
Record only_Exceptions (w : Oracles) : Prop := {
  update_price_history_catchable : forall market_data,
    catchable (update_price_history w market_data);
  should_trade_catchable : forall market_data, catchable (should_trade w market_data);
  calculate_atr_simple_catchable : forall prices, catchable (calculate_atr_simple w prices);
  calculate_volatility_metrics_catchable : catchable (calculate_volatility_metrics w);
  get_status_catchable : catchable (get_status w);
  calculate_realized_volatility_catchable : forall timeframe windows,
    catchable (calculate_realized_volatility w timeframe windows);
  calculate_volatility_regime_catchable : forall timeframe,
    catchable (calculate_volatility_regime w timeframe);
  calculate_volatility_breakout_catchable : forall timeframe,
    catchable (calculate_volatility_breakout w timeframe)
}.

(** The collaborators of an ordinary run: each call returns a value or raises
    an instance of [Exception].  What a collaborator does when it raises
    [KeyboardInterrupt] or [SystemExit] is stated on [Oracles]. *)
Record Collaborators : Type := {
  answers :> Oracles;
  raises_Exceptions : only_Exceptions answers
}.

(** ** Observable events: collaborator calls and log records *)

Inductive call : Type :=
| update_price_history_call (market_data : MarketData)
| should_trade_call (market_data : MarketData)
| calculate_atr_simple_call (prices : list Qc)
| calculate_volatility_metrics_call
| get_status_call
| calculate_realized_volatility_call (timeframe : string) (windows : Z * Z)
| calculate_volatility_regime_call (timeframe : string)
| calculate_volatility_breakout_call (timeframe : string).

Inductive level : Type := INFO | ERROR.

(** A log record: which message, and the values formatted into it. *)
Inductive message : Type :=
| InsufficientData
| NoTermStructureSignal
| ValidationFailed
| RiskManagementBlocked
| ConfidenceBelowMinimum (confidence minimum : Qc)
| Generated (action_name : string) (confidence : Qc)
| ErrorGeneratingSignal (e : exn)
| TermStructureAnalysis
| ShortVol (x : Qc)
| MediumVol (x : Qc)
| LongVol (x : Qc)
| OverallSlope (x : Qc)
| SignalAction (a : option Z)
| ErrorInTermStructure (e : exn)
| ErrorValidating (e : exn)
| ErrorGettingStatus (e : exn).

Inductive event : Type :=
| Call (c : call)
| Log (l : level) (m : message).

(** ** The monad of methods *)

Definition M (A : Type) : Type :=
  StrategyState -> res A * StrategyState * list event.

Definition ret {A : Type} (a : A) : M A :=
  fun s => (Ok a, s, []).

Definition bind {A B : Type} (m : M A) (k : A -> M B) : M B :=
  fun s =>
    match m s with
    | (Ok a, s1, t1) =>
        match k a s1 with
        | (r, s2, t2) => (r, s2, t1 ++ t2)
        end
    | (Raise e, s1, t1) => (Raise e, s1, t1)
    end.

(** [try: m except Exception as e: h e].  The handler runs on an instance
    of [Exception]; any other exception leaves the [try] statement as it
    came. *)
Definition try_except {A : Type} (m : M A) (h : exn -> M A) : M A :=
  fun s =>
    match m s with
    | (Ok a, s1, t1) => (Ok a, s1, t1)
    | (Raise e, s1, t1) =>
        if is_Exception e
        then match h e s1 with
             | (r, s2, t2) => (r, s2, t1 ++ t2)
             end
        else (Raise e, s1, t1)
    end.

(** An operation of the language that may raise. *)
Definition lift {A : Type} (r : res A) : M A :=
  fun s => (r, s, []).

(** A call to a collaborator, with the outcome the oracle gives. *)
Definition invoke {A : Type} (c : call) (r : res A) : M A :=
  fun s => (r, s, [Call c]).

Definition log (l : level) (m : message) : M unit :=
  fun s => (Ok tt, s, [Log l m]).

(** Reading the attributes of [self]. *)
Definition get_state : M StrategyState :=
  fun s => (Ok s, s, []).

Declare Scope prog_scope.
Delimit Scope prog_scope with prog.
Notation "x <- m ;; k" := (bind m (fun x => k))
  (at level 100, m at next level, right associativity) : prog_scope.
Notation "m ;; k" := (bind m (fun _ => k))
  (at level 100, right associativity) : prog_scope.

Local Open Scope prog_scope.

(** The three observations of a run. *)
Definition result {A : Type} (m : M A) (s : StrategyState) : res A := (m s).1.1.
Definition final {A : Type} (m : M A) (s : StrategyState) : StrategyState := (m s).1.2.
Definition trace {A : Type} (m : M A) (s : StrategyState) : list event := (m s).2.

(** ** The methods of [VolatilityCarryStrategy] *)

(** *** [_has_sufficient_data] (lines 68-83) *)

Definition required_data : list (string * Z) :=
  [("5m", 100%Z); ("15m", 100%Z); ("1h", 100%Z)].

(** [status.get(timeframe, {}).get('data_points', 0)]. *)
Definition data_points (status : gmap string (gmap string Z)) (timeframe : string) : Z :=
  default 0%Z (default ∅ (status !! timeframe) !! "data_points").

(** The loop over [required_data.items()], which returns [False] at the first
    timeframe that is short of data. *)
Fixpoint sufficient_for (status : gmap string (gmap string Z))
    (items : list (string * Z)) : bool :=
  match items with
  | [] => true
  | (timeframe, required) :: rest =>
      if (data_points status timeframe <? required)%Z then false
      else sufficient_for status rest
  end.

Definition _has_sufficient_data (w : Oracles) : M bool :=
  status <- invoke get_status_call (get_status w);;
  ret (sufficient_for status required_data).

(** *** [_analyze_term_structure] (lines 85-169) *)

Definition timeframes : list string := ["5m"; "15m"; "1h"].

(** The loop of lines 92-97: a reading is kept when it is neither [None] nor
    an empty dictionary. *)
Fixpoint collect_vol_structure (w : Oracles) (tfs : list string)
    (vol_structure : gmap string (gmap string Qc)) : M (gmap string (gmap string Qc)) :=
  match tfs with
  | [] => ret vol_structure
  | timeframe :: rest =>
      realized_vols <- invoke (calculate_realized_volatility_call timeframe (20, 60)%Z)
                              (calculate_realized_volatility w timeframe (20, 60)%Z);;
      match realized_vols with
      | Some vols =>
          if Py.nonempty vols
          then collect_vol_structure w rest (<[timeframe := vols]> vol_structure)
          else collect_vol_structure w rest vol_structure
      | None => collect_vol_structure w rest vol_structure
      end
  end.

(** [(longer - shorter) / shorter if shorter > 0 else 0] (lines 110-112). *)
Definition slope (longer shorter : Qc) : res Qc :=
  if Py.gt shorter 0%Qc then Py.truediv (longer - shorter)%Qc shorter else Ok 0%Qc.

(** [min(x / threshold, 2.0)] (lines 121 and 140). *)
Definition signal_strength (x threshold : Qc) : res Qc :=
  match Py.truediv x threshold with
  | Ok q => Ok (Py.min q (Py.float 2.0))
  | Raise e => Raise e
  end.

(** [min(0.5 + signal_strength * 0.2, 0.9)] (lines 122 and 141). *)
Definition signal_confidence (strength : Qc) : Qc :=
  Py.min (Py.float 0.5 + strength * Py.float 0.2)%Qc (Py.float 0.9).

(** The ATR of lines 125 and 144. *)
Definition atr_of (w : Oracles) (market_data : MarketData) : M Qc :=
  if (20 <=? length (price_15m market_data))%nat
  then invoke (calculate_atr_simple_call (Py.last_n 20 (price_15m market_data)))
              (calculate_atr_simple w (Py.last_n 20 (price_15m market_data)))
  else ret (current_price market_data * Py.float 0.01)%Qc.

(** The [Signal] built on a strong contango (lines 124-136): the stop is
    placed [atr * stop_loss_atr_multiplier] above the current price, the
    target [atr * target_atr_multiplier] below it. *)
Definition contango_signal (self : Strategy) (market_data : MarketData)
    (overall_slope confidence atr : Qc) : Signal :=
  let current_price := current_price market_data in
  let stop_price :=
    (current_price + atr * stop_loss_atr_multiplier (risk_management (system_config self)))%Qc in
  let target_price :=
    (current_price - atr * target_atr_multiplier (config self))%Qc in
  {| action := 2;
     confidence := confidence;
     entry_price := current_price;
     stop_price := stop_price;
     target_price := target_price;
     reason := {| reason_text := "Vol carry: Strong contango";
                  reason_slope := overall_slope |} |}.

(** The [Signal] built on a strong backwardation (lines 143-155). *)
Definition backwardation_signal (self : Strategy) (market_data : MarketData)
    (overall_slope confidence atr : Qc) : Signal :=
  let current_price := current_price market_data in
  let stop_price :=
    (current_price - atr * stop_loss_atr_multiplier (risk_management (system_config self)))%Qc in
  let target_price :=
    (current_price + atr * target_atr_multiplier (config self))%Qc in
  {| action := 1;
     confidence := confidence;
     entry_price := current_price;
     stop_price := stop_price;
     target_price := target_price;
     reason := {| reason_text := "Vol carry: Strong backwardation";
                  reason_slope := overall_slope |} |}.

(** Lines 114-155: the locals [signal] and [confidence] after the case
    analysis on the overall slope. *)
Definition carry_signal_logic (self : Strategy) (w : Oracles)
    (market_data : MarketData) (overall_slope : Qc) : M (option Signal * Qc) :=
  if Py.gt overall_slope (contango_threshold (config self)) then
    strength <- lift (signal_strength overall_slope (contango_threshold (config self)));;
    let confidence := signal_confidence strength in
    atr <- atr_of w market_data;;
    ret (Some (contango_signal self market_data overall_slope confidence atr), confidence)
  else if Py.lt overall_slope (- backwardation_threshold (config self))%Qc then
    strength <- lift (signal_strength (Py.abs overall_slope)
                                      (backwardation_threshold (config self)));;
    let confidence := signal_confidence strength in
    atr <- atr_of w market_data;;
    ret (Some (backwardation_signal self market_data overall_slope confidence atr), confidence)
  else ret (None, 0%Qc).

(** The body of the [try] block. *)
Definition analyze_term_structure_body (self : Strategy) (w : Oracles)
    (market_data : MarketData) : M (option Signal) :=
  vol_structure <- collect_vol_structure w timeframes ∅;;
  if (size vol_structure <? 3)%nat then ret None
  else
    vols_5m <- lift (Py.getitem vol_structure "5m");;
    let short_vol := default 0%Qc (vols_5m !! "20_period") in
    vols_15m <- lift (Py.getitem vol_structure "15m");;
    let medium_vol := default 0%Qc (vols_15m !! "20_period") in
    vols_1h <- lift (Py.getitem vol_structure "1h");;
    let long_vol := default 0%Qc (vols_1h !! "20_period") in
    short_medium_slope <- lift (slope medium_vol short_vol);;
    medium_long_slope <- lift (slope long_vol medium_vol);;
    overall_slope <- lift (slope long_vol short_vol);;
    locals <- carry_signal_logic self w market_data overall_slope;;
    let signal := locals.1 in
    log INFO TermStructureAnalysis;;
    log INFO (ShortVol short_vol);;
    log INFO (MediumVol medium_vol);;
    log INFO (LongVol long_vol);;
    log INFO (OverallSlope overall_slope);;
    log INFO (SignalAction (action <$> signal));;
    ret signal.

Definition _analyze_term_structure (self : Strategy) (w : Oracles)
    (market_data : MarketData) : M (option Signal) :=
  try_except (analyze_term_structure_body self w market_data)
    (fun e => log ERROR (ErrorInTermStructure e);; ret None).

(** *** [_validate_carry_opportunity] (lines 171-202) *)

(** Lines 189-192: a flagged breakout stronger than 2.5. *)
Definition strong_breakout (breakout_info : option (gmap string Py.value)) : bool :=
  match breakout_info with
  | Some info =>
      Py.nonempty info
      && Py.truthy (default (Py.Bool false) (info !! "is_breakout"))
      && Py.gt (Py.number (default (Py.Float 0%Qc) (info !! "breakout_strength")))
               (Py.float 2.5)
  | None => false
  end.

Definition _validate_carry_opportunity (self : Strategy) (w : Oracles)
    (signal : Signal) (market_data : MarketData) : M bool :=
  try_except
    (vol_regime <- invoke (calculate_volatility_regime_call "15m")
                          (calculate_volatility_regime w "15m");;
     if bool_decide (vol_regime = "low") && bool_decide (action signal = 2%Z)
     then ret false
     else if bool_decide (vol_regime = "high") && bool_decide (action signal = 1%Z)
     then ret false
     else
       breakout_info <- invoke (calculate_volatility_breakout_call "15m")
                               (calculate_volatility_breakout w "15m");;
       if strong_breakout breakout_info then ret false
       else if Py.lt (confidence signal) (min_carry_confidence (config self))
       then ret false
       else ret true)
    (fun e => log ERROR (ErrorValidating e);; ret false).

(** *** [generate_signal] (lines 29-66) *)

Definition action_names : list string := ["HOLD"; "BUY"; "SELL"].

Definition generate_signal (self : Strategy) (w : Oracles)
    (market_data : MarketData) : M (option Signal) :=
  try_except
    (invoke (update_price_history_call market_data) (update_price_history w market_data);;
     sufficient <- _has_sufficient_data w;;
     if negb sufficient then log INFO InsufficientData;; ret None
     else
       primary_signal <- _analyze_term_structure self w market_data;;
       match primary_signal with
       | None => log INFO NoTermStructureSignal;; ret None
       | Some primary_signal =>
           valid <- _validate_carry_opportunity self w primary_signal market_data;;
           if negb valid then log INFO ValidationFailed;; ret None
           else
             allowed <- invoke (should_trade_call market_data) (should_trade w market_data);;
             if negb allowed then log INFO RiskManagementBlocked;; ret None
             else if Py.lt (confidence primary_signal)
                           (min_confidence (risk_management (system_config self)))
             then
               log INFO (ConfidenceBelowMinimum (confidence primary_signal)
                           (min_confidence (risk_management (system_config self))));;
               ret None
             else
               action_name <- lift (Py.index action_names (action primary_signal));;
               log INFO (Generated action_name (confidence primary_signal));;
               ret (Some primary_signal)
       end)
    (fun e => log ERROR (ErrorGeneratingSignal e);; ret None).

(** *** [get_strategy_status] (lines 204-219) *)

(** The dictionary the method returns: the full snapshot, or the short one of
    the [except] branch. *)
Inductive StrategyStatus : Type :=
| Snapshot (name : string) (last_signal : option Signal)
    (term_structure : gmap string (gmap string Qc)) (carry_history_length : nat)
    (volatility_metrics : gmap string Qc) (threshold_breached : bool)
| StatusError (name : string).

Definition get_strategy_status (self : Strategy) (w : Oracles) : M StrategyStatus :=
  try_except
    (vol_metrics <- invoke calculate_volatility_metrics_call (calculate_volatility_metrics w);;
     s <- get_state;;
     ret (Snapshot (name self) (last_carry_signal s) (vol_term_structure s)
            (length (carry_history s)) vol_metrics (carry_threshold_breached s)))
    (fun e => log ERROR (ErrorGettingStatus e);; ret (StatusError (name self))).

(** ** Decidable equality of the data, to settle closed examples by
    evaluation *)

#[global] Instance exn_eq_dec : EqDecision exn.
Proof. solve_decision. Defined.
#[global] Instance res_eq_dec {A : Type} `{EqDecision A} : EqDecision (res A).
Proof. solve_decision. Defined.
#[global] Instance value_eq_dec : EqDecision Py.value.
Proof. solve_decision. Defined.
#[global] Instance MarketData_eq_dec : EqDecision MarketData.
Proof. solve_decision. Defined.
#[global] Instance Reason_eq_dec : EqDecision Reason.
Proof. solve_decision. Defined.
#[global] Instance Signal_eq_dec : EqDecision Signal.
Proof. solve_decision. Defined.
#[global] Instance StrategyState_eq_dec : EqDecision StrategyState.
Proof. solve_decision. Defined.
#[global] Instance call_eq_dec : EqDecision call.
Proof. solve_decision. Defined.
#[global] Instance level_eq_dec : EqDecision level.
Proof. solve_decision. Defined.
#[global] Instance message_eq_dec : EqDecision message.
Proof. solve_decision. Defined.
#[global] Instance event_eq_dec : EqDecision event.
Proof. solve_decision. Defined.
#[global] Instance StrategyStatus_eq_dec : EqDecision StrategyStatus.
Proof. solve_decision. Defined.

(** Closes a decidable goal without variables by evaluating its decision. *)
Ltac by_evaluation :=
  lazymatch goal with
  | |- ?P => apply (bool_decide_unpack P); vm_compute; exact I
  end.

(** The events only [_analyze_term_structure] produces. *)
Definition from_analysis (ev : event) : bool :=
  match ev with
  | Call (calculate_realized_volatility_call _ _) => true
  | Call (calculate_atr_simple_call _) => true
  | Log _ TermStructureAnalysis => true
  | Log _ (ShortVol _) => true
  | Log _ (MediumVol _) => true
  | Log _ (LongVol _) => true
  | Log _ (OverallSlope _) => true
  | Log _ (SignalAction _) => true
  | Log _ (ErrorInTermStructure _) => true
  | _ => false
  end.

(** Settles [only_Exceptions] for oracles that are given by their answers. *)
Ltac only_Exceptions :=
  split; cbn; intros;
  first [ assumption
        | solve [auto]
        | let e := fresh "e" in
          let He := fresh "He" in
          intros e He; first [discriminate He | injection He as <-; reflexivity] ].

(** ** Concrete inputs *)

Module Example.

Definition reading (x : Q) : option (gmap string Qc) :=
  Some {[ "20_period" := Py.float x ]}.

Definition full_status : gmap string (gmap string Z) :=
  {[ "5m" := {[ "data_points" := 100%Z ]};
     "15m" := {[ "data_points" := 250%Z ]};
     "1h" := {[ "data_points" := 120%Z ]} ]}.

(** The 1-hour history is one point short. *)
Definition short_status : gmap string (gmap string Z) :=
  {[ "5m" := {[ "data_points" := 100%Z ]};
     "15m" := {[ "data_points" := 250%Z ]};
     "1h" := {[ "data_points" := 99%Z ]} ]}.

(** Collaborators that never raise: the three readings, the regime and the
    breakout report are given, the ATR of any series is 2, the risk gate
    lets the trade through. *)
Definition world_answers (status : gmap string (gmap string Z)) (short medium long : Q)
    (regime : string) (breakout : option (gmap string Py.value)) : Oracles :=
  {| update_price_history := fun _ => Ok tt;
     should_trade := fun _ => Ok true;
     calculate_atr_simple := fun _ => Ok (Py.float 2);
     calculate_volatility_metrics := Ok ∅;
     get_status := Ok status;
     calculate_realized_volatility := fun timeframe _ =>
       Ok (if bool_decide (timeframe = "5m") then reading short
           else if bool_decide (timeframe = "15m") then reading medium
           else reading long);
     calculate_volatility_regime := fun _ => Ok regime;
     calculate_volatility_breakout := fun _ => Ok breakout |}.

Definition world (status : gmap string (gmap string Z)) (short medium long : Q)
    (regime : string) (breakout : option (gmap string Py.value)) : Collaborators :=
  {| answers := world_answers status short medium long regime breakout;
     raises_Exceptions := ltac:(only_Exceptions) |}.

Definition strategy_config (contango backwardation : Q) : StrategyConfig :=
  {| contango_threshold := Py.float contango;
     backwardation_threshold := Py.float backwardation;
     target_atr_multiplier := Py.float 3;
     min_carry_confidence := Py.float 0.6 |}.

Definition system : SystemConfig :=
  {| risk_management :=
       {| stop_loss_atr_multiplier := Py.float 2; min_confidence := Py.float 0.6 |} |}.

Definition strategy (contango backwardation : Q) : Strategy :=
  (init (strategy_config contango backwardation) system).1.

Definition fresh : StrategyState :=
  (init (strategy_config 0.5 0.3) system).2.

(** A tick at price 100 with no 15-minute series, and one with 25 points. *)
Definition tick : MarketData :=
  {| current_price := Py.float 100; price_15m := [] |}.

Definition long_tick : MarketData :=
  {| current_price := Py.float 100; price_15m := replicate 25 (Py.float 100) |}.

(** The same collaborators, but for a risk gate that raises. *)
Definition risk_gate_down (w : Collaborators) : Collaborators :=
  {| answers :=
       {| update_price_history := update_price_history w;
          should_trade := fun _ => Raise (CollaboratorError "risk gate unavailable");
          calculate_atr_simple := calculate_atr_simple w;
          calculate_volatility_metrics := calculate_volatility_metrics w;
          get_status := get_status w;
          calculate_realized_volatility := calculate_realized_volatility w;
          calculate_volatility_regime := calculate_volatility_regime w;
          calculate_volatility_breakout := calculate_volatility_breakout w |};
     raises_Exceptions :=
       ltac:(destruct (raises_Exceptions w); only_Exceptions) |}.

(** The same collaborators, but for the readings of the realized
    volatility. *)
Definition with_readings (readings : string -> option (gmap string Qc))
    (w : Collaborators) : Collaborators :=
  {| answers :=
       {| update_price_history := update_price_history w;
          should_trade := should_trade w;
          calculate_atr_simple := calculate_atr_simple w;
          calculate_volatility_metrics := calculate_volatility_metrics w;
          get_status := get_status w;
          calculate_realized_volatility := fun timeframe _ => Ok (readings timeframe);
          calculate_volatility_regime := calculate_volatility_regime w;
          calculate_volatility_breakout := calculate_volatility_breakout w |};
     raises_Exceptions :=
       ltac:(destruct (raises_Exceptions w); only_Exceptions) |}.

(** The same collaborators, but for an ATR helper that raises. *)
Definition atr_down (w : Collaborators) : Collaborators :=
  {| answers :=
       {| update_price_history := update_price_history w;
          should_trade := should_trade w;
          calculate_atr_simple := fun _ => Raise (CollaboratorError "no true range");
          calculate_volatility_metrics := calculate_volatility_metrics w;
          get_status := get_status w;
          calculate_realized_volatility := calculate_realized_volatility w;
          calculate_volatility_regime := calculate_volatility_regime w;
          calculate_volatility_breakout := calculate_volatility_breakout w |};
     raises_Exceptions :=
       ltac:(destruct (raises_Exceptions w); only_Exceptions) |}.

(** A run that is interrupted inside the risk gate. *)
Definition interrupted (w : Oracles) : Oracles :=
  {| update_price_history := update_price_history w;
     should_trade := fun _ => Raise KeyboardInterrupt;
     calculate_atr_simple := calculate_atr_simple w;
     calculate_volatility_metrics := calculate_volatility_metrics w;
     get_status := get_status w;
     calculate_realized_volatility := calculate_realized_volatility w;
     calculate_volatility_regime := calculate_volatility_regime w;
     calculate_volatility_breakout := calculate_volatility_breakout w |}.

(** The same collaborators, but for the answer of the ATR helper. *)
Definition with_atr (atr : Q) (w : Collaborators) : Collaborators :=
  {| answers :=
       {| update_price_history := update_price_history w;
          should_trade := should_trade w;
          calculate_atr_simple := fun _ => Ok (Py.float atr);
          calculate_volatility_metrics := calculate_volatility_metrics w;
          get_status := get_status w;
          calculate_realized_volatility := calculate_realized_volatility w;
          calculate_volatility_regime := calculate_volatility_regime w;
          calculate_volatility_breakout := calculate_volatility_breakout w |};
     raises_Exceptions :=
       ltac:(destruct (raises_Exceptions w); only_Exceptions) |}.

Definition flagged_breakout (strength : Q) : option (gmap string Py.value) :=
  Some {[ "is_breakout" := Py.Bool true;
          "breakout_strength" := Py.Float (Py.float strength) ]}.

End Example.

(** ** Vocabulary of the statements *)

(** [runs m s r s' t]: started with the attributes [s], the computation [m]
    ends with the result [r] and the attributes [s'], having produced the
    events [t]. *)
Definition runs {A : Type} (m : M A) (s : StrategyState) (r : res A)
    (s' : StrategyState) (t : list event) : Prop :=
  m s = (r, s', t).

(** A method that leaves the attributes of the instance alone. *)
Definition preserves_state {A : Type} (m : M A) : Prop :=
  forall s, final m s = s.

(** A computation that raises nothing but instances of [Exception]. *)
Definition raises_only_Exceptions {A : Type} (m : M A) : Prop :=
  forall s, catchable (result m s).

(** The call [c] to the collaborators [w] raises [e]. *)
Definition raised_by (w : Oracles) (c : call) (e : exn) : Prop :=
  match c with
  | update_price_history_call market_data => update_price_history w market_data = Raise e
  | should_trade_call market_data => should_trade w market_data = Raise e
  | calculate_atr_simple_call prices => calculate_atr_simple w prices = Raise e
  | calculate_volatility_metrics_call => calculate_volatility_metrics w = Raise e
  | get_status_call => get_status w = Raise e
  | calculate_realized_volatility_call timeframe windows =>
      calculate_realized_volatility w timeframe windows = Raise e
  | calculate_volatility_regime_call timeframe =>
      calculate_volatility_regime w timeframe = Raise e
  | calculate_volatility_breakout_call timeframe =>
      calculate_volatility_breakout w timeframe = Raise e
  end.

(** A computation that lets through what its [except Exception] clauses do
    not catch: when one of the calls it makes raises an exception that is
    not an instance of [Exception], the computation raises it. *)
Definition lets_through {A : Type} (w : Oracles) (m : M A) : Prop :=
  forall s c e,
    Call c ∈ trace m s -> raised_by w c e -> is_Exception e = false ->
    result m s = Raise e.

(** A method that always returns. *)
Definition never_raises {A : Type} (m : M A) : Prop :=
  forall s, exists a, result m s = Ok a.

(** A reading that the loop keeps: the history manager returned a dictionary
    that is not empty. *)
Definition available (w : Oracles) (timeframe : string)
    (vols : gmap string Qc) : Prop :=
  calculate_realized_volatility w timeframe (20, 60)%Z = Ok (Some vols)
  /\ Py.nonempty vols = true.

Definition readings (vols_5m vols_15m vols_1h : gmap string Qc)
  : gmap string (gmap string Qc) :=
  <["1h" := vols_1h]> (<["15m" := vols_15m]> (<["5m" := vols_5m]> ∅)).

Definition reading_calls : list event :=
  [Call (calculate_realized_volatility_call "5m" (20, 60)%Z);
   Call (calculate_realized_volatility_call "15m" (20, 60)%Z);
   Call (calculate_realized_volatility_call "1h" (20, 60)%Z)].

(** The log records that end a run of the analysis. *)
Definition analysis_log (short_vol medium_vol long_vol overall_slope : Qc)
    (signal : option Signal) : list event :=
  [Log INFO TermStructureAnalysis;
   Log INFO (ShortVol short_vol);
   Log INFO (MediumVol medium_vol);
   Log INFO (LongVol long_vol);
   Log INFO (OverallSlope overall_slope);
   Log INFO (SignalAction (action <$> signal))].

(** The ATR helper answers, if it is asked. *)
Definition atr_succeeds (w : Oracles) (market_data : MarketData) : Prop :=
  (20 <= length (price_15m market_data))%nat ->
  exists atr, calculate_atr_simple w (Py.last_n 20 (price_15m market_data)) = Ok atr.

(** A call of one of the methods of the class, with the collaborators as
    they answer during that call. *)
Inductive operation : Type :=
| GenerateSignal (w : Collaborators) (market_data : MarketData)
| HasSufficientData (w : Collaborators)
| AnalyzeTermStructure (w : Collaborators) (market_data : MarketData)
| ValidateCarryOpportunity (w : Collaborators) (signal : Signal) (market_data : MarketData)
| GetStrategyStatus (w : Collaborators).

(** The attributes after one call. *)
Definition perform (self : Strategy) (s : StrategyState) (op : operation) : StrategyState :=
  match op with
  | GenerateSignal w market_data => final (generate_signal self w market_data) s
  | HasSufficientData w => final (_has_sufficient_data w) s
  | AnalyzeTermStructure w market_data => final (_analyze_term_structure self w market_data) s
  | ValidateCarryOpportunity w signal market_data =>
      final (_validate_carry_opportunity self w signal market_data) s
  | GetStrategyStatus w => final (get_strategy_status self w) s
  end.

(** The attributes after a sequence of calls. *)
Definition lifetime (self : Strategy) (ops : list operation) (s : StrategyState)
  : StrategyState :=
  foldl (perform self) s ops.

(** The events of a computation all satisfy [P]. *)
Definition emits {A : Type} (P : event -> Prop) (m : M A) : Prop :=
  forall s, Forall P (trace m s).

(** The events only [_validate_carry_opportunity] produces. *)
Definition from_validation (ev : event) : bool :=
  match ev with
  | Call (calculate_volatility_regime_call _) => true
  | Call (calculate_volatility_breakout_call _) => true
  | Log _ (ErrorValidating _) => true
  | _ => false
  end.

(** The ways an evaluation by [generate_signal] can go: the value it returns
    and the events it leaves, from the answers of the collaborators and the
    runs of the analyzer and of the validator. *)
Inductive path (self : Strategy) (w : Collaborators) (market_data : MarketData)
    (s : StrategyState) : option Signal -> list event -> Prop :=
| path_update_raises e :
    update_price_history w market_data = Raise e ->
    path self w market_data s None
      [Call (update_price_history_call market_data);
       Log ERROR (ErrorGeneratingSignal e)]
| path_status_raises e :
    update_price_history w market_data = Ok tt ->
    get_status w = Raise e ->
    path self w market_data s None
      [Call (update_price_history_call market_data); Call get_status_call;
       Log ERROR (ErrorGeneratingSignal e)]
| path_insufficient status :
    update_price_history w market_data = Ok tt ->
    get_status w = Ok status ->
    sufficient_for status required_data = false ->
    path self w market_data s None
      [Call (update_price_history_call market_data); Call get_status_call;
       Log INFO InsufficientData]
| path_no_candidate status ta :
    update_price_history w market_data = Ok tt ->
    get_status w = Ok status ->
    sufficient_for status required_data = true ->
    runs (_analyze_term_structure self w market_data) s (Ok None) s ta ->
    path self w market_data s None
      ([Call (update_price_history_call market_data); Call get_status_call]
       ++ ta ++ [Log INFO NoTermStructureSignal])
| path_rejected status signal ta tv :
    update_price_history w market_data = Ok tt ->
    get_status w = Ok status ->
    sufficient_for status required_data = true ->
    runs (_analyze_term_structure self w market_data) s (Ok (Some signal)) s ta ->
    runs (_validate_carry_opportunity self w signal market_data) s (Ok false) s tv ->
    path self w market_data s None
      ([Call (update_price_history_call market_data); Call get_status_call]
       ++ ta ++ tv ++ [Log INFO ValidationFailed])
| path_risk_gate_raises status signal ta tv e :
    update_price_history w market_data = Ok tt ->
    get_status w = Ok status ->
    sufficient_for status required_data = true ->
    runs (_analyze_term_structure self w market_data) s (Ok (Some signal)) s ta ->
    runs (_validate_carry_opportunity self w signal market_data) s (Ok true) s tv ->
    should_trade w market_data = Raise e ->
    path self w market_data s None
      ([Call (update_price_history_call market_data); Call get_status_call]
       ++ ta ++ tv
       ++ [Call (should_trade_call market_data); Log ERROR (ErrorGeneratingSignal e)])
| path_blocked status signal ta tv :
    update_price_history w market_data = Ok tt ->
    get_status w = Ok status ->
    sufficient_for status required_data = true ->
    runs (_analyze_term_structure self w market_data) s (Ok (Some signal)) s ta ->
    runs (_validate_carry_opportunity self w signal market_data) s (Ok true) s tv ->
    should_trade w market_data = Ok false ->
    path self w market_data s None
      ([Call (update_price_history_call market_data); Call get_status_call]
       ++ ta ++ tv
       ++ [Call (should_trade_call market_data); Log INFO RiskManagementBlocked])
| path_below_minimum status signal ta tv :
    update_price_history w market_data = Ok tt ->
    get_status w = Ok status ->
    sufficient_for status required_data = true ->
    runs (_analyze_term_structure self w market_data) s (Ok (Some signal)) s ta ->
    runs (_validate_carry_opportunity self w signal market_data) s (Ok true) s tv ->
    should_trade w market_data = Ok true ->
    (confidence signal < min_confidence (risk_management (system_config self)))%Qc ->
    path self w market_data s None
      ([Call (update_price_history_call market_data); Call get_status_call]
       ++ ta ++ tv
       ++ [Call (should_trade_call market_data);
           Log INFO (ConfidenceBelowMinimum (confidence signal)
                       (min_confidence (risk_management (system_config self))))])
| path_emitted status signal ta tv :
    update_price_history w market_data = Ok tt ->
    get_status w = Ok status ->
    sufficient_for status required_data = true ->
    runs (_analyze_term_structure self w market_data) s (Ok (Some signal)) s ta ->
    runs (_validate_carry_opportunity self w signal market_data) s (Ok true) s tv ->
    should_trade w market_data = Ok true ->
    (min_confidence (risk_management (system_config self)) <= confidence signal)%Qc ->
    path self w market_data s (Some signal)
      ([Call (update_price_history_call market_data); Call get_status_call]
       ++ ta ++ tv
       ++ [Call (should_trade_call market_data);
           Log INFO (Generated (if bool_decide (action signal = SELL) then "SELL" else "BUY")
                       (confidence signal))]).

(** The log records [generate_signal] itself writes. *)
Definition from_orchestrator (ev : event) : bool :=
  match ev with
  | Log _ InsufficientData => true
  | Log _ NoTermStructureSignal => true
  | Log _ ValidationFailed => true
  | Log _ RiskManagementBlocked => true
  | Log _ (ConfidenceBelowMinimum _ _) => true
  | Log _ (Generated _ _) => true
  | Log _ (ErrorGeneratingSignal _) => true
  | _ => false
  end.

(** The collaborator calls among the events. *)
Definition calls (t : list event) : list call :=
  omap (fun ev => match ev with Call c => Some c | Log _ _ => None end) t.

(** The calls of a computation are taken from the list [L], in its order and
    each at most once. *)
Definition within {A : Type} (L : list call) (m : M A) : Prop :=
  forall s, calls (trace m s) `sublist_of` L.

(** The calls an evaluation by [generate_signal] can make. *)
Definition evaluation_calls (market_data : MarketData) : list call :=
  [update_price_history_call market_data;
   get_status_call;
   calculate_realized_volatility_call "5m" (20, 60)%Z;
   calculate_realized_volatility_call "15m" (20, 60)%Z;
   calculate_realized_volatility_call "1h" (20, 60)%Z;
   calculate_atr_simple_call (Py.last_n 20 (price_15m market_data));
   calculate_volatility_regime_call "15m";
   calculate_volatility_breakout_call "15m";
   should_trade_call market_data].

(** The regime filter of lines 181-185. *)
Definition regime_rejects (vol_regime : string) (signal : Signal) : bool :=
  bool_decide (vol_regime = "low") && bool_decide (action signal = 2%Z)
  || bool_decide (vol_regime = "high") && bool_decide (action signal = 1%Z).

(** In the statements below, [w] stands for the collaborators of an ordinary
    run unless it is declared otherwise. *)
Implicit Types w : Collaborators.

(** ** Arithmetic of floats *)

(** Moves a goal on [Qc] to the rationals it denotes. *)
Ltac to_Q :=
  unfold Py.float, Qcle, Qclt, Qcminus, Qcdiv, Qcplus, Qcmult, Qcopp, Qcinv in *;
  cbn [this Q2Qc] in *;
  repeat match goal with
         | H : context [Qred _] |- _ => setoid_rewrite Qred_correct in H
         end;
  repeat (setoid_rewrite Qred_correct).

Lemma gt_true (x y : Qc) : Py.gt x y = true <-> (y < x)%Qc.
Proof. unfold Py.gt. apply bool_decide_eq_true. Qed.

Lemma gt_false (x y : Qc) : Py.gt x y = false <-> (x <= y)%Qc.
Proof.
  unfold Py.gt. rewrite bool_decide_eq_false. split.
  - apply Qcnot_lt_le.
  - apply Qcle_not_lt.
Qed.

Lemma lt_true (x y : Qc) : Py.lt x y = true <-> (x < y)%Qc.
Proof. unfold Py.lt. apply bool_decide_eq_true. Qed.

Lemma lt_false (x y : Qc) : Py.lt x y = false <-> (y <= x)%Qc.
Proof.
  unfold Py.lt. rewrite bool_decide_eq_false. split.
  - apply Qcnot_lt_le.
  - apply Qcle_not_lt.
Qed.

Lemma min_le_l (a b : Qc) : (Py.min a b <= a)%Qc.
Proof.
  unfold Py.min. destruct (Py.lt b a) eqn:E.
  - apply Qclt_le_weak. now apply lt_true.
  - apply Qcle_refl.
Qed.

Lemma min_le_r (a b : Qc) : (Py.min a b <= b)%Qc.
Proof.
  unfold Py.min. destruct (Py.lt b a) eqn:E.
  - apply Qcle_refl.
  - now apply lt_false.
Qed.

Lemma min_glb (a b c : Qc) : (c <= a -> c <= b -> c <= Py.min a b)%Qc.
Proof. intros Ha Hb. unfold Py.min. now destruct (Py.lt b a). Qed.

Lemma truediv_ok (x y : Qc) : y <> 0%Qc -> Py.truediv x y = Ok (x / y)%Qc.
Proof. intros Hy. unfold Py.truediv. now rewrite bool_decide_eq_false_2. Qed.

Lemma truediv_zero (x : Qc) : Py.truediv x 0%Qc = Raise ZeroDivisionError.
Proof. reflexivity. Qed.

Lemma div_gt_1 (x c : Qc) : (0 < c -> c < x -> 1 < x / c)%Qc.
Proof.
  intros Hc Hx. to_Q.
  apply Qlt_shift_div_l; [exact Hc | lra].
Qed.

(** ** Runs *)

Section Runs.

Context {A B : Type}.

Lemma runs_ret (a : A) s : runs (ret a) s (Ok a) s [].
Proof. reflexivity. Qed.

Lemma runs_lift (r : res A) s : runs (lift r) s r s [].
Proof. reflexivity. Qed.

Lemma runs_invoke (c : call) (r : res A) s : runs (invoke c r) s r s [Call c].
Proof. reflexivity. Qed.

Lemma runs_bind_ok (m : M A) (k : A -> M B) s a s1 t1 r s2 t2 :
  runs m s (Ok a) s1 t1 -> runs (k a) s1 r s2 t2 ->
  runs (bind m k) s r s2 (t1 ++ t2).
Proof. unfold runs, bind. now intros -> ->. Qed.

Lemma runs_bind_raise (m : M A) (k : A -> M B) s e s1 t1 :
  runs m s (Raise e) s1 t1 -> runs (bind m k) s (Raise e) s1 t1.
Proof. unfold runs, bind. now intros ->. Qed.

Lemma runs_try_ok (m : M A) (h : exn -> M A) s a s1 t1 :
  runs m s (Ok a) s1 t1 -> runs (try_except m h) s (Ok a) s1 t1.
Proof. unfold runs, try_except. now intros ->. Qed.

Lemma runs_try_raise (m : M A) (h : exn -> M A) s e s1 t1 r s2 t2 :
  runs m s (Raise e) s1 t1 -> is_Exception e = true -> runs (h e) s1 r s2 t2 ->
  runs (try_except m h) s r s2 (t1 ++ t2).
Proof. unfold runs, try_except. now intros -> -> ->. Qed.

Lemma runs_try_escape (m : M A) (h : exn -> M A) s e s1 t1 :
  runs m s (Raise e) s1 t1 -> is_Exception e = false ->
  runs (try_except m h) s (Raise e) s1 t1.
Proof. unfold runs, try_except. now intros -> ->. Qed.

Lemma runs_observed (m : M A) s : runs m s (result m s) (final m s) (trace m s).
Proof. unfold runs, result, final, trace. now destruct (m s) as [[r s1] t1]. Qed.

Lemma runs_result (m : M A) s r s1 t1 : runs m s r s1 t1 -> result m s = r.
Proof. unfold runs, result. now intros ->. Qed.

Lemma runs_final (m : M A) s r s1 t1 : runs m s r s1 t1 -> final m s = s1.
Proof. unfold runs, final. now intros ->. Qed.

Lemma runs_trace (m : M A) s r s1 t1 : runs m s r s1 t1 -> trace m s = t1.
Proof. unfold runs, trace. now intros ->. Qed.

End Runs.

Lemma runs_log (l : level) (m : message) s : runs (log l m) s (Ok tt) s [Log l m].
Proof. reflexivity. Qed.

Lemma runs_log_ret {A : Type} (l : level) (m : message) (a : A) s :
  runs (log l m;; ret a) s (Ok a) s [Log l m].
Proof. reflexivity. Qed.

(** One step of a sequence: an operation that returned, a collaborator that
    answered, a log record. *)
Lemma runs_step_lift {A B : Type} (a : A) (k : A -> M B) s r s2 t2 :
  runs (k a) s r s2 t2 -> runs (bind (lift (Ok a)) k) s r s2 t2.
Proof. intros H. exact (runs_bind_ok (lift (Ok a)) k s a s [] r s2 t2 (runs_lift _ _) H). Qed.

Lemma runs_step_invoke {A B : Type} (c : call) (a : A) (k : A -> M B) s r s2 t2 :
  runs (k a) s r s2 t2 -> runs (bind (invoke c (Ok a)) k) s r s2 (Call c :: t2).
Proof.
  intros H. exact (runs_bind_ok (invoke c (Ok a)) k s a s [Call c] r s2 t2 (runs_invoke _ _ _) H).
Qed.

Lemma runs_step_log {B : Type} (l : level) (m : message) (k : unit -> M B) s r s2 t2 :
  runs (k tt) s r s2 t2 -> runs (bind (log l m) k) s r s2 (Log l m :: t2).
Proof.
  intros H. exact (runs_bind_ok (log l m) k s tt s [Log l m] r s2 t2 (runs_log _ _ _) H).
Qed.

Lemma runs_stop_lift {A B : Type} (e : exn) (k : A -> M B) s :
  runs (bind (lift (Raise e)) k) s (Raise e) s [].
Proof. reflexivity. Qed.

Lemma runs_stop_invoke {A B : Type} (c : call) (e : exn) (k : A -> M B) s :
  runs (bind (invoke c (Raise e)) k) s (Raise e) s [Call c].
Proof. reflexivity. Qed.

(** *** Methods leave the attributes of the instance alone *)

Create HintDb frame.

Lemma preserves_ret {A : Type} (a : A) : preserves_state (ret a).
Proof. now intros s. Qed.

Lemma preserves_lift {A : Type} (r : res A) : preserves_state (lift r).
Proof. now intros s. Qed.

Lemma preserves_invoke {A : Type} (c : call) (r : res A) : preserves_state (invoke c r).
Proof. now intros s. Qed.

Lemma preserves_log (l : level) (m : message) : preserves_state (log l m).
Proof. now intros s. Qed.

Lemma preserves_get_state : preserves_state get_state.
Proof. now intros s. Qed.

Lemma preserves_bind {A B : Type} (m : M A) (k : A -> M B) :
  preserves_state m -> (forall a, preserves_state (k a)) -> preserves_state (bind m k).
Proof.
  intros Hm Hk s. specialize (Hm s). unfold final, bind in *.
  destruct (m s) as [[[a|e] s1] t1]; cbn in *; subst s1; [|reflexivity].
  specialize (Hk a s). unfold final in Hk.
  now destruct (k a s) as [[r s2] t2].
Qed.

Lemma preserves_try_except {A : Type} (m : M A) (h : exn -> M A) :
  preserves_state m -> (forall e, preserves_state (h e)) -> preserves_state (try_except m h).
Proof.
  intros Hm Hh s. specialize (Hm s). unfold final, try_except in *.
  destruct (m s) as [[[a|e] s1] t1]; cbn in *; subst s1; [reflexivity|].
  destruct (is_Exception e); [|reflexivity].
  specialize (Hh e s). unfold final in Hh.
  now destruct (h e s) as [[r s2] t2].
Qed.

#[global] Hint Resolve preserves_ret preserves_lift preserves_invoke preserves_log
  preserves_get_state preserves_bind preserves_try_except : frame.

Ltac frame :=
  repeat first
    [ progress auto with frame
    | match goal with |- forall _, _ => intro end
    | apply preserves_bind
    | apply preserves_try_except
    | match goal with
      | |- preserves_state (if ?b then _ else _) => destruct b
      | |- preserves_state (match ?x with Some _ => _ | None => _ end) => destruct x
      end ].

Lemma preserves_has_sufficient_data (w : Oracles) : preserves_state (_has_sufficient_data w).
Proof. unfold _has_sufficient_data. frame. Qed.

Lemma preserves_collect_vol_structure (w : Oracles) tfs vs :
  preserves_state (collect_vol_structure w tfs vs).
Proof.
  revert vs. induction tfs as [|tf tfs IH]; intros vs; cbn [collect_vol_structure]; frame.
Qed.

Lemma preserves_atr_of (w : Oracles) market_data : preserves_state (atr_of w market_data).
Proof. unfold atr_of. frame. Qed.

#[global] Hint Resolve preserves_has_sufficient_data preserves_collect_vol_structure
  preserves_atr_of : frame.

Lemma preserves_carry_signal_logic self (w : Oracles) market_data overall_slope :
  preserves_state (carry_signal_logic self w market_data overall_slope).
Proof. unfold carry_signal_logic. frame. Qed.

#[global] Hint Resolve preserves_carry_signal_logic : frame.

Lemma preserves_analyze_term_structure self (w : Oracles) market_data :
  preserves_state (_analyze_term_structure self w market_data).
Proof. unfold _analyze_term_structure, analyze_term_structure_body. frame. Qed.

Lemma preserves_validate_carry_opportunity self (w : Oracles) signal market_data :
  preserves_state (_validate_carry_opportunity self w signal market_data).
Proof. unfold _validate_carry_opportunity. frame. Qed.

#[global] Hint Resolve preserves_analyze_term_structure
  preserves_validate_carry_opportunity : frame.

Lemma preserves_generate_signal self (w : Oracles) market_data :
  preserves_state (generate_signal self w market_data).
Proof. unfold generate_signal. frame. Qed.

Lemma preserves_get_strategy_status self (w : Oracles) :
  preserves_state (get_strategy_status self w).
Proof. unfold get_strategy_status. frame. Qed.

(** *** What a method can raise *)

Lemma catchable_Ok {A : Type} (a : A) : catchable (Ok a).
Proof. intros e H. discriminate H. Qed.

Lemma catchable_truediv (x y : Qc) : catchable (Py.truediv x y).
Proof.
  intros e. unfold Py.truediv. case_bool_decide as Hz; [|discriminate].
  now intros [= <-].
Qed.

Lemma catchable_getitem {V : Type} (d : gmap string V) (k : string) :
  catchable (Py.getitem d k).
Proof. intros e. unfold Py.getitem. destruct (d !! k); [discriminate|]. now intros [= <-]. Qed.

Lemma catchable_index {A : Type} (l : list A) (i : Z) : catchable (Py.index l i).
Proof.
  intros e. unfold Py.index. cbv zeta.
  destruct (_ <? 0)%Z; [now intros [= <-]|].
  destruct (l !! _); [discriminate|]. now intros [= <-].
Qed.

Lemma catchable_slope (longer shorter : Qc) : catchable (slope longer shorter).
Proof. unfold slope. destruct (Py.gt shorter 0%Qc); [apply catchable_truediv|apply catchable_Ok]. Qed.

Lemma catchable_signal_strength (x threshold : Qc) : catchable (signal_strength x threshold).
Proof.
  intros e. unfold signal_strength.
  destruct (Py.truediv x threshold) as [q|e'] eqn:Hq; [discriminate|].
  intros [= <-]. exact (catchable_truediv x threshold e' Hq).
Qed.

Lemma catchable_update_price_history w market_data :
  catchable (update_price_history w market_data).
Proof. apply (update_price_history_catchable _ (raises_Exceptions w)). Qed.

Lemma catchable_should_trade w market_data : catchable (should_trade w market_data).
Proof. apply (should_trade_catchable _ (raises_Exceptions w)). Qed.

Lemma catchable_calculate_atr_simple w prices : catchable (calculate_atr_simple w prices).
Proof. apply (calculate_atr_simple_catchable _ (raises_Exceptions w)). Qed.

Lemma catchable_calculate_volatility_metrics w : catchable (calculate_volatility_metrics w).
Proof. apply (calculate_volatility_metrics_catchable _ (raises_Exceptions w)). Qed.

Lemma catchable_get_status w : catchable (get_status w).
Proof. apply (get_status_catchable _ (raises_Exceptions w)). Qed.

Lemma catchable_calculate_realized_volatility w timeframe windows :
  catchable (calculate_realized_volatility w timeframe windows).
Proof. apply (calculate_realized_volatility_catchable _ (raises_Exceptions w)). Qed.

Lemma catchable_calculate_volatility_regime w timeframe :
  catchable (calculate_volatility_regime w timeframe).
Proof. apply (calculate_volatility_regime_catchable _ (raises_Exceptions w)). Qed.

Lemma catchable_calculate_volatility_breakout w timeframe :
  catchable (calculate_volatility_breakout w timeframe).
Proof. apply (calculate_volatility_breakout_catchable _ (raises_Exceptions w)). Qed.

Create HintDb catchable.

#[global] Hint Resolve catchable_Ok catchable_truediv catchable_getitem catchable_index
  catchable_slope catchable_signal_strength catchable_update_price_history
  catchable_should_trade catchable_calculate_atr_simple
  catchable_calculate_volatility_metrics catchable_get_status
  catchable_calculate_realized_volatility catchable_calculate_volatility_regime
  catchable_calculate_volatility_breakout : catchable.

Lemma only_ret {A : Type} (a : A) : raises_only_Exceptions (ret a).
Proof. intros s e H. discriminate H. Qed.

Lemma only_log (l : level) (m : message) : raises_only_Exceptions (log l m).
Proof. intros s e H. discriminate H. Qed.

Lemma only_get_state : raises_only_Exceptions get_state.
Proof. intros s e H. discriminate H. Qed.

Lemma only_lift {A : Type} (r : res A) : catchable r -> raises_only_Exceptions (lift r).
Proof. intros H s. exact H. Qed.

Lemma only_invoke {A : Type} (c : call) (r : res A) :
  catchable r -> raises_only_Exceptions (invoke c r).
Proof. intros H s. exact H. Qed.

Lemma only_bind {A B : Type} (m : M A) (k : A -> M B) :
  raises_only_Exceptions m -> (forall a, raises_only_Exceptions (k a)) ->
  raises_only_Exceptions (bind m k).
Proof.
  intros Hm Hk s e. specialize (Hm s e). unfold result, bind in *.
  destruct (m s) as [[[a|e'] s1] t1]; cbn in *.
  - specialize (Hk a s1 e). unfold result in Hk.
    now destruct (k a s1) as [[r s2] t2].
  - intros [= <-]. now apply Hm.
Qed.

Lemma only_try_except {A : Type} (m : M A) (h : exn -> M A) :
  raises_only_Exceptions m -> (forall e, raises_only_Exceptions (h e)) ->
  raises_only_Exceptions (try_except m h).
Proof.
  intros Hm Hh s e. specialize (Hm s e). unfold result, try_except in *.
  destruct (m s) as [[[a|e'] s1] t1]; cbn in *; [discriminate|].
  destruct (is_Exception e') eqn:He'; [|exact Hm].
  specialize (Hh e' s1 e). unfold result in Hh.
  now destruct (h e' s1) as [[r s2] t2].
Qed.

Lemma only_never_raises {A : Type} (m : M A) :
  never_raises m -> raises_only_Exceptions m.
Proof. intros H s e He. destruct (H s) as [a Ha]. congruence. Qed.

(** Settles [is_Exception e] in the goal for the exception [e] of an outcome
    that is known to be caught. *)
Ltac caught :=
  repeat match goal with
    | H : ?r = Raise ?e |- context [is_Exception ?e] =>
        let C := fresh "C" in
        assert (C : is_Exception e = true)
          by (assert (catchable r) as C by auto with catchable; exact (C e H));
        rewrite C; clear C
    end.

(** Walks a method, leaving the outcomes that are not known to be caught. *)
Ltac catchable :=
  repeat match goal with
    | |- forall _, _ => intro
    | |- raises_only_Exceptions (ret _) => apply only_ret
    | |- raises_only_Exceptions (log _ _) => apply only_log
    | |- raises_only_Exceptions get_state => apply only_get_state
    | |- raises_only_Exceptions (bind _ _) => apply only_bind
    | |- raises_only_Exceptions (try_except _ _) => apply only_try_except
    | |- raises_only_Exceptions (lift _) => apply only_lift
    | |- raises_only_Exceptions (invoke _ _) => apply only_invoke
    | |- raises_only_Exceptions (if ?b then _ else _) => destruct b
    | |- raises_only_Exceptions (match ?x with Some _ => _ | None => _ end) => destruct x
    end;
  auto with catchable.

(** A [try] block never raises when its body raises instances of [Exception]
    only and its handler returns. *)
Lemma try_except_never_raises {A : Type} (m : M A) (h : exn -> M A) :
  raises_only_Exceptions m -> (forall e, never_raises (h e)) ->
  never_raises (try_except m h).
Proof.
  intros Hm Hh s. specialize (Hm s). unfold result, try_except in *.
  destruct (m s) as [[[a|e] s1] t1]; cbn in *.
  - now exists a.
  - rewrite (Hm e eq_refl). destruct (Hh e s1) as [a Ha]. unfold result in Ha.
    destruct (h e s1) as [[r s2] t2]. cbn in *. now exists a.
Qed.

(** What leaves a [try] block whose handler returns is not an instance of
    [Exception]. *)
Lemma try_except_escape {A : Type} (m : M A) (h : exn -> M A) s e :
  (forall e', never_raises (h e')) ->
  result (try_except m h) s = Raise e ->
  is_Exception e = false /\ result m s = Raise e.
Proof.
  intros Hh. unfold result, try_except.
  destruct (m s) as [[[a|e'] s1] t1]; cbn; [discriminate|].
  destruct (is_Exception e') eqn:He'.
  - destruct (Hh e' s1) as [a Ha]. unfold result in Ha.
    destruct (h e' s1) as [[r s2] t2]. cbn in *. congruence.
  - intros [= <-]. auto.
Qed.

Lemma log_then_ret_never_raises {A : Type} (l : level) (m : message) (a : A) :
  never_raises (log l m;; ret a).
Proof. intros s. now exists a. Qed.

Lemma only_collect_vol_structure w tfs vs :
  raises_only_Exceptions (collect_vol_structure w tfs vs).
Proof.
  revert vs. induction tfs as [|tf tfs IH]; intros vs; cbn [collect_vol_structure];
    catchable.
Qed.

Lemma only_analyze_term_structure_body self w market_data :
  raises_only_Exceptions (analyze_term_structure_body self w market_data).
Proof.
  unfold analyze_term_structure_body, carry_signal_logic, atr_of.
  apply only_bind; [apply only_collect_vol_structure|]. catchable.
Qed.

Lemma body_raises_Exception self w market_data s e s1 t1 :
  runs (analyze_term_structure_body self w market_data) s (Raise e) s1 t1 ->
  is_Exception e = true.
Proof.
  intros H. apply (only_analyze_term_structure_body self w market_data s).
  exact (runs_result _ _ _ _ _ H).
Qed.

Lemma analyze_never_raises self w market_data :
  never_raises (_analyze_term_structure self w market_data).
Proof.
  apply try_except_never_raises; [apply only_analyze_term_structure_body|].
  intros e. apply log_then_ret_never_raises.
Qed.

Lemma validate_never_raises self w signal market_data :
  never_raises (_validate_carry_opportunity self w signal market_data).
Proof.
  apply try_except_never_raises; [catchable|].
  intros e. apply log_then_ret_never_raises.
Qed.

Lemma generate_signal_never_raises self w market_data :
  never_raises (generate_signal self w market_data).
Proof.
  apply try_except_never_raises.
  - unfold _has_sufficient_data.
    apply only_bind; [catchable|]. intros _.
    apply only_bind; [catchable|]. intros sufficient.
    destruct (negb sufficient); [catchable|].
    apply only_bind; [apply only_never_raises, analyze_never_raises|].
    intros [primary_signal|]; [|catchable].
    apply only_bind; [apply only_never_raises, validate_never_raises|].
    intros valid. catchable.
  - intros e. apply log_then_ret_never_raises.
Qed.

Lemma get_strategy_status_never_raises self w :
  never_raises (get_strategy_status self w).
Proof.
  apply try_except_never_raises; [catchable|].
  intros e. apply log_then_ret_never_raises.
Qed.

(** A run of a method that never raises and keeps the attributes. *)
Lemma runs_method {A : Type} (m : M A) s :
  never_raises m -> preserves_state m ->
  exists a t, runs m s (Ok a) s t.
Proof.
  intros Hn Hp. destruct (Hn s) as [a Ha]. exists a, (trace m s).
  pose proof (runs_observed m s) as H. now rewrite Ha, (Hp s) in H.
Qed.

(** ** The realized-volatility readings (lines 89-100) *)

Lemma collect_available w s vols_5m vols_15m vols_1h :
  available w "5m" vols_5m -> available w "15m" vols_15m -> available w "1h" vols_1h ->
  runs (collect_vol_structure w timeframes ∅) s
       (Ok (readings vols_5m vols_15m vols_1h)) s reading_calls.
Proof.
  intros [H5 N5] [H15 N15] [H1 N1].
  unfold runs, timeframes. cbn [collect_vol_structure]. unfold bind, invoke, ret.
  rewrite H5, N5, H15, N15, H1, N1. reflexivity.
Qed.

Lemma collect_cases w s :
  (exists vols_5m vols_15m vols_1h,
      available w "5m" vols_5m /\ available w "15m" vols_15m
      /\ available w "1h" vols_1h)
  \/ (exists vs t, runs (collect_vol_structure w timeframes ∅) s (Ok vs) s t
                   /\ (size vs <? 3)%nat = true)
  \/ (exists e t, runs (collect_vol_structure w timeframes ∅) s (Raise e) s t).
Proof.
  unfold available, runs, timeframes. cbn [collect_vol_structure]. unfold bind, invoke, ret.
  destruct (calculate_realized_volatility w "5m" (20, 60)%Z) as [[v5|]|e5];
    [destruct (Py.nonempty v5) eqn:N5|..];
    (destruct (calculate_realized_volatility w "15m" (20, 60)%Z) as [[v15|]|e15];
     [destruct (Py.nonempty v15) eqn:N15|..]);
    (destruct (calculate_realized_volatility w "1h" (20, 60)%Z) as [[v1|]|e1];
     [destruct (Py.nonempty v1) eqn:N1|..]);
    first
      [ left; exists v5, v15, v1; repeat split; solve [reflexivity | assumption]
      | right; left; eexists _, _; split; [reflexivity|vm_compute; reflexivity]
      | right; right; eexists _, _; reflexivity ].
Qed.

(** ** The slopes (lines 110-112) *)

Lemma slope_nonpositive (longer shorter : Qc) :
  (shorter <= 0)%Qc -> slope longer shorter = Ok 0%Qc.
Proof. intros H. unfold slope. now rewrite (proj2 (gt_false shorter 0%Qc)). Qed.

Lemma slope_positive (longer shorter : Qc) :
  (0 < shorter)%Qc ->
  slope longer shorter = Py.truediv (longer - shorter)%Qc shorter
  /\ slope longer shorter = Ok ((longer - shorter) / shorter)%Qc.
Proof.
  intros H. unfold slope. rewrite (proj2 (gt_true shorter 0%Qc)) by exact H.
  split; [reflexivity|]. apply truediv_ok. intros ->.
  apply (Qclt_not_le _ _ H). apply Qcle_refl.
Qed.

Lemma slope_never_raises (longer shorter : Qc) :
  exists x, slope longer shorter = Ok x.
Proof.
  destruct (Qclt_le_dec 0 shorter) as [H|H].
  - eexists. apply (slope_positive longer shorter H).
  - eexists. now apply slope_nonpositive.
Qed.

(** C4.  The three slopes of the term structure never fault on a division by
    zero: a slope whose denominator is not strictly positive is 0, without
    any division, and it is the quotient [(longer - shorter) / shorter] only
    when the denominator is strictly positive. *)
Theorem slopes_guard_division (short_vol medium_vol long_vol : Qc) :
  (exists short_medium medium_long overall,
      slope medium_vol short_vol = Ok short_medium
      /\ slope long_vol medium_vol = Ok medium_long
      /\ slope long_vol short_vol = Ok overall)
  /\ ((short_vol <= 0)%Qc ->
      slope long_vol short_vol = Ok 0%Qc /\ slope medium_vol short_vol = Ok 0%Qc)
  /\ ((medium_vol <= 0)%Qc -> slope long_vol medium_vol = Ok 0%Qc)
  /\ ((0 < short_vol)%Qc ->
      slope long_vol short_vol = Py.truediv (long_vol - short_vol)%Qc short_vol
      /\ slope long_vol short_vol = Ok ((long_vol - short_vol) / short_vol)%Qc
      /\ slope medium_vol short_vol = Ok ((medium_vol - short_vol) / short_vol)%Qc)
  /\ ((0 < medium_vol)%Qc ->
      slope long_vol medium_vol = Ok ((long_vol - medium_vol) / medium_vol)%Qc).
Proof.
  repeat split.
  - destruct (slope_never_raises medium_vol short_vol) as [a Ha].
    destruct (slope_never_raises long_vol medium_vol) as [b Hb].
    destruct (slope_never_raises long_vol short_vol) as [c Hc].
    now exists a, b, c.
  - now apply slope_nonpositive.
  - now apply slope_nonpositive.
  - now apply slope_nonpositive.
  - now apply slope_positive.
  - now apply slope_positive.
  - now apply slope_positive.
  - now apply slope_positive.
Qed.

(** The slopes at a short-term volatility of 0. *)
Lemma slopes_guard_division_witness :
  slope (Py.float 0.02) 0%Qc = Ok 0%Qc /\ slope (Py.float 0.015) 0%Qc = Ok 0%Qc.
Proof.
  refine (proj1 (proj2 (slopes_guard_division 0%Qc (Py.float 0.015) (Py.float 0.02))) _).
  by_evaluation.
Defined.

Lemma readings_size v5 v15 v1 : (size (readings v5 v15 v1) <? 3)%nat = false.
Proof. vm_compute. reflexivity. Qed.

Lemma readings_getitem v5 v15 v1 :
  Py.getitem (readings v5 v15 v1) "5m" = Ok v5
  /\ Py.getitem (readings v5 v15 v1) "15m" = Ok v15
  /\ Py.getitem (readings v5 v15 v1) "1h" = Ok v1.
Proof. repeat split; reflexivity. Qed.

Lemma body_available self w market_data s vols_5m vols_15m vols_1h overall_slope r t :
  available w "5m" vols_5m -> available w "15m" vols_15m -> available w "1h" vols_1h ->
  slope (default 0%Qc (vols_1h !! "20_period")) (default 0%Qc (vols_5m !! "20_period"))
    = Ok overall_slope ->
  runs (carry_signal_logic self w market_data overall_slope) s r s t ->
  runs (analyze_term_structure_body self w market_data) s
    (match r with Ok locals => Ok locals.1 | Raise e => Raise e end) s
    (reading_calls ++ t ++
       match r with
       | Ok locals =>
           analysis_log (default 0%Qc (vols_5m !! "20_period"))
             (default 0%Qc (vols_15m !! "20_period"))
             (default 0%Qc (vols_1h !! "20_period")) overall_slope locals.1
       | Raise _ => []
       end).
Proof.
  intros A5 A15 A1 Hslope Hlogic.
  destruct (slope_never_raises (default 0%Qc (vols_15m !! "20_period"))
              (default 0%Qc (vols_5m !! "20_period"))) as [sm Hsm].
  destruct (slope_never_raises (default 0%Qc (vols_1h !! "20_period"))
              (default 0%Qc (vols_15m !! "20_period"))) as [ml Hml].
  unfold analyze_term_structure_body.
  eapply runs_bind_ok;
    [exact (collect_available w s vols_5m vols_15m vols_1h A5 A15 A1)|].
  rewrite readings_size.
  destruct (readings_getitem vols_5m vols_15m vols_1h) as (G5 & G15 & G1).
  rewrite G5, G15, G1.
  do 3 apply runs_step_lift.
  rewrite Hsm, Hml, Hslope.
  do 3 apply runs_step_lift.
  destruct r as [locals|e].
  - eapply runs_bind_ok; [exact Hlogic|]. reflexivity.
  - rewrite app_nil_r. eapply runs_bind_raise. exact Hlogic.
Qed.

Lemma analyze_available self w market_data s vols_5m vols_15m vols_1h overall_slope r t :
  available w "5m" vols_5m -> available w "15m" vols_15m -> available w "1h" vols_1h ->
  slope (default 0%Qc (vols_1h !! "20_period")) (default 0%Qc (vols_5m !! "20_period"))
    = Ok overall_slope ->
  runs (carry_signal_logic self w market_data overall_slope) s r s t ->
  result (_analyze_term_structure self w market_data) s =
  Ok (match r with Ok locals => locals.1 | Raise _ => None end).
Proof.
  intros A5 A15 A1 Hslope Hlogic.
  pose proof (body_available self w market_data s _ _ _ _ _ _ A5 A15 A1 Hslope Hlogic)
    as Hbody.
  unfold _analyze_term_structure. destruct r as [locals|e].
  - apply (runs_result _ _ _ _ _ (runs_try_ok _ _ _ _ _ _ Hbody)).
  - apply (runs_result _ _ _ _ _
             (runs_try_raise _ _ _ _ _ _ _ _ _ Hbody
                (body_raises_Exception _ _ _ _ _ _ _ Hbody) (runs_log_ret _ _ _ _))).
Qed.

(** Without the three readings the analysis gives no candidate. *)
Lemma analyze_some_available self w market_data s signal :
  result (_analyze_term_structure self w market_data) s = Ok (Some signal) ->
  exists vols_5m vols_15m vols_1h,
    available w "5m" vols_5m /\ available w "15m" vols_15m /\ available w "1h" vols_1h.
Proof.
  intros H. destruct (collect_cases w s) as [Hav|[(vs & t & Hrun & Hsize)|(e & t & Hrun)]].
  - exact Hav.
  - exfalso. unfold _analyze_term_structure, analyze_term_structure_body in H.
    assert (Hbody : runs (analyze_term_structure_body self w market_data) s (Ok None) s (t ++ [])).
    { unfold analyze_term_structure_body. eapply runs_bind_ok; [exact Hrun|].
      rewrite Hsize. apply runs_ret. }
    fold (analyze_term_structure_body self w market_data) in H.
    rewrite (runs_result _ _ _ _ _ (runs_try_ok _ _ _ _ _ _ Hbody)) in H. discriminate.
  - exfalso. unfold _analyze_term_structure in H.
    assert (Hbody : runs (analyze_term_structure_body self w market_data) s (Raise e) s t).
    { unfold analyze_term_structure_body. eapply runs_bind_raise. exact Hrun. }
    rewrite (runs_result _ _ _ _ _
               (runs_try_raise _ _ _ _ _ _ _ _ _ Hbody
                (body_raises_Exception _ _ _ _ _ _ _ Hbody) (runs_log_ret _ _ _ _))) in H.
    discriminate.
Qed.

(** ** The ATR (lines 125 and 144) *)

Lemma atr_of_short w market_data s :
  (length (price_15m market_data) < 20)%nat ->
  runs (atr_of w market_data) s
       (Ok (current_price market_data * Py.float 0.01)%Qc) s [].
Proof.
  intros H. unfold atr_of.
  destruct (Nat.leb_spec 20 (length (price_15m market_data))); [lia|]. apply runs_ret.
Qed.

Lemma atr_of_long w market_data s :
  (20 <= length (price_15m market_data))%nat ->
  runs (atr_of w market_data) s
       (calculate_atr_simple w (Py.last_n 20 (price_15m market_data))) s
       [Call (calculate_atr_simple_call (Py.last_n 20 (price_15m market_data)))].
Proof.
  intros H. unfold atr_of.
  destruct (Nat.leb_spec 20 (length (price_15m market_data))); [|lia]. apply runs_invoke.
Qed.

(** The ATR a run of [atr_of] returned is the collaborator's on the last 20
    points when there are that many, and 1% of the current price otherwise. *)
Lemma atr_of_ok w market_data s atr s' t :
  runs (atr_of w market_data) s (Ok atr) s' t ->
  ((20 <= length (price_15m market_data))%nat ->
   calculate_atr_simple w (Py.last_n 20 (price_15m market_data)) = Ok atr)
  /\ ((length (price_15m market_data) < 20)%nat ->
      atr = (current_price market_data * Py.float 0.01)%Qc).
Proof.
  intros H. split; intros Hlen.
  - pose proof (atr_of_long w market_data s Hlen) as H'. unfold runs in *.
    rewrite H in H'. now inversion H'.
  - pose proof (atr_of_short w market_data s Hlen) as H'. unfold runs in *.
    rewrite H in H'. now inversion H'.
Qed.

Lemma last_n_suffix {A : Type} (n : nat) (l : list A) :
  exists earlier, l = earlier ++ Py.last_n n l.
Proof. exists (take (length l - n) l). unfold Py.last_n. now rewrite take_drop. Qed.

Lemma last_n_length {A : Type} (n : nat) (l : list A) :
  (n <= length l)%nat -> length (Py.last_n n l) = n.
Proof. intros H. unfold Py.last_n. rewrite length_drop. lia. Qed.

Lemma atr_succeeds_run w market_data s :
  atr_succeeds w market_data -> exists atr t, runs (atr_of w market_data) s (Ok atr) s t.
Proof.
  intros H. destruct (Nat.le_gt_cases 20 (length (price_15m market_data))) as [Hlen|Hlen].
  - destruct (H Hlen) as [atr Hatr]. exists atr. eexists.
    rewrite <- Hatr. now apply atr_of_long.
  - eexists _, _. now apply atr_of_short.
Qed.

(** ** The case analysis on the overall slope (lines 114-155) *)

Section Logic.

Variables (self : Strategy) (w : Collaborators) (market_data : MarketData).
Variable overall_slope : Qc.

Let contango := contango_threshold (config self).
Let backwardation := backwardation_threshold (config self).

Lemma logic_contango s strength atr t :
  Py.gt overall_slope contango = true ->
  signal_strength overall_slope contango = Ok strength ->
  runs (atr_of w market_data) s (Ok atr) s t ->
  runs (carry_signal_logic self w market_data overall_slope) s
    (Ok (Some (contango_signal self market_data overall_slope
                 (signal_confidence strength) atr),
         signal_confidence strength)) s t.
Proof.
  intros Hgt Hst Hatr. unfold carry_signal_logic. fold contango. rewrite Hgt, Hst.
  apply runs_step_lift. rewrite <- (app_nil_r t).
  eapply runs_bind_ok; [exact Hatr|apply runs_ret].
Qed.

Lemma logic_backwardation s strength atr t :
  Py.gt overall_slope contango = false ->
  Py.lt overall_slope (- backwardation)%Qc = true ->
  signal_strength (Py.abs overall_slope) backwardation = Ok strength ->
  runs (atr_of w market_data) s (Ok atr) s t ->
  runs (carry_signal_logic self w market_data overall_slope) s
    (Ok (Some (backwardation_signal self market_data overall_slope
                 (signal_confidence strength) atr),
         signal_confidence strength)) s t.
Proof.
  intros Hgt Hlt Hst Hatr. unfold carry_signal_logic. fold contango backwardation.
  rewrite Hgt, Hlt, Hst.
  apply runs_step_lift. rewrite <- (app_nil_r t).
  eapply runs_bind_ok; [exact Hatr|apply runs_ret].
Qed.

Lemma logic_flat s :
  Py.gt overall_slope contango = false ->
  Py.lt overall_slope (- backwardation)%Qc = false ->
  runs (carry_signal_logic self w market_data overall_slope) s (Ok (None, 0%Qc)) s [].
Proof.
  intros Hgt Hlt. unfold carry_signal_logic. fold contango backwardation.
  rewrite Hgt, Hlt. apply runs_ret.
Qed.

Lemma logic_strength_fault s e :
  (Py.gt overall_slope contango = true /\ signal_strength overall_slope contango = Raise e)
  \/ (Py.gt overall_slope contango = false
      /\ Py.lt overall_slope (- backwardation)%Qc = true
      /\ signal_strength (Py.abs overall_slope) backwardation = Raise e) ->
  runs (carry_signal_logic self w market_data overall_slope) s (Raise e) s [].
Proof.
  unfold carry_signal_logic. fold contango backwardation.
  intros [[Hgt Hst]|(Hgt & Hlt & Hst)].
  - rewrite Hgt, Hst. apply runs_stop_lift.
  - rewrite Hgt, Hlt, Hst. apply runs_stop_lift.
Qed.

(** What a candidate tells about the run that built it. *)
Lemma logic_some_inv s signal confidence s' t :
  runs (carry_signal_logic self w market_data overall_slope) s
       (Ok (Some signal, confidence)) s' t ->
  exists strength atr,
    runs (atr_of w market_data) s (Ok atr) s' t
    /\ confidence = signal_confidence strength
    /\ ((Py.gt overall_slope contango = true
         /\ signal_strength overall_slope contango = Ok strength
         /\ signal = contango_signal self market_data overall_slope
                       (signal_confidence strength) atr)
        \/ (Py.gt overall_slope contango = false
            /\ Py.lt overall_slope (- backwardation)%Qc = true
            /\ signal_strength (Py.abs overall_slope) backwardation = Ok strength
            /\ signal = backwardation_signal self market_data overall_slope
                          (signal_confidence strength) atr)).
Proof.
  unfold runs, carry_signal_logic. fold contango backwardation.
  destruct (Py.gt overall_slope contango) eqn:Hgt;
    [|destruct (Py.lt overall_slope (- backwardation)%Qc) eqn:Hlt].
  - destruct (signal_strength overall_slope contango) as [strength|e] eqn:Hst;
      [|discriminate].
    unfold bind, lift, ret.
    destruct (atr_of w market_data s) as [[[atr|e] s1] t1] eqn:Hatr; [|discriminate].
    intros H. inversion H; subst. exists strength, atr.
    rewrite app_nil_r. split; [reflexivity|]. split; [reflexivity|]. left. auto.
  - destruct (signal_strength (Py.abs overall_slope) backwardation) as [strength|e] eqn:Hst;
      [|discriminate].
    unfold bind, lift, ret.
    destruct (atr_of w market_data s) as [[[atr|e] s1] t1] eqn:Hatr; [|discriminate].
    intros H. inversion H; subst. exists strength, atr.
    rewrite app_nil_r. split; [reflexivity|]. split; [reflexivity|]. right. auto.
  - discriminate.
Qed.

(** The local [confidence] keeps its initial 0 when no candidate is built. *)
Lemma logic_none_inv s confidence s' t :
  runs (carry_signal_logic self w market_data overall_slope) s
       (Ok (None, confidence)) s' t ->
  confidence = 0%Qc
  /\ Py.gt overall_slope contango = false
  /\ Py.lt overall_slope (- backwardation)%Qc = false.
Proof.
  unfold runs, carry_signal_logic. fold contango backwardation.
  destruct (Py.gt overall_slope contango) eqn:Hgt;
    [|destruct (Py.lt overall_slope (- backwardation)%Qc) eqn:Hlt].
  - destruct (signal_strength overall_slope contango) as [strength|e]; [|discriminate].
    unfold bind, lift, ret.
    destruct (atr_of w market_data s) as [[[atr|e] s1] t1]; discriminate.
  - destruct (signal_strength (Py.abs overall_slope) backwardation) as [strength|e];
      [|discriminate].
    unfold bind, lift, ret.
    destruct (atr_of w market_data s) as [[[atr|e] s1] t1]; discriminate.
  - intros H. inversion H. auto.
Qed.

End Logic.

Lemma signal_strength_ok (x threshold : Qc) :
  threshold <> 0%Qc ->
  signal_strength x threshold = Ok (Py.min (x / threshold)%Qc (Py.float 2.0)).
Proof. intros H. unfold signal_strength. now rewrite truediv_ok. Qed.

Lemma signal_strength_zero (x : Qc) :
  signal_strength x 0%Qc = Raise ZeroDivisionError.
Proof. reflexivity. Qed.

Lemma signal_strength_inv (x threshold strength : Qc) :
  signal_strength x threshold = Ok strength ->
  threshold <> 0%Qc /\ strength = Py.min (x / threshold)%Qc (Py.float 2.0).
Proof.
  unfold signal_strength, Py.truediv. case_bool_decide as Hz; [discriminate|].
  intros Heq. inversion Heq. auto.
Qed.

(** ** The term-structure analyzer *)

Lemma analyze_some_inv self w market_data s signal :
  result (_analyze_term_structure self w market_data) s = Ok (Some signal) ->
  exists vols_5m vols_15m vols_1h overall_slope strength atr t,
    available w "5m" vols_5m /\ available w "15m" vols_15m /\ available w "1h" vols_1h
    /\ slope (default 0%Qc (vols_1h !! "20_period"))
             (default 0%Qc (vols_5m !! "20_period")) = Ok overall_slope
    /\ runs (atr_of w market_data) s (Ok atr) s t
    /\ ((Py.gt overall_slope (contango_threshold (config self)) = true
         /\ signal_strength overall_slope (contango_threshold (config self)) = Ok strength
         /\ signal = contango_signal self market_data overall_slope
                       (signal_confidence strength) atr)
        \/ (Py.gt overall_slope (contango_threshold (config self)) = false
            /\ Py.lt overall_slope (- backwardation_threshold (config self))%Qc = true
            /\ signal_strength (Py.abs overall_slope)
                 (backwardation_threshold (config self)) = Ok strength
            /\ signal = backwardation_signal self market_data overall_slope
                          (signal_confidence strength) atr)).
Proof.
  intros H.
  destruct (analyze_some_available _ _ _ _ _ H) as (v5 & v15 & v1 & A5 & A15 & A1).
  destruct (slope_never_raises (default 0%Qc (v1 !! "20_period"))
              (default 0%Qc (v5 !! "20_period"))) as [overall_slope Hslope].
  pose proof (runs_observed (carry_signal_logic self w market_data overall_slope) s) as Hrun.
  rewrite (preserves_carry_signal_logic self w market_data overall_slope s) in Hrun.
  rewrite (analyze_available _ _ _ _ _ _ _ _ _ _ A5 A15 A1 Hslope Hrun) in H.
  destruct (result (carry_signal_logic self w market_data overall_slope) s)
    as [[[candidate|] confidence]|e]; cbn in H; try discriminate.
  inversion H; subst candidate.
  destruct (logic_some_inv _ _ _ _ _ _ _ _ _ Hrun) as (strength & atr & Hatr & _ & Hcases).
  exists v5, v15, v1, overall_slope, strength, atr. eauto 10.
Qed.

(** C1 (as amended).  When the three readings are available and the ATR
    helper answers: a slope above the contango threshold gives a SELL
    candidate of strength [min(slope / threshold, 2.0)] and confidence
    [min(0.5 + 0.2 * strength, 0.9)] provided the threshold is not zero; a
    slope that is not above it and is below minus the backwardation
    threshold gives a BUY candidate, with [abs(slope)] and that threshold,
    provided it is not zero; a zero threshold in the branch taken makes the
    division fault and the analyzer returns none; in every other case the
    analyzer returns none.  With readings 0.01 and 0.02 and a contango
    threshold of 0.5 the candidate is SELL, of strength 2.0 and confidence
    0.9; with readings 0.02 and 0.01, a backwardation threshold of 0.3 and a
    contango threshold of at least -0.5, it is BUY, of strength
    [min(0.5 / 0.3, 2.0)] = 5/3 and confidence 5/6, between 0.833 and
    0.834. *)
Theorem term_structure_case_analysis (self : Strategy) (w : Collaborators)
    (market_data : MarketData) (s : StrategyState)
    (vols_5m vols_15m vols_1h : gmap string Qc) (overall_slope : Qc) :
  available w "5m" vols_5m -> available w "15m" vols_15m -> available w "1h" vols_1h ->
  atr_succeeds w market_data ->
  slope (default 0%Qc (vols_1h !! "20_period")) (default 0%Qc (vols_5m !! "20_period"))
    = Ok overall_slope ->
  let contango := contango_threshold (config self) in
  let backwardation := backwardation_threshold (config self) in
  let analysis := result (_analyze_term_structure self w market_data) s in
  ((contango < overall_slope)%Qc ->
     (contango <> 0%Qc ->
      exists signal,
        analysis = Ok (Some signal) /\ action signal = SELL
        /\ signal_strength overall_slope contango
           = Ok (Py.min (overall_slope / contango)%Qc (Py.float 2.0))
        /\ confidence signal
           = Py.min (Py.float 0.5
                     + Py.min (overall_slope / contango)%Qc (Py.float 2.0) * Py.float 0.2)%Qc
                    (Py.float 0.9))
     /\ (contango = 0%Qc -> analysis = Ok None))
  /\ (~ (contango < overall_slope)%Qc -> (overall_slope < - backwardation)%Qc ->
      (backwardation <> 0%Qc ->
       exists signal,
         analysis = Ok (Some signal) /\ action signal = BUY
         /\ signal_strength (Py.abs overall_slope) backwardation
            = Ok (Py.min (Py.abs overall_slope / backwardation)%Qc (Py.float 2.0))
         /\ confidence signal
            = Py.min (Py.float 0.5
                      + Py.min (Py.abs overall_slope / backwardation)%Qc (Py.float 2.0)
                        * Py.float 0.2)%Qc
                     (Py.float 0.9))
      /\ (backwardation = 0%Qc -> analysis = Ok None))
  /\ (~ (contango < overall_slope)%Qc -> ~ (overall_slope < - backwardation)%Qc ->
      analysis = Ok None)
  /\ (default 0%Qc (vols_5m !! "20_period") = Py.float 0.01 ->
      default 0%Qc (vols_1h !! "20_period") = Py.float 0.02 ->
      contango = Py.float 0.5 ->
      overall_slope = Py.float 1.0
      /\ exists signal,
           analysis = Ok (Some signal) /\ action signal = SELL
           /\ signal_strength overall_slope contango = Ok (Py.float 2.0)
           /\ confidence signal = Py.float 0.9)
  /\ (default 0%Qc (vols_5m !! "20_period") = Py.float 0.02 ->
      default 0%Qc (vols_1h !! "20_period") = Py.float 0.01 ->
      backwardation = Py.float 0.3 -> (Py.float (-0.5) <= contango)%Qc ->
      overall_slope = Py.float (-0.5)
      /\ exists signal,
           analysis = Ok (Some signal) /\ action signal = BUY
           /\ signal_strength (Py.abs overall_slope) backwardation = Ok (Py.float (5 # 3))
           /\ Py.min (Py.float 0.5 / Py.float 0.3)%Qc (Py.float 2.0) = Py.float (5 # 3)
           /\ confidence signal = Py.float (5 # 6)
           /\ (Py.float 0.833 < confidence signal)%Qc
           /\ (confidence signal < Py.float 0.834)%Qc).
Proof.
  intros A5 A15 A1 Hatr Hslope contango backwardation analysis.
  destruct (atr_succeeds_run w market_data s Hatr) as (atr & t & Hrun).
  assert (Hsell : forall strength,
             (contango < overall_slope)%Qc ->
             signal_strength overall_slope contango = Ok strength ->
             exists signal, analysis = Ok (Some signal) /\ action signal = SELL
                            /\ confidence signal = signal_confidence strength).
  { intros strength Hgt Hst. apply gt_true in Hgt.
    pose proof (logic_contango self w market_data overall_slope s strength atr t Hgt Hst Hrun)
      as Hlogic.
    eexists. split; [|split].
    - exact (analyze_available _ _ _ _ _ _ _ _ _ _ A5 A15 A1 Hslope Hlogic).
    - reflexivity.
    - reflexivity. }
  assert (Hbuy : forall strength,
             ~ (contango < overall_slope)%Qc -> (overall_slope < - backwardation)%Qc ->
             signal_strength (Py.abs overall_slope) backwardation = Ok strength ->
             exists signal, analysis = Ok (Some signal) /\ action signal = BUY
                            /\ confidence signal = signal_confidence strength).
  { intros strength Hgt Hlt Hst.
    apply Qcnot_lt_le, gt_false in Hgt. apply lt_true in Hlt.
    pose proof (logic_backwardation self w market_data overall_slope s strength atr t
                  Hgt Hlt Hst Hrun) as Hlogic.
    eexists. split; [|split].
    - exact (analyze_available _ _ _ _ _ _ _ _ _ _ A5 A15 A1 Hslope Hlogic).
    - reflexivity.
    - reflexivity. }
  assert (Hfault : forall e,
             (Py.gt overall_slope contango = true
              /\ signal_strength overall_slope contango = Raise e)
             \/ (Py.gt overall_slope contango = false
                 /\ Py.lt overall_slope (- backwardation)%Qc = true
                 /\ signal_strength (Py.abs overall_slope) backwardation = Raise e) ->
             analysis = Ok None).
  { intros e Hcase.
    pose proof (logic_strength_fault self w market_data overall_slope s e Hcase) as Hlogic.
    exact (analyze_available _ _ _ _ _ _ _ _ _ _ A5 A15 A1 Hslope Hlogic). }
  split; [|split; [|split; [|split]]].
  - intros Hgt. split.
    + intros Hnz. destruct (Hsell _ Hgt (signal_strength_ok _ _ Hnz))
        as (signal & Hres & Hact & Hconf).
      exists signal. split; [exact Hres|]. split; [exact Hact|].
      split; [now apply signal_strength_ok|exact Hconf].
    + intros Hz. apply (Hfault ZeroDivisionError). left. split; [now apply gt_true|].
      rewrite Hz. apply signal_strength_zero.
  - intros Hgt Hlt. split.
    + intros Hnz. destruct (Hbuy _ Hgt Hlt (signal_strength_ok _ _ Hnz))
        as (signal & Hres & Hact & Hconf).
      exists signal. split; [exact Hres|]. split; [exact Hact|].
      split; [now apply signal_strength_ok|exact Hconf].
    + intros Hz. apply (Hfault ZeroDivisionError). right.
      split; [now apply gt_false, Qcnot_lt_le|]. split; [now apply lt_true|].
      rewrite Hz. apply signal_strength_zero.
  - intros Hgt Hlt.
    apply Qcnot_lt_le, gt_false in Hgt. apply Qcnot_lt_le, lt_false in Hlt.
    pose proof (logic_flat self w market_data overall_slope s Hgt Hlt) as Hlogic.
    exact (analyze_available _ _ _ _ _ _ _ _ _ _ A5 A15 A1 Hslope Hlogic).
  - intros Hshort Hlong Hct. rewrite Hshort, Hlong in Hslope.
    assert (Hos : overall_slope = Py.float 1.0).
    { vm_compute in Hslope. inversion Hslope. by_evaluation. }
    split; [exact Hos|].
    assert (Hst : signal_strength overall_slope contango = Ok (Py.float 2.0)).
    { rewrite Hos, Hct. by_evaluation. }
    destruct (Hsell (Py.float 2.0)) as (signal & Hres & Hact & Hconf).
    { rewrite Hos, Hct. by_evaluation. }
    { exact Hst. }
    exists signal. split; [exact Hres|]. split; [exact Hact|]. split; [exact Hst|].
    rewrite Hconf. by_evaluation.
  - intros Hshort Hlong Hbt Hct. rewrite Hshort, Hlong in Hslope.
    assert (Hos : overall_slope = Py.float (-0.5)).
    { vm_compute in Hslope. inversion Hslope. by_evaluation. }
    split; [exact Hos|].
    assert (Hst : signal_strength (Py.abs overall_slope) backwardation = Ok (Py.float (5 # 3))).
    { rewrite Hos, Hbt. by_evaluation. }
    destruct (Hbuy (Py.float (5 # 3))) as (signal & Hres & Hact & Hconf).
    { rewrite Hos. now apply Qcle_not_lt. }
    { rewrite Hos, Hbt. by_evaluation. }
    { exact Hst. }
    exists signal. split; [exact Hres|]. split; [exact Hact|]. split; [exact Hst|].
    split; [by_evaluation|]. rewrite Hconf. repeat split; by_evaluation.
Qed.

(** The case analysis at readings 0.01, 0.015 and 0.02 with a contango
    threshold of 0.5: a SELL candidate. *)
Lemma term_structure_case_analysis_witness :
  exists signal,
    result (_analyze_term_structure (Example.strategy 0.5 0.3)
              (Example.world Example.full_status 0.01 0.015 0.02 "medium" None)
              Example.tick) Example.fresh = Ok (Some signal)
    /\ action signal = SELL
    /\ signal_strength (Py.float 1) (Py.float 0.5)
       = Ok (Py.min (Py.float 1 / Py.float 0.5)%Qc (Py.float 2.0))
    /\ confidence signal
       = Py.min (Py.float 0.5
                 + Py.min (Py.float 1 / Py.float 0.5)%Qc (Py.float 2.0) * Py.float 0.2)%Qc
                (Py.float 0.9).
Proof.
  refine (proj1 (proj1 (term_structure_case_analysis (Example.strategy 0.5 0.3)
                          (Example.world Example.full_status 0.01 0.015 0.02 "medium" None)
                          Example.tick Example.fresh
                          {[ "20_period" := Py.float 0.01 ]}
                          {[ "20_period" := Py.float 0.015 ]}
                          {[ "20_period" := Py.float 0.02 ]}
                          (Py.float 1) _ _ _ _ _) _) _).
  - split; vm_compute; reflexivity.
  - split; vm_compute; reflexivity.
  - split; vm_compute; reflexivity.
  - intros Hlen. vm_compute in Hlen. lia.
  - by_evaluation.
  - by_evaluation.
  - by_evaluation.
Defined.

(** C1, as stated, fails when the contango threshold is zero: the three
    readings are available (0.01, 0.015, 0.02), the overall slope is 1, above
    the threshold 0, and yet the analyzer returns none, because
    [overall_slope / contango_threshold] raises. *)
Lemma zero_contango_threshold_gives_no_candidate :
  slope (Py.float 0.02) (Py.float 0.01) = Ok (Py.float 1)
  /\ (contango_threshold (config (Example.strategy 0 0.3)) < Py.float 1)%Qc
  /\ calculate_realized_volatility
       (Example.world Example.full_status 0.01 0.015 0.02 "medium" None) "5m" (20, 60)%Z
     = Ok (Some {[ "20_period" := Py.float 0.01 ]})
  /\ calculate_realized_volatility
       (Example.world Example.full_status 0.01 0.015 0.02 "medium" None) "15m" (20, 60)%Z
     = Ok (Some {[ "20_period" := Py.float 0.015 ]})
  /\ calculate_realized_volatility
       (Example.world Example.full_status 0.01 0.015 0.02 "medium" None) "1h" (20, 60)%Z
     = Ok (Some {[ "20_period" := Py.float 0.02 ]})
  /\ result (_analyze_term_structure (Example.strategy 0 0.3)
               (Example.world Example.full_status 0.01 0.015 0.02 "medium" None)
               Example.tick) Example.fresh = Ok None
  /\ trace (_analyze_term_structure (Example.strategy 0 0.3)
              (Example.world Example.full_status 0.01 0.015 0.02 "medium" None)
              Example.tick) Example.fresh
     = reading_calls ++ [Log ERROR (ErrorInTermStructure ZeroDivisionError)].
Proof. repeat split; by_evaluation. Qed.

(** The other two provisos of the case analysis.  An ATR helper that raises
    on a series of 25 points leaves no candidate although the slope 1 is
    above the contango threshold 0.5. *)
Example atr_exception_gives_no_candidate :
  _analyze_term_structure (Example.strategy 0.5 0.3)
    (Example.atr_down (Example.world Example.full_status 0.01 0.015 0.02 "medium" None))
    Example.long_tick Example.fresh
  = (Ok None, Example.fresh,
     reading_calls
     ++ [Call (calculate_atr_simple_call (replicate 20 (Py.float 100)));
         Log ERROR (ErrorInTermStructure (CollaboratorError "no true range"))]).
Proof. by_evaluation. Qed.

(** With readings 0.02 and 0.01 and a backwardation threshold of 0.3, a
    contango threshold of -1 sends the slope -0.5 to the first branch: the
    candidate is a SELL. *)
Example contango_branch_comes_first :
  result (_analyze_term_structure (Example.strategy (-1) 0.3)
            (Example.world Example.full_status 0.02 0.015 0.01 "medium" None)
            Example.tick) Example.fresh
  = Ok (Some (contango_signal (Example.strategy (-1) 0.3) Example.tick
                (Py.float (-0.5)) (Py.float 0.6) (Py.float 1))).
Proof. by_evaluation. Qed.

(** ** Bounds on the confidence *)

Lemma signal_confidence_le (strength : Qc) :
  (signal_confidence strength <= Py.float 0.9)%Qc.
Proof. apply min_le_r. Qed.

Lemma signal_confidence_ge (strength : Qc) :
  (0 <= strength)%Qc -> (Py.float 0.5 <= signal_confidence strength)%Qc.
Proof.
  intros H. apply min_glb.
  - to_Q. nra.
  - by_evaluation.
Qed.

Lemma strength_nonneg (x threshold strength : Qc) :
  (0 < threshold)%Qc -> (threshold < x)%Qc ->
  signal_strength x threshold = Ok strength -> (0 <= strength)%Qc.
Proof.
  intros Hpos Hx Hst. destruct (signal_strength_inv _ _ _ Hst) as [_ ->].
  apply min_glb.
  - apply Qclt_le_weak. apply Qclt_trans with 1%Qc; [by_evaluation|now apply div_gt_1].
  - by_evaluation.
Qed.

Lemma abs_above (x threshold : Qc) :
  (x < - threshold)%Qc -> (threshold < Py.abs x)%Qc.
Proof.
  intros H. unfold Py.abs. destruct (Qclt_le_dec threshold 0) as [Hneg|Hpos].
  - apply Qclt_le_trans with 0%Qc; [exact Hneg|apply Qcabs_nonneg].
  - assert (Hx : (x <= 0)%Qc).
    { apply Qclt_le_weak. apply Qclt_le_trans with (- threshold)%Qc; [exact H|].
      to_Q. lra. }
    rewrite (Qcabs_neg x Hx). to_Q. lra.
Qed.

(** C2 (as amended).  A candidate of the analyzer is a SELL or a BUY, never
    a HOLD; a SELL is built only from a slope above the contango threshold,
    a BUY only from a slope below minus the backwardation threshold, and in
    both cases the magnitude of the slope exceeds that threshold; its
    confidence is at most 0.9, and it is at least 0.5 provided the threshold
    of its branch is positive.  When the case analysis builds no candidate
    the local confidence is still 0, and otherwise it is the candidate's. *)
Theorem directional_signal_invariant (self : Strategy) (w : Collaborators)
    (market_data : MarketData) (s : StrategyState) :
  (forall signal,
      result (_analyze_term_structure self w market_data) s = Ok (Some signal) ->
      exists vols_5m vols_1h overall_slope,
        available w "5m" vols_5m /\ available w "1h" vols_1h
        /\ slope (default 0%Qc (vols_1h !! "20_period"))
                 (default 0%Qc (vols_5m !! "20_period")) = Ok overall_slope
        /\ action signal <> HOLD
        /\ ((action signal = SELL
             /\ (contango_threshold (config self) < overall_slope)%Qc
             /\ (contango_threshold (config self) < Py.abs overall_slope)%Qc
             /\ ((0 < contango_threshold (config self))%Qc ->
                 (Py.float 0.5 <= confidence signal)%Qc))
            \/ (action signal = BUY
                /\ (overall_slope < - backwardation_threshold (config self))%Qc
                /\ (backwardation_threshold (config self) < Py.abs overall_slope)%Qc
                /\ ((0 < backwardation_threshold (config self))%Qc ->
                    (Py.float 0.5 <= confidence signal)%Qc)))
        /\ (confidence signal <= Py.float 0.9)%Qc)
  /\ (forall overall_slope s0 local_confidence s1 t,
        runs (carry_signal_logic self w market_data overall_slope) s0
             (Ok (None, local_confidence)) s1 t ->
        local_confidence = 0%Qc)
  /\ (forall overall_slope s0 signal local_confidence s1 t,
        runs (carry_signal_logic self w market_data overall_slope) s0
             (Ok (Some signal, local_confidence)) s1 t ->
        local_confidence = confidence signal).
Proof.
  split; [|split].
  - intros signal H.
    destruct (analyze_some_inv _ _ _ _ _ H)
      as (v5 & v15 & v1 & overall_slope & strength & atr & t
          & A5 & A15 & A1 & Hslope & Hatr & Hcases).
    exists v5, v1, overall_slope.
    split; [exact A5|]. split; [exact A1|]. split; [exact Hslope|].
    destruct Hcases as [(Hgt & Hst & ->)|(Hgt & Hlt & Hst & ->)]; cbn [action confidence
      contango_signal backwardation_signal].
    + apply gt_true in Hgt. split; [discriminate|]. split; [|apply signal_confidence_le].
      left. split; [reflexivity|]. split; [exact Hgt|]. split.
      * apply Qclt_le_trans with overall_slope; [exact Hgt|apply Qcle_Qcabs].
      * intros Hpos. apply signal_confidence_ge.
        exact (strength_nonneg _ _ _ Hpos Hgt Hst).
    + apply lt_true in Hlt. split; [discriminate|]. split; [|apply signal_confidence_le].
      right. split; [reflexivity|]. split; [exact Hlt|]. split.
      * now apply abs_above.
      * intros Hpos. apply signal_confidence_ge.
        exact (strength_nonneg _ _ _ Hpos (abs_above _ _ Hlt) Hst).
  - intros overall_slope s0 local_confidence s1 t H.
    exact (proj1 (logic_none_inv _ _ _ _ _ _ _ _ H)).
  - intros overall_slope s0 signal local_confidence s1 t H.
    destruct (logic_some_inv _ _ _ _ _ _ _ _ _ H)
      as (strength & atr & _ & -> & [(_ & _ & ->)|(_ & _ & _ & ->)]); reflexivity.
Qed.

(** The invariant at readings 0.01, 0.015 and 0.02 with a contango threshold
    of 0.5: the candidate is not a HOLD and its confidence is at most 0.9. *)
Lemma directional_signal_invariant_witness :
  action (contango_signal (Example.strategy 0.5 0.3) Example.tick
            (Py.float 1) (Py.float 0.9) (Py.float 1)) <> HOLD
  /\ (confidence (contango_signal (Example.strategy 0.5 0.3) Example.tick
                    (Py.float 1) (Py.float 0.9) (Py.float 1)) <= Py.float 0.9)%Qc.
Proof.
  destruct (proj1 (directional_signal_invariant (Example.strategy 0.5 0.3)
                     (Example.world Example.full_status 0.01 0.015 0.02 "medium" None)
                     Example.tick Example.fresh)
              (contango_signal (Example.strategy 0.5 0.3) Example.tick
                 (Py.float 1) (Py.float 0.9) (Py.float 1))
              ltac:(by_evaluation))
    as (v5 & v1 & overall_slope & _ & _ & _ & Hact & _ & Hconf).
  exact (conj Hact Hconf).
Defined.

(** C2, as stated, fails under a negative threshold: with a contango
    threshold of -0.5 and readings 0.01, 0.015 and 0.02 the slope 1 is above
    the threshold, the strength is [min(1 / -0.5, 2.0)] = -2, and the SELL
    candidate has confidence 0.1, below 0.5. *)
Lemma negative_threshold_confidence_below_half :
  exists signal,
    result (_analyze_term_structure (Example.strategy (-0.5) 0.3)
              (Example.world Example.full_status 0.01 0.015 0.02 "medium" None)
              Example.tick) Example.fresh = Ok (Some signal)
    /\ action signal = SELL
    /\ confidence signal = Py.float 0.1
    /\ ~ (Py.float 0.5 <= confidence signal)%Qc.
Proof.
  exists (contango_signal (Example.strategy (-0.5) 0.3) Example.tick
            (Py.float 1) (Py.float 0.1) (Py.float 1)).
  repeat split; by_evaluation.
Qed.

(** ** Stop and target (lines 124-127 and 143-146) *)

(** C8 (as amended).  A candidate of the analyzer is priced from an ATR that
    is the collaborator's ATR of the last 20 fifteen-minute points when there
    are at least 20 (these are the 20 items that end the series), and 1% of
    the current price otherwise.  The entry is the current price.  For a SELL
    the stop is the current price plus ATR times the stop-loss multiplier
    and the target the current price minus ATR times the target multiplier;
    for a BUY the two offsets change sign.  The code checks the sign of
    neither the ATR nor the multipliers: the SELL stop is above the entry
    exactly when ATR times the stop-loss multiplier is positive and its
    target below the entry exactly when ATR times the target multiplier is
    positive, and the other way round for a BUY; with offsets that are not
    negative the stop and the target are at least on the entry. *)
Theorem stop_and_target_from_atr (self : Strategy) (w : Collaborators)
    (market_data : MarketData) (s : StrategyState) (signal : Signal) :
  result (_analyze_term_structure self w market_data) s = Ok (Some signal) ->
  let price := current_price market_data in
  let series := price_15m market_data in
  let stop_multiplier := stop_loss_atr_multiplier (risk_management (system_config self)) in
  let target_multiplier := target_atr_multiplier (config self) in
  exists atr,
    ((20 <= length series)%nat ->
       calculate_atr_simple w (Py.last_n 20 series) = Ok atr
       /\ length (Py.last_n 20 series) = 20%nat
       /\ exists earlier, series = earlier ++ Py.last_n 20 series)
    /\ ((length series < 20)%nat -> atr = (price * Py.float 0.01)%Qc)
    /\ entry_price signal = price
    /\ (action signal = SELL \/ action signal = BUY)
    /\ (action signal = SELL ->
        stop_price signal = (price + atr * stop_multiplier)%Qc
        /\ target_price signal = (price - atr * target_multiplier)%Qc
        /\ ((0 <= atr * stop_multiplier)%Qc -> (entry_price signal <= stop_price signal)%Qc)
        /\ ((0 <= atr * target_multiplier)%Qc ->
            (target_price signal <= entry_price signal)%Qc)
        /\ ((entry_price signal < stop_price signal)%Qc <-> (0 < atr * stop_multiplier)%Qc)
        /\ ((target_price signal < entry_price signal)%Qc
            <-> (0 < atr * target_multiplier)%Qc))
    /\ (action signal = BUY ->
        stop_price signal = (price - atr * stop_multiplier)%Qc
        /\ target_price signal = (price + atr * target_multiplier)%Qc
        /\ ((0 <= atr * stop_multiplier)%Qc -> (stop_price signal <= entry_price signal)%Qc)
        /\ ((0 <= atr * target_multiplier)%Qc ->
            (entry_price signal <= target_price signal)%Qc)
        /\ ((stop_price signal < entry_price signal)%Qc <-> (0 < atr * stop_multiplier)%Qc)
        /\ ((entry_price signal < target_price signal)%Qc
            <-> (0 < atr * target_multiplier)%Qc)).
Proof.
  intros H price series stop_multiplier target_multiplier.
  destruct (analyze_some_inv _ _ _ _ _ H)
    as (v5 & v15 & v1 & overall_slope & strength & atr & t
        & _ & _ & _ & _ & Hatr & Hcases).
  destruct (atr_of_ok _ _ _ _ _ _ Hatr) as [Hlong Hshort].
  exists atr. split; [|split; [exact Hshort|]].
  { intros Hlen. split; [exact (Hlong Hlen)|]. split.
    - now apply last_n_length.
    - apply last_n_suffix. }
  destruct Hcases as [(_ & _ & ->)|(_ & _ & _ & ->)];
    cbn [action entry_price stop_price target_price contango_signal backwardation_signal];
    fold price stop_multiplier target_multiplier.
  - split; [reflexivity|]. split; [now left|]. split; [|discriminate].
    intros _. split; [reflexivity|]. split; [reflexivity|].
    repeat split; intros Hoff; to_Q; lra.
  - split; [reflexivity|]. split; [now right|]. split; [discriminate|].
    intros _. split; [reflexivity|]. split; [reflexivity|].
    repeat split; intros Hoff; to_Q; lra.
Qed.

(** The prices at a tick of price 100 with 25 fifteen-minute points, a
    collaborator ATR of 2, a stop-loss multiplier of 2 and a target
    multiplier of 3: the SELL candidate stops at 104 and targets 94. *)
Lemma stop_and_target_from_atr_witness :
  exists atr,
    calculate_atr_simple
      (Example.world Example.full_status 0.01 0.015 0.02 "medium" None)
      (Py.last_n 20 (price_15m Example.long_tick)) = Ok atr
    /\ stop_price (contango_signal (Example.strategy 0.5 0.3) Example.long_tick
                     (Py.float 1) (Py.float 0.9) (Py.float 2))
       = (Py.float 100 + atr * Py.float 2)%Qc
    /\ target_price (contango_signal (Example.strategy 0.5 0.3) Example.long_tick
                       (Py.float 1) (Py.float 0.9) (Py.float 2))
       = (Py.float 100 - atr * Py.float 3)%Qc.
Proof.
  destruct (stop_and_target_from_atr (Example.strategy 0.5 0.3)
              (Example.world Example.full_status 0.01 0.015 0.02 "medium" None)
              Example.long_tick Example.fresh
              (contango_signal (Example.strategy 0.5 0.3) Example.long_tick
                 (Py.float 1) (Py.float 0.9) (Py.float 2))
              ltac:(by_evaluation))
    as (atr & Hlong & _ & _ & _ & Hsell & _).
  exists atr. split.
  - apply Hlong. vm_compute. lia.
  - destruct (Hsell eq_refl) as (Hstop & Htarget & _). exact (conj Hstop Htarget).
Defined.

(** A flat 15-minute series, whose ATR is 0: the SELL candidate that
    [generate_signal] returns has its stop and its target on the entry, not
    above and below it. *)
Lemma zero_atr_stop_and_target_on_entry :
  exists signal,
    result (_analyze_term_structure (Example.strategy 0.5 0.3)
              (Example.with_atr 0
                 (Example.world Example.full_status 0.01 0.015 0.02 "medium" None))
              Example.long_tick) Example.fresh = Ok (Some signal)
    /\ result (generate_signal (Example.strategy 0.5 0.3)
                 (Example.with_atr 0
                    (Example.world Example.full_status 0.01 0.015 0.02 "medium" None))
                 Example.long_tick) Example.fresh = Ok (Some signal)
    /\ action signal = SELL
    /\ stop_price signal = entry_price signal
    /\ target_price signal = entry_price signal
    /\ ~ (entry_price signal < stop_price signal)%Qc
    /\ ~ (target_price signal < entry_price signal)%Qc.
Proof.
  exists (contango_signal (Example.strategy 0.5 0.3) Example.long_tick
            (Py.float 1) (Py.float 0.9) (Py.float 0)).
  repeat split; by_evaluation.
Qed.

(** A stop-loss multiplier of -2 with an ATR of 2: the stop of the SELL
    candidate is below the entry. *)
Example negative_multiplier_stop_below_entry :
  exists signal,
    result (_analyze_term_structure
              {| name := "VolatilityCarry";
                 config := Example.strategy_config 0.5 0.3;
                 system_config :=
                   {| risk_management :=
                        {| stop_loss_atr_multiplier := Py.float (-2);
                           min_confidence := Py.float 0.6 |} |} |}
              (Example.world Example.full_status 0.01 0.015 0.02 "medium" None)
              Example.long_tick) Example.fresh = Ok (Some signal)
    /\ action signal = SELL
    /\ (stop_price signal < entry_price signal)%Qc.
Proof.
  exists (contango_signal
            {| name := "VolatilityCarry";
               config := Example.strategy_config 0.5 0.3;
               system_config :=
                 {| risk_management :=
                      {| stop_loss_atr_multiplier := Py.float (-2);
                         min_confidence := Py.float 0.6 |} |} |}
            Example.long_tick (Py.float 1) (Py.float 0.9) (Py.float 2)).
  repeat split; by_evaluation.
Qed.

(** ** The carry-opportunity validator *)

Lemma nonempty_lookup {V : Type} (d : gmap string V) (k : string) (v : V) :
  d !! k = Some v -> Py.nonempty d = true.
Proof.
  intros H. unfold Py.nonempty. destruct (Nat.eqb_spec (size d) 0) as [Hz|]; [|reflexivity].
  apply map_size_empty_inv in Hz. subst d. now rewrite lookup_empty in H.
Qed.

(** The answer of the validator, read off the two collaborators it asks. *)
Lemma validate_result self w signal market_data s :
  result (_validate_carry_opportunity self w signal market_data) s =
  Ok match calculate_volatility_regime w "15m" with
     | Raise _ => false
     | Ok vol_regime =>
         if bool_decide (vol_regime = "low") && bool_decide (action signal = 2%Z)
         then false
         else if bool_decide (vol_regime = "high") && bool_decide (action signal = 1%Z)
         then false
         else match calculate_volatility_breakout w "15m" with
              | Raise _ => false
              | Ok breakout_info =>
                  if strong_breakout breakout_info then false
                  else if Py.lt (confidence signal) (min_carry_confidence (config self))
                  then false
                  else true
              end
     end.
Proof.
  unfold result, _validate_carry_opportunity, try_except, bind, invoke, ret, log.
  destruct (calculate_volatility_regime w "15m") as [vol_regime|e] eqn:Hregime;
    [|caught; reflexivity].
  destruct (bool_decide (vol_regime = "low") && bool_decide (action signal = 2%Z));
    [reflexivity|].
  destruct (bool_decide (vol_regime = "high") && bool_decide (action signal = 1%Z));
    [reflexivity|].
  destruct (calculate_volatility_breakout w "15m") as [breakout_info|e] eqn:Hbreakout;
    [|caught; reflexivity].
  destruct (strong_breakout breakout_info); [reflexivity|].
  destruct (Py.lt (confidence signal) (min_carry_confidence (config self))); reflexivity.
Qed.

Lemma strong_breakout_flagged (info : gmap string Py.value) (strength : Qc) :
  info !! "is_breakout" = Some (Py.Bool true) ->
  info !! "breakout_strength" = Some (Py.Float strength) ->
  strong_breakout (Some info) = Py.gt strength (Py.float 2.5).
Proof.
  intros Hflag Hstrength. unfold strong_breakout.
  rewrite (nonempty_lookup _ _ _ Hflag), Hflag, Hstrength. reflexivity.
Qed.

(** C6.  The validator rejects every SELL candidate when the 15-minute
    regime is "low" and every BUY candidate when it is "high", whatever the
    confidence of the candidate.  For any other pair of regime and action
    the regime plays no part: the answer is the one the breakout check and
    the confidence floor give (false if the breakout collaborator raises),
    so a candidate with no strong breakout and a confidence that is not below
    the floor is accepted. *)
Theorem regime_filter (self : Strategy) (w : Collaborators) (signal : Signal)
    (market_data : MarketData) (s : StrategyState) :
  let answer := result (_validate_carry_opportunity self w signal market_data) s in
  (calculate_volatility_regime w "15m" = Ok "low" -> action signal = SELL ->
   answer = Ok false)
  /\ (calculate_volatility_regime w "15m" = Ok "high" -> action signal = BUY ->
      answer = Ok false)
  /\ (forall vol_regime,
        calculate_volatility_regime w "15m" = Ok vol_regime ->
        ~ (vol_regime = "low" /\ action signal = SELL) ->
        ~ (vol_regime = "high" /\ action signal = BUY) ->
        answer = match calculate_volatility_breakout w "15m" with
                 | Ok breakout_info =>
                     Ok (negb (strong_breakout breakout_info)
                         && negb (Py.lt (confidence signal)
                                    (min_carry_confidence (config self))))
                 | Raise _ => Ok false
                 end
        /\ (forall breakout_info,
              calculate_volatility_breakout w "15m" = Ok breakout_info ->
              strong_breakout breakout_info = false ->
              (min_carry_confidence (config self) <= confidence signal)%Qc ->
              answer = Ok true)).
Proof.
  intros answer. unfold answer. rewrite validate_result. split; [|split].
  - intros -> Hact. rewrite Hact. reflexivity.
  - intros -> Hact. rewrite Hact. reflexivity.
  - intros vol_regime -> Hlow Hhigh.
    assert (Elow : bool_decide (vol_regime = "low") && bool_decide (action signal = 2%Z)
                   = false).
    { apply andb_false_iff.
      destruct (bool_decide (vol_regime = "low")) eqn:E1; [|now left].
      destruct (bool_decide (action signal = 2%Z)) eqn:E2; [|now right].
      apply bool_decide_eq_true in E1, E2. exfalso. now apply Hlow. }
    assert (Ehigh : bool_decide (vol_regime = "high") && bool_decide (action signal = 1%Z)
                    = false).
    { apply andb_false_iff.
      destruct (bool_decide (vol_regime = "high")) eqn:E1; [|now left].
      destruct (bool_decide (action signal = 1%Z)) eqn:E2; [|now right].
      apply bool_decide_eq_true in E1, E2. exfalso. now apply Hhigh. }
    rewrite Elow, Ehigh. split.
    + destruct (calculate_volatility_breakout w "15m") as [breakout_info|e]; [|reflexivity].
      destruct (strong_breakout breakout_info); [reflexivity|].
      now destruct (Py.lt (confidence signal) (min_carry_confidence (config self))).
    + intros breakout_info -> -> Hconf. now rewrite (proj2 (lt_false _ _) Hconf).
Qed.

(** The regime filter on a SELL candidate of confidence 0.9 in a "low"
    regime. *)
Lemma regime_filter_witness :
  result (_validate_carry_opportunity (Example.strategy 0.5 0.3)
            (Example.world Example.full_status 0.01 0.015 0.02 "low" None)
            (contango_signal (Example.strategy 0.5 0.3) Example.tick
               (Py.float 1) (Py.float 0.9) (Py.float 1))
            Example.tick) Example.fresh = Ok false.
Proof.
  exact (proj1 (regime_filter (Example.strategy 0.5 0.3)
                  (Example.world Example.full_status 0.01 0.015 0.02 "low" None)
                  (contango_signal (Example.strategy 0.5 0.3) Example.tick
                     (Py.float 1) (Py.float 0.9) (Py.float 1))
                  Example.tick Example.fresh) eq_refl eq_refl).
Defined.

(** C7.  When the 15-minute breakout report flags a breakout, a strength
    above 2.5 makes the validator reject the candidate, whatever it is; a
    strength of 2.5 or less leaves the answer to the regime filter and the
    confidence floor, so that strength 2.0 with a "medium" regime and a
    confidence at or above the floor is accepted. *)
Theorem breakout_override (self : Strategy) (w : Collaborators) (signal : Signal)
    (market_data : MarketData) (s : StrategyState)
    (info : gmap string Py.value) (strength : Qc) :
  calculate_volatility_breakout w "15m" = Ok (Some info) ->
  info !! "is_breakout" = Some (Py.Bool true) ->
  info !! "breakout_strength" = Some (Py.Float strength) ->
  let answer := result (_validate_carry_opportunity self w signal market_data) s in
  ((Py.float 2.5 < strength)%Qc -> answer = Ok false)
  /\ ((strength <= Py.float 2.5)%Qc ->
      answer = match calculate_volatility_regime w "15m" with
               | Ok vol_regime =>
                   Ok (negb (bool_decide (vol_regime = "low")
                             && bool_decide (action signal = SELL))
                       && negb (bool_decide (vol_regime = "high")
                                && bool_decide (action signal = BUY))
                       && negb (Py.lt (confidence signal)
                                  (min_carry_confidence (config self))))
               | Raise _ => Ok false
               end)
  /\ (strength = Py.float 2.0 ->
      calculate_volatility_regime w "15m" = Ok "medium" ->
      (min_carry_confidence (config self) <= confidence signal)%Qc ->
      answer = Ok true).
Proof.
  intros Hbreakout Hflag Hstrength answer. unfold answer. rewrite validate_result.
  rewrite Hbreakout, (strong_breakout_flagged _ _ Hflag Hstrength).
  split; [|split].
  - intros Hgt. rewrite (proj2 (gt_true _ _) Hgt).
    destruct (calculate_volatility_regime w "15m") as [vol_regime|e]; [|reflexivity].
    destruct (bool_decide (vol_regime = "low") && bool_decide (action signal = 2%Z));
      [reflexivity|].
    now destruct (bool_decide (vol_regime = "high") && bool_decide (action signal = 1%Z)).
  - intros Hle. rewrite (proj2 (gt_false _ _) Hle). unfold SELL, BUY.
    destruct (calculate_volatility_regime w "15m") as [vol_regime|e]; [|reflexivity].
    destruct (bool_decide (vol_regime = "low") && bool_decide (action signal = 2%Z));
      [reflexivity|].
    destruct (bool_decide (vol_regime = "high") && bool_decide (action signal = 1%Z));
      [reflexivity|].
    now destruct (Py.lt (confidence signal) (min_carry_confidence (config self))).
  - intros -> -> Hconf. rewrite (proj2 (lt_false _ _) Hconf). reflexivity.
Qed.

(** The breakout override at a flagged breakout of strength 3.0, on a BUY
    candidate of confidence 0.9 in a "medium" regime. *)
Lemma breakout_override_witness :
  result (_validate_carry_opportunity (Example.strategy 0.5 0.3)
            (Example.world Example.full_status 0.02 0.015 0.01 "medium"
               (Example.flagged_breakout 3.0))
            (backwardation_signal (Example.strategy 0.5 0.3) Example.tick
               (Py.float (-0.5)) (Py.float 0.9) (Py.float 1))
            Example.tick) Example.fresh = Ok false.
Proof.
  refine (proj1 (breakout_override (Example.strategy 0.5 0.3)
                   (Example.world Example.full_status 0.02 0.015 0.01 "medium"
                      (Example.flagged_breakout 3.0))
                   (backwardation_signal (Example.strategy 0.5 0.3) Example.tick
                      (Py.float (-0.5)) (Py.float 0.9) (Py.float 1))
                   Example.tick Example.fresh
                   {[ "is_breakout" := Py.Bool true;
                      "breakout_strength" := Py.Float (Py.float 3.0) ]}
                   (Py.float 3.0) eq_refl _ _) _).
  - vm_compute. reflexivity.
  - vm_compute. reflexivity.
  - by_evaluation.
Defined.

(** The same candidate with a flagged breakout of strength 2.0 is
    accepted. *)
Example breakout_of_strength_2_accepted :
  result (_validate_carry_opportunity (Example.strategy 0.5 0.3)
            (Example.world Example.full_status 0.02 0.015 0.01 "medium"
               (Example.flagged_breakout 2.0))
            (backwardation_signal (Example.strategy 0.5 0.3) Example.tick
               (Py.float (-0.5)) (Py.float 0.9) (Py.float 1))
            Example.tick) Example.fresh = Ok true.
Proof. by_evaluation. Qed.

(** ** The orchestrator *)

(** Reduces the sequencing of a method, leaving the methods it calls folded. *)
Ltac seq :=
  repeat progress
    (try unfold try_except; try unfold bind; try unfold invoke; try unfold ret;
     try unfold log; try unfold lift; cbv beta iota; cbn [negb fst snd]).

(** A signal is returned only when every gate was passed. *)
Lemma generate_signal_some_inv self w market_data s signal :
  result (generate_signal self w market_data) s = Ok (Some signal) ->
  update_price_history w market_data = Ok tt
  /\ (exists status, get_status w = Ok status
                     /\ sufficient_for status required_data = true)
  /\ result (_analyze_term_structure self w market_data) s = Ok (Some signal)
  /\ result (_validate_carry_opportunity self w signal market_data) s = Ok true
  /\ should_trade w market_data = Ok true
  /\ Py.lt (confidence signal) (min_confidence (risk_management (system_config self)))
     = false.
Proof.
  destruct (runs_method _ s (analyze_never_raises self w market_data)
              (preserves_analyze_term_structure self w market_data))
    as (candidate & ta & Ha).
  unfold runs in Ha.
  unfold result, generate_signal, _has_sufficient_data. seq.
  destruct (update_price_history w market_data) as [[]|e]; seq;
    [|destruct (is_Exception e); discriminate].
  destruct (get_status w) as [status|e]; seq; [|destruct (is_Exception e); discriminate].
  destruct (sufficient_for status required_data) eqn:Hsuf; seq; [|discriminate].
  rewrite Ha. seq.
  destruct candidate as [candidate|]; seq; [|discriminate].
  destruct (runs_method _ s (validate_never_raises self w candidate market_data)
              (preserves_validate_carry_opportunity self w candidate market_data))
    as (valid & tv & Hv).
  unfold runs in Hv. rewrite Hv. seq.
  destruct valid; seq; [|discriminate].
  destruct (should_trade w market_data) as [[]|e]; seq;
    [|discriminate|destruct (is_Exception e); discriminate].
  destruct (Py.lt (confidence candidate)
              (min_confidence (risk_management (system_config self)))) eqn:Hconf;
    seq; [discriminate|].
  destruct (Py.index action_names (action candidate)) as [action_name|e]; seq;
    [|destruct (is_Exception e); discriminate].
  intros H. inversion H; subst candidate.
  rewrite Hv. cbn [fst]. eauto 10.
Qed.

Lemma has_sufficient_data_run w status s :
  get_status w = Ok status ->
  runs (_has_sufficient_data w) s (Ok (sufficient_for status required_data)) s
       [Call get_status_call].
Proof. intros H. unfold runs, _has_sufficient_data. seq. now rewrite H. Qed.

(** The run of [generate_signal] that stops at the data-sufficiency gate. *)
Lemma generate_signal_insufficient self w market_data status s :
  get_status w = Ok status ->
  sufficient_for status required_data = false ->
  (update_price_history w market_data = Ok tt
   /\ runs (generate_signal self w market_data) s (Ok None) s
        [Call (update_price_history_call market_data); Call get_status_call;
         Log INFO InsufficientData])
  \/ (exists e,
        update_price_history w market_data = Raise e
        /\ runs (generate_signal self w market_data) s (Ok None) s
             [Call (update_price_history_call market_data);
              Log ERROR (ErrorGeneratingSignal e)]).
Proof.
  intros Hstatus Hgate. unfold runs, generate_signal, _has_sufficient_data. seq.
  rewrite Hstatus.
  destruct (update_price_history w market_data) as [[]|e] eqn:Hupdate; seq.
  - left. rewrite Hgate. seq. split; reflexivity.
  - right. exists e. caught. split; reflexivity.
Qed.

Lemma sufficient_for_required status :
  sufficient_for status required_data = true <->
  forall timeframe, timeframe ∈ ["5m"; "15m"; "1h"] ->
    (100 <= data_points status timeframe)%Z.
Proof.
  unfold required_data. cbn [sufficient_for]. split.
  - intros H timeframe Hin.
    destruct (Z.ltb_spec (data_points status "5m") 100); [discriminate|].
    destruct (Z.ltb_spec (data_points status "15m") 100); [discriminate|].
    destruct (Z.ltb_spec (data_points status "1h") 100); [discriminate|].
    rewrite !elem_of_cons, elem_of_nil in Hin.
    destruct Hin as [->|[->|[->|[]]]]; assumption.
  - intros H.
    assert (H5 := H "5m" ltac:(set_solver)).
    assert (H15 := H "15m" ltac:(set_solver)).
    assert (H1 := H "1h" ltac:(set_solver)).
    destruct (Z.ltb_spec (data_points status "5m") 100); [lia|].
    destruct (Z.ltb_spec (data_points status "15m") 100); [lia|].
    destruct (Z.ltb_spec (data_points status "1h") 100); [lia|].
    reflexivity.
Qed.

(** Every run of the analysis starts by asking for the 5-minute realized
    volatility. *)
Lemma analyze_first_event self w market_data s :
  exists t,
    trace (_analyze_term_structure self w market_data) s =
    Call (calculate_realized_volatility_call "5m" (20, 60)%Z) :: t.
Proof.
  unfold trace, _analyze_term_structure, analyze_term_structure_body, timeframes.
  cbn [collect_vol_structure].
  set (rest := fun realized_vols : option (gmap string Qc) => _).
  set (after := fun vol_structure : gmap string (gmap string Qc) => _).
  set (handler := fun e : exn => _).
  unfold try_except, bind at 1 2, invoke.
  destruct (calculate_realized_volatility w "5m" (20, 60)%Z) as [realized_vols|e].
  - destruct (rest realized_vols s) as [[[vol_structure|e] s1] t1].
    + destruct (after vol_structure s1) as [[[signal|e] s2] t2].
      * eexists; reflexivity.
      * destruct (is_Exception e); [destruct (handler e s2) as [[r s3] t3]|];
          eexists; reflexivity.
    + destruct (is_Exception e); [destruct (handler e s1) as [[r s3] t3]|];
        eexists; reflexivity.
  - destruct (is_Exception e); [destruct (handler e s) as [[r s3] t3]|];
      eexists; reflexivity.
Qed.

(** C5.  With the history-status mapping [status] in hand, the gate answers
    true exactly when the 5-minute, 15-minute and 1-hour timeframes all hold
    at least 100 data points, the points of a timeframe being the number
    stored under [data_points] in its entry of the mapping (a timeframe that
    is missing, or that has no [data_points] entry, counts for 0); it
    changes no attribute and does
    nothing but ask for the status; and when a required timeframe is short,
    [generate_signal] returns none and its trace holds no event of the
    term-structure analysis, whose every run starts with a request for the
    5-minute realized volatility. *)
Theorem sufficiency_gate (self : Strategy) (w : Collaborators)
    (market_data : MarketData) (status : gmap string (gmap string Z))
    (s : StrategyState) :
  get_status w = Ok status ->
  (exists answer, result (_has_sufficient_data w) s = Ok answer
     /\ (answer = true <->
         forall timeframe, timeframe ∈ ["5m"; "15m"; "1h"] ->
           (100 <= data_points status timeframe)%Z))
  /\ (forall timeframe d n,
        status !! timeframe = Some d -> d !! "data_points" = Some n ->
        data_points status timeframe = n)
  /\ (forall timeframe,
        status !! timeframe = None
        \/ (exists d, status !! timeframe = Some d /\ d !! "data_points" = None) ->
        data_points status timeframe = 0%Z)
  /\ final (_has_sufficient_data w) s = s
  /\ trace (_has_sufficient_data w) s = [Call get_status_call]
  /\ ((exists timeframe, timeframe ∈ ["5m"; "15m"; "1h"]
         /\ (data_points status timeframe < 100)%Z) ->
      result (generate_signal self w market_data) s = Ok None
      /\ Forall (fun ev => from_analysis ev = false)
           (trace (generate_signal self w market_data) s))
  /\ (forall s', exists t,
        trace (_analyze_term_structure self w market_data) s' =
        Call (calculate_realized_volatility_call "5m" (20, 60)%Z) :: t).
Proof.
  intros Hstatus.
  pose proof (has_sufficient_data_run w status s Hstatus) as Hrun.
  split; [|split; [|split; [|split; [|split; [|split]]]]].
  - exists (sufficient_for status required_data).
    split; [exact (runs_result _ _ _ _ _ Hrun)|]. apply sufficient_for_required.
  - intros timeframe d n Hd Hn. unfold data_points. rewrite Hd. cbn. now rewrite Hn.
  - intros timeframe [Hnone|[d [Hd Hnone]]]; unfold data_points.
    + now rewrite Hnone.
    + rewrite Hd. cbn. now rewrite Hnone.
  - exact (runs_final _ _ _ _ _ Hrun).
  - exact (runs_trace _ _ _ _ _ Hrun).
  - intros (timeframe & Hin & Hshort).
    assert (Hgate : sufficient_for status required_data = false).
    { destruct (sufficient_for status required_data) eqn:E; [|reflexivity].
      pose proof (proj1 (sufficient_for_required status) E timeframe Hin). lia. }
    destruct (generate_signal_insufficient self w market_data status s Hstatus Hgate)
      as [[_ Hgen]|(e & _ & Hgen)];
      rewrite (runs_result _ _ _ _ _ Hgen), (runs_trace _ _ _ _ _ Hgen);
      (split; [reflexivity|repeat constructor]).
  - intros s'. apply analyze_first_event.
Qed.

(** The gate at a status in which every timeframe has its 100 points. *)
Lemma sufficiency_gate_witness :
  exists answer,
    result (_has_sufficient_data
              (Example.world Example.full_status 0.01 0.015 0.02 "medium" None))
           Example.fresh = Ok answer
    /\ (answer = true <->
        forall timeframe, timeframe ∈ ["5m"; "15m"; "1h"] ->
          (100 <= data_points Example.full_status timeframe)%Z).
Proof.
  exact (proj1 (sufficiency_gate (Example.strategy 0.5 0.3)
                  (Example.world Example.full_status 0.01 0.015 0.02 "medium" None)
                  Example.tick Example.full_status Example.fresh eq_refl)).
Defined.

(** With 99 points in the 1-hour history [generate_signal] stops at the
    gate. *)
Example one_point_short :
  generate_signal (Example.strategy 0.5 0.3)
    (Example.world Example.short_status 0.01 0.015 0.02 "medium" None)
    Example.tick Example.fresh
  = (Ok None, Example.fresh,
     [Call (update_price_history_call Example.tick); Call get_status_call;
      Log INFO InsufficientData]).
Proof. by_evaluation. Qed.

(** ** Exceptions stop at the entry point *)

Lemma analyze_none_unless_available self w market_data s :
  (forall signal, result (_analyze_term_structure self w market_data) s <> Ok (Some signal)) ->
  result (_analyze_term_structure self w market_data) s = Ok None.
Proof.
  intros H. destruct (analyze_never_raises self w market_data s) as [[signal|] Hres].
  - now destruct (H signal).
  - exact Hres.
Qed.

(** A collaborator of the analysis that raises leaves no candidate. *)
Lemma analyze_collaborator_raises self w market_data s :
  (exists timeframe e,
      timeframe ∈ ["5m"; "15m"; "1h"]
      /\ calculate_realized_volatility w timeframe (20, 60)%Z = Raise e)
  \/ (exists e,
        (20 <= length (price_15m market_data))%nat
        /\ calculate_atr_simple w (Py.last_n 20 (price_15m market_data)) = Raise e) ->
  result (_analyze_term_structure self w market_data) s = Ok None.
Proof.
  intros Hraise. apply analyze_none_unless_available. intros signal Hres.
  destruct (analyze_some_inv _ _ _ _ _ Hres)
    as (v5 & v15 & v1 & overall_slope & strength & atr & t
        & [A5 _] & [A15 _] & [A1 _] & _ & Hatr & _).
  destruct Hraise as [(timeframe & e & Hin & He)|(e & Hlen & He)].
  - rewrite !elem_of_cons, elem_of_nil in Hin.
    destruct Hin as [->|[->|[->|[]]]]; congruence.
  - pose proof (proj1 (atr_of_ok _ _ _ _ _ _ Hatr) Hlen). congruence.
Qed.

(** A collaborator of the validation that raises makes it reject. *)
Lemma validate_collaborator_raises self w signal market_data s :
  (exists e, calculate_volatility_regime w "15m" = Raise e)
  \/ (exists e, calculate_volatility_breakout w "15m" = Raise e) ->
  result (_validate_carry_opportunity self w signal market_data) s = Ok false.
Proof.
  intros Hraise. rewrite validate_result. destruct Hraise as [[e ->]|[e ->]].
  - reflexivity.
  - destruct (calculate_volatility_regime w "15m") as [vol_regime|e']; [|reflexivity].
    destruct (bool_decide (vol_regime = "low") && bool_decide (action signal = 2%Z));
      [reflexivity|].
    now destruct (bool_decide (vol_regime = "high") && bool_decide (action signal = 1%Z)).
Qed.

(** *** What the [except Exception] clauses let through *)

Section LetsThrough.

Variable w : Oracles.

Lemma lets_through_ret {A : Type} (a : A) : lets_through w (ret a).
Proof. intros s c e Hin. now apply elem_of_nil in Hin. Qed.

Lemma lets_through_lift {A : Type} (r : res A) : lets_through w (lift r).
Proof. intros s c e Hin. now apply elem_of_nil in Hin. Qed.

Lemma lets_through_log (l : level) (m : message) : lets_through w (log l m).
Proof. intros s c e Hin. apply list_elem_of_singleton in Hin. discriminate. Qed.

Lemma lets_through_invoke {A : Type} (c : call) (r : res A) :
  (forall e, raised_by w c e -> r = Raise e) -> lets_through w (invoke c r).
Proof.
  intros Hr s c' e Hin Hraised _. apply list_elem_of_singleton in Hin.
  inversion Hin; subst c'. exact (Hr e Hraised).
Qed.

Lemma lets_through_bind {A B : Type} (m : M A) (k : A -> M B) :
  lets_through w m -> (forall a, lets_through w (k a)) -> lets_through w (bind m k).
Proof.
  intros Hm Hk s c e. specialize (Hm s c e). unfold trace, result, bind in *.
  destruct (m s) as [[[a|e'] s1] t1]; cbn in *.
  - specialize (Hk a s1 c e). unfold trace, result in Hk.
    destruct (k a s1) as [[r s2] t2]. cbn in *.
    intros Hin Hraised He. apply elem_of_app in Hin. destruct Hin as [Hin|Hin].
    + discriminate (Hm Hin Hraised He).
    + exact (Hk Hin Hraised He).
  - intros Hin Hraised He. pose proof (Hm Hin Hraised He) as Heq. congruence.
Qed.

Lemma lets_through_try_except {A : Type} (m : M A) (h : exn -> M A) :
  lets_through w m -> (forall e, lets_through w (h e)) ->
  lets_through w (try_except m h).
Proof.
  intros Hm Hh s c e. specialize (Hm s c e). unfold trace, result, try_except in *.
  destruct (m s) as [[[a|e'] s1] t1]; cbn in *.
  - intros Hin Hraised He. discriminate (Hm Hin Hraised He).
  - destruct (is_Exception e') eqn:He'.
    + specialize (Hh e' s1 c e). unfold trace, result in Hh.
      destruct (h e' s1) as [[r s2] t2]. cbn in *.
      intros Hin Hraised He. apply elem_of_app in Hin. destruct Hin as [Hin|Hin].
      * pose proof (Hm Hin Hraised He) as Heq. congruence.
      * exact (Hh Hin Hraised He).
    + cbn. exact Hm.
Qed.

(** Walks a method, call by call. *)
Ltac lets_through :=
  repeat match goal with
    | |- forall _, _ => intro
    | |- lets_through _ (ret _) => apply lets_through_ret
    | |- lets_through _ (log _ _) => apply lets_through_log
    | |- lets_through _ (lift _) => apply lets_through_lift
    | |- lets_through _ (invoke _ _) =>
        apply lets_through_invoke; let e := fresh "e" in
                                   let H := fresh "H" in intros e H; exact H
    | |- lets_through _ (bind _ _) => apply lets_through_bind
    | |- lets_through _ (try_except _ _) => apply lets_through_try_except
    | |- lets_through _ (if ?b then _ else _) => destruct b
    | |- lets_through _ (match ?x with Some _ => _ | None => _ end) => destruct x
    end.

Lemma lets_through_collect_vol_structure tfs vs :
  lets_through w (collect_vol_structure w tfs vs).
Proof.
  revert vs. induction tfs as [|tf tfs IH]; intros vs; cbn [collect_vol_structure];
    lets_through; apply IH.
Qed.

Lemma lets_through_analyze_term_structure self market_data :
  lets_through w (_analyze_term_structure self w market_data).
Proof.
  unfold _analyze_term_structure, analyze_term_structure_body, carry_signal_logic, atr_of.
  apply lets_through_try_except; [|lets_through].
  apply lets_through_bind; [apply lets_through_collect_vol_structure|]. lets_through.
Qed.

Lemma lets_through_validate_carry_opportunity self signal market_data :
  lets_through w (_validate_carry_opportunity self w signal market_data).
Proof. unfold _validate_carry_opportunity. lets_through. Qed.

Lemma lets_through_generate_signal self market_data :
  lets_through w (generate_signal self w market_data).
Proof.
  unfold generate_signal, _has_sufficient_data.
  apply lets_through_try_except; [|lets_through].
  apply lets_through_bind; [lets_through|]. intros _.
  apply lets_through_bind; [lets_through|]. intros sufficient.
  destruct (negb sufficient); [lets_through|].
  apply lets_through_bind; [apply lets_through_analyze_term_structure|].
  intros [primary_signal|]; [|lets_through].
  apply lets_through_bind; [apply lets_through_validate_carry_opportunity|].
  lets_through.
Qed.

End LetsThrough.

(** With collaborators that raise instances of [Exception] only,
    [generate_signal] always returns, and it returns none when one of them
    raises; the validator then returns false and the analyzer none. *)
Lemma exceptions_are_absorbed (self : Strategy) (w : Collaborators)
    (market_data : MarketData) (s : StrategyState) :
  (exists outcome, result (generate_signal self w market_data) s = Ok outcome)
  /\ ((exists e, update_price_history w market_data = Raise e)
      \/ (exists e, get_status w = Raise e)
      \/ (exists timeframe e,
            timeframe ∈ ["5m"; "15m"; "1h"]
            /\ calculate_realized_volatility w timeframe (20, 60)%Z = Raise e)
      \/ (exists e, calculate_volatility_regime w "15m" = Raise e)
      \/ (exists e, calculate_volatility_breakout w "15m" = Raise e)
      \/ (exists e, should_trade w market_data = Raise e)
      \/ (exists e,
            (20 <= length (price_15m market_data))%nat
            /\ calculate_atr_simple w (Py.last_n 20 (price_15m market_data)) = Raise e) ->
      result (generate_signal self w market_data) s = Ok None)
  /\ (forall signal s0,
        (exists e, calculate_volatility_regime w "15m" = Raise e)
        \/ (exists e, calculate_volatility_breakout w "15m" = Raise e) ->
        result (_validate_carry_opportunity self w signal market_data) s0 = Ok false)
  /\ (forall s0,
        (exists timeframe e,
            timeframe ∈ ["5m"; "15m"; "1h"]
            /\ calculate_realized_volatility w timeframe (20, 60)%Z = Raise e)
        \/ (exists e,
              (20 <= length (price_15m market_data))%nat
              /\ calculate_atr_simple w (Py.last_n 20 (price_15m market_data)) = Raise e) ->
        result (_analyze_term_structure self w market_data) s0 = Ok None)
  /\ (forall signal s0, exists answer,
        result (_validate_carry_opportunity self w signal market_data) s0 = Ok answer)
  /\ (forall s0, exists candidate,
        result (_analyze_term_structure self w market_data) s0 = Ok candidate).
Proof.
  split; [apply generate_signal_never_raises|].
  split; [|split; [|split; [|split]]].
  - intros Hraise.
    destruct (generate_signal_never_raises self w market_data s) as [[signal|] Hres];
      [exfalso|exact Hres].
    destruct (generate_signal_some_inv _ _ _ _ _ Hres)
      as (Hupdate & (status & Hstatus & _) & Hanalysis & Hvalid & Htrade & _).
    destruct Hraise as [[e He]|[[e He]|[Hvol|[Hregime|[Hbreakout|[[e He]|Hatr]]]]]];
      try congruence.
    + rewrite analyze_collaborator_raises in Hanalysis by (left; exact Hvol).
      discriminate.
    + rewrite validate_collaborator_raises in Hvalid by (left; exact Hregime).
      discriminate.
    + rewrite validate_collaborator_raises in Hvalid by (right; exact Hbreakout).
      discriminate.
    + rewrite analyze_collaborator_raises in Hanalysis by (right; exact Hatr).
      discriminate.
  - intros signal s0. apply validate_collaborator_raises.
  - intros s0. apply analyze_collaborator_raises.
  - intros signal s0. apply validate_never_raises.
  - intros s0. apply analyze_never_raises.
Qed.


(** What a method lets through is not an instance of [Exception]. *)
Lemma escape_is_not_Exception {A : Type} (m : M A) (l : level)
    (record : exn -> message) (a : A) s e :
  result (try_except m (fun e => log l (record e);; ret a)) s = Raise e ->
  is_Exception e = false.
Proof.
  intros H. apply (try_except_escape m _ s e) in H; [exact (proj1 H)|].
  intros e'. apply log_then_ret_never_raises.
Qed.

(** C9 (as amended).  When the collaborators raise nothing but instances of
    [Exception], [generate_signal] always returns and never raises, and it
    returns none if any collaborator raises (the price-history update, the
    status request of the sufficiency check, one of the three volatility
    readings, the regime, the breakout report, the risk gate, or the ATR
    helper on a series of at least 20 points); an exception raised by a
    collaborator of the validation makes the validator return false, and one
    raised by a collaborator of the term-structure analysis makes the
    analyzer return none.  The three [except Exception] clauses catch nothing
    else: whatever leaves [generate_signal], the validator or the analyzer
    is not an instance of [Exception], and a [KeyboardInterrupt] or a
    [SystemExit] raised by a call to a collaborator leaves the method that
    made the call (and [generate_signal] with it), with no log record when
    the call is the price-history update, which every evaluation makes. *)
Theorem generate_signal_never_propagates (self : Strategy) (w : Oracles)
    (market_data : MarketData) (s : StrategyState) :
  (only_Exceptions w ->
     (exists outcome, result (generate_signal self w market_data) s = Ok outcome)
     /\ ((exists e, update_price_history w market_data = Raise e)
         \/ (exists e, get_status w = Raise e)
         \/ (exists timeframe e,
               timeframe ∈ ["5m"; "15m"; "1h"]
               /\ calculate_realized_volatility w timeframe (20, 60)%Z = Raise e)
         \/ (exists e, calculate_volatility_regime w "15m" = Raise e)
         \/ (exists e, calculate_volatility_breakout w "15m" = Raise e)
         \/ (exists e, should_trade w market_data = Raise e)
         \/ (exists e,
               (20 <= length (price_15m market_data))%nat
               /\ calculate_atr_simple w (Py.last_n 20 (price_15m market_data)) = Raise e) ->
         result (generate_signal self w market_data) s = Ok None)
     /\ (forall signal s0,
           (exists e, calculate_volatility_regime w "15m" = Raise e)
           \/ (exists e, calculate_volatility_breakout w "15m" = Raise e) ->
           result (_validate_carry_opportunity self w signal market_data) s0 = Ok false)
     /\ (forall s0,
           (exists timeframe e,
               timeframe ∈ ["5m"; "15m"; "1h"]
               /\ calculate_realized_volatility w timeframe (20, 60)%Z = Raise e)
           \/ (exists e,
                 (20 <= length (price_15m market_data))%nat
                 /\ calculate_atr_simple w (Py.last_n 20 (price_15m market_data)) = Raise e) ->
           result (_analyze_term_structure self w market_data) s0 = Ok None)
     /\ (forall signal s0, exists answer,
           result (_validate_carry_opportunity self w signal market_data) s0 = Ok answer)
     /\ (forall s0, exists candidate,
           result (_analyze_term_structure self w market_data) s0 = Ok candidate))
  /\ (forall e,
        (result (generate_signal self w market_data) s = Raise e ->
         is_Exception e = false)
        /\ (forall signal,
              result (_validate_carry_opportunity self w signal market_data) s = Raise e ->
              is_Exception e = false)
        /\ (result (_analyze_term_structure self w market_data) s = Raise e ->
            is_Exception e = false))
  /\ (forall c e,
        raised_by w c e -> is_Exception e = false ->
        (Call c ∈ trace (generate_signal self w market_data) s ->
         result (generate_signal self w market_data) s = Raise e)
        /\ (forall signal,
              Call c ∈ trace (_validate_carry_opportunity self w signal market_data) s ->
              result (_validate_carry_opportunity self w signal market_data) s = Raise e)
        /\ (Call c ∈ trace (_analyze_term_structure self w market_data) s ->
            result (_analyze_term_structure self w market_data) s = Raise e))
  /\ (forall e,
        is_Exception e = false ->
        update_price_history w market_data = Raise e ->
        generate_signal self w market_data s
        = (Raise e, s, [Call (update_price_history_call market_data)])).
Proof.
  split; [|split; [|split]].
  - intros Hw.
    exact (exceptions_are_absorbed self {| answers := w; raises_Exceptions := Hw |}
             market_data s).
  - intros e. split; [|split].
    + apply escape_is_not_Exception.
    + intros signal. apply escape_is_not_Exception.
    + apply escape_is_not_Exception.
  - intros c e Hraised He. split; [|split].
    + intros Hin. exact (lets_through_generate_signal w self market_data s c e Hin Hraised He).
    + intros signal Hin.
      exact (lets_through_validate_carry_opportunity w self signal market_data s c e
               Hin Hraised He).
    + intros Hin.
      exact (lets_through_analyze_term_structure w self market_data s c e Hin Hraised He).
  - intros e He Hupdate. unfold generate_signal. seq. rewrite Hupdate. seq.
    now rewrite He.
Qed.

(** A risk gate that raises an instance of [Exception], with every other
    gate passed: no signal. *)
Lemma generate_signal_never_propagates_witness :
  result (generate_signal (Example.strategy 0.5 0.3)
            (Example.risk_gate_down
               (Example.world Example.full_status 0.01 0.015 0.02 "medium" None))
            Example.tick) Example.fresh = Ok None.
Proof.
  refine (proj1 (proj2 (proj1 (generate_signal_never_propagates _ _ _ _)
                          (raises_Exceptions _))) _).
  do 5 right. left. exists (CollaboratorError "risk gate unavailable"). reflexivity.
Defined.

(** A [KeyboardInterrupt] inside the risk gate, with every other gate
    passed: it leaves [generate_signal], and no record is written for it. *)
Lemma keyboard_interrupt_propagates :
  generate_signal (Example.strategy 0.5 0.3)
    (Example.interrupted
       (Example.world Example.full_status 0.01 0.015 0.02 "medium" None))
    Example.tick Example.fresh
  = (Raise KeyboardInterrupt, Example.fresh,
     [Call (update_price_history_call Example.tick); Call get_status_call]
     ++ reading_calls
     ++ analysis_log (Py.float 0.01) (Py.float 0.015) (Py.float 0.02) (Py.float 1)
          (Some (contango_signal (Example.strategy 0.5 0.3) Example.tick
                   (Py.float 1) (Py.float 0.9) (Py.float 1)))
     ++ [Call (calculate_volatility_regime_call "15m");
         Call (calculate_volatility_breakout_call "15m");
         Call (should_trade_call Example.tick)]).
Proof. by_evaluation. Qed.

(** The run of that evaluation: the exception is logged by the handler of
    [generate_signal] after the analysis and the validation went through. *)
Example risk_gate_exception_is_logged :
  trace (generate_signal (Example.strategy 0.5 0.3)
           (Example.risk_gate_down
              (Example.world Example.full_status 0.01 0.015 0.02 "medium" None))
           Example.tick) Example.fresh
  = [Call (update_price_history_call Example.tick); Call get_status_call]
    ++ reading_calls
    ++ analysis_log (Py.float 0.01) (Py.float 0.015) (Py.float 0.02) (Py.float 1)
         (Some (contango_signal (Example.strategy 0.5 0.3) Example.tick
                  (Py.float 1) (Py.float 0.9) (Py.float 1)))
    ++ [Call (calculate_volatility_regime_call "15m");
        Call (calculate_volatility_breakout_call "15m");
        Call (should_trade_call Example.tick);
        Log ERROR (ErrorGeneratingSignal (CollaboratorError "risk gate unavailable"))].
Proof. by_evaluation. Qed.

(** ** The life of an instance *)

Lemma perform_preserves self s op : perform self s op = s.
Proof.
  destruct op; cbn [perform].
  - apply preserves_generate_signal.
  - apply preserves_has_sufficient_data.
  - apply preserves_analyze_term_structure.
  - apply preserves_validate_carry_opportunity.
  - apply preserves_get_strategy_status.
Qed.

Lemma lifetime_preserves self ops s : lifetime self ops s = s.
Proof.
  unfold lifetime. revert s. induction ops as [|op ops IH]; intros s; cbn [foldl].
  - reflexivity.
  - now rewrite perform_preserves.
Qed.

Lemma get_strategy_status_result self w s :
  result (get_strategy_status self w) s =
  Ok match calculate_volatility_metrics w with
     | Ok vol_metrics =>
         Snapshot (name self) (last_carry_signal s) (vol_term_structure s)
           (length (carry_history s)) vol_metrics (carry_threshold_breached s)
     | Raise _ => StatusError (name self)
     end.
Proof.
  unfold result, get_strategy_status, get_state. seq.
  destruct (calculate_volatility_metrics w) as [vol_metrics|e] eqn:Hmetrics;
    [reflexivity|]. caught. reflexivity.
Qed.

(** [generate_signal] never writes the last-signal field: after an
    evaluation, successful or not, the attributes of the instance are what
    they were before it.  On an instance built by [__init__] and used through
    the methods of the class the field is therefore still none after an
    evaluation that returned a Signal, and the status snapshot reports
    [last_signal] as none. *)
Theorem last_signal_never_updated (config : StrategyConfig) (system_config : SystemConfig)
    (ops : list operation) (w : Collaborators) (market_data : MarketData) :
  let self := (init config system_config).1 in
  let before := lifetime self ops (init config system_config).2 in
  let after := final (generate_signal self w market_data) before in
  after = before
  /\ last_carry_signal after = None
  /\ (forall signal,
        result (generate_signal self w market_data) before = Ok (Some signal) ->
        last_carry_signal after <> Some signal)
  /\ (forall w' name last_signal term_structure n metrics breached,
        result (get_strategy_status self w') after
        = Ok (Snapshot name last_signal term_structure n metrics breached) ->
        last_signal = None).
Proof.
  intros self before after.
  assert (Hbefore : before = (init config system_config).2)
    by apply lifetime_preserves.
  assert (Hafter : after = before) by apply preserves_generate_signal.
  split; [exact Hafter|]. rewrite Hafter, Hbefore. cbn [init snd last_carry_signal].
  split; [reflexivity|]. split; [discriminate|].
  intros w' name last_signal term_structure n metrics breached.
  rewrite get_strategy_status_result.
  destruct (calculate_volatility_metrics w'); [|discriminate].
  intros H. now inversion H.
Qed.

(** C3.  After a successful evaluation the stored last-signal field should
    be the Signal that was returned.  It is not: on a fresh instance with
    readings 0.01, 0.015 and 0.02 [generate_signal] returns a SELL signal of
    confidence 0.9, the field [last_carry_signal], which [__init__] sets to
    none and [get_strategy_status] reports as [last_signal], is still none
    afterwards, and so is the [last_signal] of the status snapshot. *)
Lemma successful_evaluation_leaves_last_signal_none :
  exists signal,
    result (generate_signal (Example.strategy 0.5 0.3)
              (Example.world Example.full_status 0.01 0.015 0.02 "medium" None)
              Example.tick) Example.fresh = Ok (Some signal)
    /\ last_carry_signal
         (final (generate_signal (Example.strategy 0.5 0.3)
                   (Example.world Example.full_status 0.01 0.015 0.02 "medium" None)
                   Example.tick) Example.fresh) <> Some signal
    /\ result (get_strategy_status (Example.strategy 0.5 0.3)
                 (Example.world Example.full_status 0.01 0.015 0.02 "medium" None))
              (final (generate_signal (Example.strategy 0.5 0.3)
                        (Example.world Example.full_status 0.01 0.015 0.02 "medium" None)
                        Example.tick) Example.fresh)
       = Ok (Snapshot "VolatilityCarry" None ∅ 0 ∅ false).
Proof.
  exists (contango_signal (Example.strategy 0.5 0.3) Example.tick
            (Py.float 1) (Py.float 0.9) (Py.float 1)).
  repeat split; by_evaluation.
Qed.

(** C10.  [__init__] sets the term-structure cache to the empty dictionary,
    the carry history to the empty list and the breached-threshold flag to
    false, and no method of the class changes them: after any sequence of
    calls the three attributes are as [__init__] left them.  A status
    snapshot therefore reports an empty [term_structure], a
    [carry_history_length] of 0 and [threshold_breached] false; the only
    other answer of the status reporter is the short error dictionary it
    returns when the volatility-metrics collaborator raises, which holds none
    of the three entries. *)
Theorem carry_tracking_never_mutated (config : StrategyConfig)
    (system_config : SystemConfig) (ops : list operation) (w : Collaborators) :
  let self := (init config system_config).1 in
  let s0 := (init config system_config).2 in
  let s := lifetime self ops s0 in
  (vol_term_structure s0 = ∅ /\ carry_history s0 = [] /\ carry_threshold_breached s0 = false)
  /\ (forall op s', perform self s' op = s')
  /\ (vol_term_structure s = ∅ /\ carry_history s = [] /\ carry_threshold_breached s = false)
  /\ (forall name last_signal term_structure n metrics breached,
        result (get_strategy_status self w) s
        = Ok (Snapshot name last_signal term_structure n metrics breached) ->
        n = 0%nat /\ term_structure = ∅ /\ breached = false)
  /\ (forall metrics,
        calculate_volatility_metrics w = Ok metrics ->
        result (get_strategy_status self w) s
        = Ok (Snapshot (name self) (last_carry_signal s) ∅ 0 metrics false))
  /\ (forall e,
        calculate_volatility_metrics w = Raise e ->
        result (get_strategy_status self w) s = Ok (StatusError (name self))).
Proof.
  intros self s0 s.
  assert (Hs : s = s0) by apply lifetime_preserves.
  split; [repeat split|]. split; [intros op s'; apply perform_preserves|].
  rewrite Hs. split; [repeat split|].
  rewrite get_strategy_status_result. split; [|split].
  - intros name last_signal term_structure n metrics breached.
    destruct (calculate_volatility_metrics w); [|discriminate].
    intros H. now inversion H.
  - intros metrics ->. reflexivity.
  - intros e ->. reflexivity.
Qed.

(** The attributes and the snapshot after two evaluations, a successful one
    and one that stopped at the data gate, and a status report. *)
Lemma carry_tracking_never_mutated_witness :
  result (get_strategy_status (Example.strategy 0.5 0.3)
            (Example.world Example.full_status 0.01 0.015 0.02 "medium" None))
         (lifetime (Example.strategy 0.5 0.3)
            [GenerateSignal
               (Example.world Example.full_status 0.01 0.015 0.02 "medium" None)
               Example.tick;
             GenerateSignal
               (Example.world Example.short_status 0.02 0.015 0.01 "high" None)
               Example.long_tick;
             GetStrategyStatus
               (Example.world Example.full_status 0.01 0.015 0.02 "medium" None)]
            Example.fresh)
  = Ok (Snapshot "VolatilityCarry"
          (last_carry_signal
             (lifetime (Example.strategy 0.5 0.3)
                [GenerateSignal
                   (Example.world Example.full_status 0.01 0.015 0.02 "medium" None)
                   Example.tick;
                 GenerateSignal
                   (Example.world Example.short_status 0.02 0.015 0.01 "high" None)
                   Example.long_tick;
                 GetStrategyStatus
                   (Example.world Example.full_status 0.01 0.015 0.02 "medium" None)]
                Example.fresh))
          ∅ 0 ∅ false).
Proof.
  exact (proj1 (proj2 (proj2 (proj2 (proj2
           (carry_tracking_never_mutated (Example.strategy_config 0.5 0.3) Example.system
              [GenerateSignal
                 (Example.world Example.full_status 0.01 0.015 0.02 "medium" None)
                 Example.tick;
               GenerateSignal
                 (Example.world Example.short_status 0.02 0.015 0.01 "high" None)
                 Example.long_tick;
               GetStrategyStatus
                 (Example.world Example.full_status 0.01 0.015 0.02 "medium" None)]
              (Example.world Example.full_status 0.01 0.015 0.02 "medium" None))))))
           ∅ eq_refl).
Defined.

(** The last-signal field after a successful evaluation on a fresh
    instance. *)
Lemma last_signal_never_updated_witness :
  last_carry_signal
    (final (generate_signal (Example.strategy 0.5 0.3)
              (Example.world Example.full_status 0.01 0.015 0.02 "medium" None)
              Example.tick)
           (lifetime (Example.strategy 0.5 0.3) [] Example.fresh)) = None.
Proof.
  exact (proj1 (proj2 (last_signal_never_updated (Example.strategy_config 0.5 0.3)
                         Example.system []
                         (Example.world Example.full_status 0.01 0.015 0.02 "medium" None)
                         Example.tick))).
Defined.

(** ** Further properties of the specification (section 8) *)

(** The confidence floor of the validator: a candidate whose confidence is
    below [min_carry_confidence] is rejected, whatever the regime and the
    breakout report are. *)
Theorem confidence_floor (self : Strategy) (w : Collaborators) (signal : Signal)
    (market_data : MarketData) (s : StrategyState) :
  (confidence signal < min_carry_confidence (config self))%Qc ->
  result (_validate_carry_opportunity self w signal market_data) s = Ok false.
Proof.
  intros Hlow. rewrite validate_result, (proj2 (lt_true _ _) Hlow).
  destruct (calculate_volatility_regime w "15m") as [vol_regime|e]; [|reflexivity].
  destruct (bool_decide (vol_regime = "low") && bool_decide (action signal = 2%Z));
    [reflexivity|].
  destruct (bool_decide (vol_regime = "high") && bool_decide (action signal = 1%Z));
    [reflexivity|].
  destruct (calculate_volatility_breakout w "15m") as [breakout_info|e]; [|reflexivity].
  now destruct (strong_breakout breakout_info).
Qed.

(** A BUY candidate of confidence 0.55 under a floor of 0.6, in a "medium"
    regime without breakout. *)
Lemma confidence_floor_witness :
  result (_validate_carry_opportunity (Example.strategy 0.5 0.3)
            (Example.world Example.full_status 0.02 0.015 0.01 "medium" None)
            (backwardation_signal (Example.strategy 0.5 0.3) Example.tick
               (Py.float (-0.5)) (Py.float 0.55) (Py.float 1))
            Example.tick) Example.fresh = Ok false.
Proof.
  refine (confidence_floor _ _ _ _ _ _). by_evaluation.
Defined.

(** A signal comes out of [generate_signal] only when every gate was passed:
    the update and the status request returned, the data are sufficient, the
    signal is the candidate of the analysis, the validator accepted it, the
    risk gate let it through, and its confidence is not below the system-wide
    minimum. *)
Theorem signal_only_after_all_gates (self : Strategy) (w : Collaborators)
    (market_data : MarketData) (s : StrategyState) (signal : Signal) :
  result (generate_signal self w market_data) s = Ok (Some signal) ->
  update_price_history w market_data = Ok tt
  /\ (exists status,
        get_status w = Ok status
        /\ forall timeframe, timeframe ∈ ["5m"; "15m"; "1h"] ->
             (100 <= data_points status timeframe)%Z)
  /\ result (_analyze_term_structure self w market_data) s = Ok (Some signal)
  /\ result (_validate_carry_opportunity self w signal market_data) s = Ok true
  /\ should_trade w market_data = Ok true
  /\ (min_confidence (risk_management (system_config self)) <= confidence signal)%Qc
  /\ (min_carry_confidence (config self) <= confidence signal)%Qc.
Proof.
  intros H.
  destruct (generate_signal_some_inv _ _ _ _ _ H)
    as (Hupdate & (status & Hstatus & Hsuf) & Hanalysis & Hvalid & Htrade & Hconf).
  split; [exact Hupdate|]. split.
  { exists status. split; [exact Hstatus|]. now apply sufficient_for_required. }
  split; [exact Hanalysis|]. split; [exact Hvalid|]. split; [exact Htrade|].
  split; [now apply lt_false|].
  destruct (Qclt_le_dec (confidence signal) (min_carry_confidence (config self)))
    as [Hlow|Hok]; [|exact Hok].
  exfalso. rewrite validate_result, (proj2 (lt_true _ _) Hlow) in Hvalid.
  destruct (calculate_volatility_regime w "15m") as [vol_regime|e]; [|discriminate].
  destruct (bool_decide (vol_regime = "low") && bool_decide (action signal = 2%Z));
    [discriminate|].
  destruct (bool_decide (vol_regime = "high") && bool_decide (action signal = 1%Z));
    [discriminate|].
  destruct (calculate_volatility_breakout w "15m") as [breakout_info|e]; [|discriminate].
  now destruct (strong_breakout breakout_info).
Qed.

(** The gates at readings 0.01, 0.015 and 0.02: the SELL signal of confidence
    0.9 that [generate_signal] returns was accepted by the validator. *)
Lemma signal_only_after_all_gates_witness :
  result (_validate_carry_opportunity (Example.strategy 0.5 0.3)
            (Example.world Example.full_status 0.01 0.015 0.02 "medium" None)
            (contango_signal (Example.strategy 0.5 0.3) Example.tick
               (Py.float 1) (Py.float 0.9) (Py.float 1))
            Example.tick) Example.fresh = Ok true.
Proof.
  refine (proj1 (proj2 (proj2 (proj2
            (signal_only_after_all_gates (Example.strategy 0.5 0.3)
               (Example.world Example.full_status 0.01 0.015 0.02 "medium" None)
               Example.tick Example.fresh _ _))))).
  by_evaluation.
Defined.

(** ** The paths of an evaluation *)

Lemma emits_ret {A : Type} (P : event -> Prop) (a : A) : emits P (ret a).
Proof. intros s. constructor. Qed.

Lemma emits_lift {A : Type} (P : event -> Prop) (r : res A) : emits P (lift r).
Proof. intros s. constructor. Qed.

Lemma emits_invoke {A : Type} (P : event -> Prop) (c : call) (r : res A) :
  P (Call c) -> emits P (invoke c r).
Proof. intros H s. repeat constructor. exact H. Qed.

Lemma emits_log (P : event -> Prop) (l : level) (m : message) :
  P (Log l m) -> emits P (log l m).
Proof. intros H s. repeat constructor. exact H. Qed.

Lemma emits_bind {A B : Type} (P : event -> Prop) (m : M A) (k : A -> M B) :
  emits P m -> (forall a, emits P (k a)) -> emits P (bind m k).
Proof.
  intros Hm Hk s. specialize (Hm s). unfold trace, bind in *.
  destruct (m s) as [[[a|e] s1] t1]; cbn in *; [|exact Hm].
  specialize (Hk a s1). unfold trace in Hk.
  destruct (k a s1) as [[r s2] t2]. cbn in *. apply Forall_app. now split.
Qed.

Lemma emits_try_except {A : Type} (P : event -> Prop) (m : M A) (h : exn -> M A) :
  emits P m -> (forall e, emits P (h e)) -> emits P (try_except m h).
Proof.
  intros Hm Hh s. specialize (Hm s). unfold trace, try_except in *.
  destruct (m s) as [[[a|e] s1] t1]; cbn in *; [exact Hm|].
  destruct (is_Exception e); [|exact Hm].
  specialize (Hh e s1). unfold trace in Hh.
  destruct (h e s1) as [[r s2] t2]. cbn in *. apply Forall_app. now split.
Qed.

(** Walks a method, leaving the conditions on its events. *)
Ltac emits :=
  repeat first
    [ apply emits_ret
    | apply emits_lift
    | apply emits_bind
    | apply emits_try_except
    | apply emits_invoke
    | apply emits_log
    | match goal with |- forall _, _ => intro end
    | match goal with
      | |- emits _ (if ?b then _ else _) => destruct b
      | |- emits _ (match ?x with Some _ => _ | None => _ end) => destruct x
      end ].

Lemma collect_emits (P : event -> Prop) w tfs vs :
  (forall timeframe, P (Call (calculate_realized_volatility_call timeframe (20, 60)%Z))) ->
  emits P (collect_vol_structure w tfs vs).
Proof.
  intros H. revert vs. induction tfs as [|tf tfs IH]; intros vs; cbn [collect_vol_structure];
    emits; auto.
Qed.

Lemma analyze_emits self w market_data :
  emits (fun ev => from_analysis ev = true) (_analyze_term_structure self w market_data).
Proof.
  unfold _analyze_term_structure, analyze_term_structure_body, carry_signal_logic, atr_of.
  emits; try reflexivity; apply collect_emits; reflexivity.
Qed.

Lemma validate_emits self w signal market_data :
  emits (fun ev => from_validation ev = true)
        (_validate_carry_opportunity self w signal market_data).
Proof. unfold _validate_carry_opportunity. emits; reflexivity. Qed.

(** The action of a candidate of the analyzer, and its name in the list
    ['HOLD', 'BUY', 'SELL']. *)
Lemma candidate_action self w market_data s signal :
  result (_analyze_term_structure self w market_data) s = Ok (Some signal) ->
  (action signal = SELL \/ action signal = BUY)
  /\ Py.index action_names (action signal)
     = Ok (if bool_decide (action signal = SELL) then "SELL" else "BUY").
Proof.
  intros H.
  destruct (analyze_some_inv _ _ _ _ _ H)
    as (v5 & v15 & v1 & overall_slope & strength & atr & t
        & _ & _ & _ & _ & _ & [(_ & _ & ->)|(_ & _ & _ & ->)]).
  - split; [now left|reflexivity].
  - split; [now right|reflexivity].
Qed.

(** Every evaluation follows one of the nine paths. *)
Lemma generate_signal_path self w market_data s :
  exists outcome t,
    runs (generate_signal self w market_data) s (Ok outcome) s t
    /\ path self w market_data s outcome t.
Proof.
  destruct (runs_method _ s (analyze_never_raises self w market_data)
              (preserves_analyze_term_structure self w market_data))
    as (candidate & ta & Ha).
  pose proof Ha as Ha'. unfold runs in Ha'.
  unfold runs, generate_signal, _has_sufficient_data. seq.
  destruct (update_price_history w market_data) as [[]|e] eqn:Hupdate; seq.
  2:{ caught. eexists _, _. split; [reflexivity|]. cbn [app].
      now apply path_update_raises. }
  destruct (get_status w) as [status|e] eqn:Hstatus; seq.
  2:{ caught. eexists _, _. split; [reflexivity|]. cbn [app].
      now apply path_status_raises. }
  destruct (sufficient_for status required_data) eqn:Hsuf; seq.
  2:{ eexists _, _. split; [reflexivity|]. cbn [app].
      now apply (path_insufficient _ _ _ _ status). }
  rewrite Ha'. seq.
  destruct candidate as [candidate|]; seq.
  2:{ eexists _, _. split; [reflexivity|]. cbn [app].
      now apply (path_no_candidate _ _ _ _ status). }
  destruct (runs_method _ s (validate_never_raises self w candidate market_data)
              (preserves_validate_carry_opportunity self w candidate market_data))
    as (valid & tv & Hv).
  pose proof Hv as Hv'. unfold runs in Hv'. rewrite Hv'. seq.
  destruct valid; seq.
  2:{ eexists _, _. split; [reflexivity|]. cbn [app].
      now apply (path_rejected _ _ _ _ status candidate). }
  destruct (should_trade w market_data) as [[]|e] eqn:Htrade; seq.
  - destruct (Py.lt (confidence candidate)
                (min_confidence (risk_management (system_config self)))) eqn:Hconf; seq.
    + eexists _, _. split; [reflexivity|]. cbn [app].
      apply (path_below_minimum _ _ _ _ status candidate); auto. now apply lt_true.
    + rewrite (proj2 (candidate_action _ _ _ _ _ (runs_result _ _ _ _ _ Ha))). seq.
      eexists _, _. split; [reflexivity|]. cbn [app].
      apply (path_emitted _ _ _ _ status candidate); auto. now apply lt_false.
  - eexists _, _. split; [reflexivity|]. cbn [app].
    now apply (path_blocked _ _ _ _ status candidate).
  - caught. exists None. eexists. split.
    2:{ eapply path_risk_gate_raises; eauto. }
    cbn [app]. rewrite <- !app_assoc. reflexivity.
Qed.

Lemma analysis_events_not_orchestrator (t : list event) :
  Forall (fun ev => from_analysis ev = true) t ->
  Forall (fun ev => from_orchestrator ev = false) t.
Proof.
  apply Forall_impl. intros [c|l m] H; [reflexivity|].
  destruct m; try discriminate; reflexivity.
Qed.

Lemma validation_events_not_orchestrator (t : list event) :
  Forall (fun ev => from_validation ev = true) t ->
  Forall (fun ev => from_orchestrator ev = false) t.
Proof.
  apply Forall_impl. intros [c|l m] H; [reflexivity|].
  destruct m; try discriminate; reflexivity.
Qed.

Lemma analyze_run_events self w market_data s r s' t :
  runs (_analyze_term_structure self w market_data) s r s' t ->
  Forall (fun ev => from_analysis ev = true) t.
Proof.
  intros H. rewrite <- (runs_trace _ _ _ _ _ H). apply analyze_emits.
Qed.

Lemma validate_run_events self w signal market_data s r s' t :
  runs (_validate_carry_opportunity self w signal market_data) s r s' t ->
  Forall (fun ev => from_validation ev = true) t.
Proof.
  intros H. rewrite <- (runs_trace _ _ _ _ _ H). apply validate_emits.
Qed.

(** Every evaluation ends with one log record of [generate_signal], and it is
    the only one: INFO with the action and the confidence when a signal is
    returned, INFO with the gate that stopped the evaluation or ERROR with
    the exception when none is.  The action logged is SELL or BUY. *)
Theorem every_outcome_is_logged (self : Strategy) (w : Collaborators)
    (market_data : MarketData) (s : StrategyState) :
  exists earlier l m,
    trace (generate_signal self w market_data) s = earlier ++ [Log l m]
    /\ Forall (fun ev => from_orchestrator ev = false) earlier
    /\ ((exists signal,
           result (generate_signal self w market_data) s = Ok (Some signal)
           /\ l = INFO
           /\ ((action signal = SELL /\ m = Generated "SELL" (confidence signal))
               \/ (action signal = BUY /\ m = Generated "BUY" (confidence signal))))
        \/ (result (generate_signal self w market_data) s = Ok None
            /\ ((l = INFO
                 /\ (m = InsufficientData \/ m = NoTermStructureSignal
                     \/ m = ValidationFailed \/ m = RiskManagementBlocked
                     \/ exists c floor, m = ConfidenceBelowMinimum c floor))
                \/ (l = ERROR /\ exists e, m = ErrorGeneratingSignal e)))).
Proof.
  destruct (generate_signal_path self w market_data s) as (outcome & t & Hrun & Hpath).
  rewrite (runs_trace _ _ _ _ _ Hrun), (runs_result _ _ _ _ _ Hrun).
  destruct Hpath.
  - exists [Call (update_price_history_call market_data)]. eexists _, _.
    split; [reflexivity|]. split; [repeat constructor|]. right. eauto 10.
  - exists [Call (update_price_history_call market_data); Call get_status_call].
    eexists _, _. split; [reflexivity|]. split; [repeat constructor|]. right. eauto 10.
  - exists [Call (update_price_history_call market_data); Call get_status_call].
    eexists _, _. split; [reflexivity|]. split; [repeat constructor|]. right. eauto 10.
  - exists ([Call (update_price_history_call market_data); Call get_status_call] ++ ta).
    eexists _, _. split; [now rewrite <- app_assoc|]. split.
    + apply Forall_app. split; [repeat constructor|].
      eapply analysis_events_not_orchestrator, analyze_run_events; eauto.
    + right. eauto 10.
  - exists ([Call (update_price_history_call market_data); Call get_status_call]
            ++ ta ++ tv).
    eexists _, _. split; [now rewrite <- !app_assoc|]. split.
    + apply Forall_app. split; [repeat constructor|]. apply Forall_app. split.
      * eapply analysis_events_not_orchestrator, analyze_run_events; eauto.
      * eapply validation_events_not_orchestrator, validate_run_events; eauto.
    + right. eauto 10.
  - exists ([Call (update_price_history_call market_data); Call get_status_call]
            ++ ta ++ tv ++ [Call (should_trade_call market_data)]).
    eexists _, _. split; [now rewrite <- !app_assoc|]. split.
    + apply Forall_app. split; [repeat constructor|]. apply Forall_app. split.
      * eapply analysis_events_not_orchestrator, analyze_run_events; eauto.
      * apply Forall_app. split; [|repeat constructor].
        eapply validation_events_not_orchestrator, validate_run_events; eauto.
    + right. eauto 10.
  - exists ([Call (update_price_history_call market_data); Call get_status_call]
            ++ ta ++ tv ++ [Call (should_trade_call market_data)]).
    eexists _, _. split; [now rewrite <- !app_assoc|]. split.
    + apply Forall_app. split; [repeat constructor|]. apply Forall_app. split.
      * eapply analysis_events_not_orchestrator, analyze_run_events; eauto.
      * apply Forall_app. split; [|repeat constructor].
        eapply validation_events_not_orchestrator, validate_run_events; eauto.
    + right. eauto 10.
  - exists ([Call (update_price_history_call market_data); Call get_status_call]
            ++ ta ++ tv ++ [Call (should_trade_call market_data)]).
    eexists _, _. split; [now rewrite <- !app_assoc|]. split.
    + apply Forall_app. split; [repeat constructor|]. apply Forall_app. split.
      * eapply analysis_events_not_orchestrator, analyze_run_events; eauto.
      * apply Forall_app. split; [|repeat constructor].
        eapply validation_events_not_orchestrator, validate_run_events; eauto.
    + right. split; [reflexivity|]. left. split; [reflexivity|]. eauto 10.
  - exists ([Call (update_price_history_call market_data); Call get_status_call]
            ++ ta ++ tv ++ [Call (should_trade_call market_data)]).
    eexists _, _. split; [now rewrite <- !app_assoc|]. split.
    + apply Forall_app. split; [repeat constructor|]. apply Forall_app. split.
      * eapply analysis_events_not_orchestrator, analyze_run_events; eauto.
      * apply Forall_app. split; [|repeat constructor].
        eapply validation_events_not_orchestrator, validate_run_events; eauto.
    + left. exists signal. split; [reflexivity|]. split; [reflexivity|].
      match goal with
      | Ha : runs (_analyze_term_structure _ _ _) _ (Ok (Some signal)) _ _ |- _ =>
          destruct (proj1 (candidate_action _ _ _ _ _ (runs_result _ _ _ _ _ Ha)))
            as [Hact|Hact]
      end; rewrite Hact; [left|right]; split; reflexivity.
Qed.

Lemma not_in_analysis_events (t : list event) (ev : event) :
  Forall (fun ev => from_analysis ev = true) t -> from_analysis ev = false -> ev ∉ t.
Proof.
  intros Hall Hev Hin. rewrite list.Forall_forall in Hall. specialize (Hall ev Hin). congruence.
Qed.

Lemma not_in_validation_events (t : list event) (ev : event) :
  Forall (fun ev => from_validation ev = true) t -> from_validation ev = false -> ev ∉ t.
Proof.
  intros Hall Hev Hin. rewrite list.Forall_forall in Hall. specialize (Hall ev Hin). congruence.
Qed.

(** The risk gate is consulted only for a candidate that the validator
    accepted: whenever [should_trade] appears among the calls of an
    evaluation, it was called with the snapshot of that evaluation, once and
    as the last call, after a sufficient status, an analysis that gave a
    candidate and a validation that returned true. *)
Theorem risk_gate_only_after_validation (self : Strategy) (w : Collaborators)
    (market_data : MarketData) (s : StrategyState) (snapshot : MarketData) :
  Call (should_trade_call snapshot) ∈ trace (generate_signal self w market_data) s ->
  snapshot = market_data
  /\ (exists status, get_status w = Ok status
                     /\ sufficient_for status required_data = true)
  /\ (exists signal,
        result (_analyze_term_structure self w market_data) s = Ok (Some signal)
        /\ result (_validate_carry_opportunity self w signal market_data) s = Ok true)
  /\ (exists earlier l m,
        trace (generate_signal self w market_data) s
        = earlier ++ [Call (should_trade_call market_data); Log l m]
        /\ Forall (fun ev => forall c, ev = Call c ->
                     forall md, c <> should_trade_call md) earlier).
Proof.
  destruct (generate_signal_path self w market_data s) as (outcome & t & Hrun & Hpath).
  rewrite (runs_trace _ _ _ _ _ Hrun).
  assert (Hta : forall r ta,
             runs (_analyze_term_structure self w market_data) s r s ta ->
             Call (should_trade_call snapshot) ∉ ta).
  { intros r ta Ha. eapply not_in_analysis_events; [|reflexivity].
    eapply analyze_run_events; eauto. }
  assert (Htv : forall signal r tv,
             runs (_validate_carry_opportunity self w signal market_data) s r s tv ->
             Call (should_trade_call snapshot) ∉ tv).
  { intros signal r tv Hv. eapply not_in_validation_events; [|reflexivity].
    eapply validate_run_events; eauto. }
  assert (Hclean : forall signal ra rv ta tv,
             runs (_analyze_term_structure self w market_data) s ra s ta ->
             runs (_validate_carry_opportunity self w signal market_data) s rv s tv ->
             Forall (fun ev => forall c, ev = Call c ->
                       forall md, c <> should_trade_call md)
               ([Call (update_price_history_call market_data); Call get_status_call]
                ++ ta ++ tv)).
  { intros signal ra rv ta tv Ha Hv.
    apply Forall_app. split.
    - repeat constructor; intros c [= <-] md; discriminate.
    - apply Forall_app. split.
      + eapply Forall_impl; [|eapply analyze_run_events; eauto].
        intros ev Hev c -> md ->. discriminate.
      + eapply Forall_impl; [|eapply validate_run_events; eauto].
        intros ev Hev c -> md ->. discriminate. }
  destruct Hpath; intros Hin;
    repeat (rewrite ?elem_of_app, ?elem_of_cons, ?elem_of_nil in Hin);
    try (exfalso; intuition (try discriminate; eauto); fail).
  all: assert (Hmd : snapshot = market_data)
    by (intuition (try discriminate; try (exfalso; eauto; fail));
        match goal with H : Call _ = Call _ |- _ => now inversion H end).
  all: split; [exact Hmd|]; split; [eauto|]; split;
    [eexists; split; eapply runs_result; eauto|].
  all: eexists _, _, _; split; [rewrite !app_assoc; reflexivity|];
    rewrite <- !app_assoc; eapply Hclean; eauto.
Qed.

(** *** The calls to the ATR helper *)

Lemma atr_of_call w market_data s r s' t prices :
  runs (atr_of w market_data) s r s' t ->
  Call (calculate_atr_simple_call prices) ∈ t ->
  (20 <= length (price_15m market_data))%nat
  /\ prices = Py.last_n 20 (price_15m market_data).
Proof.
  intros Hrun Hin.
  destruct (Nat.le_gt_cases 20 (length (price_15m market_data))) as [Hlen|Hlen].
  - pose proof (atr_of_long w market_data s Hlen) as H. unfold runs in *.
    rewrite Hrun in H. inversion H; subst.
    apply list_elem_of_singleton in Hin. inversion Hin. auto.
  - pose proof (atr_of_short w market_data s Hlen) as H. unfold runs in *.
    rewrite Hrun in H. inversion H; subst. now apply elem_of_nil in Hin.
Qed.

Lemma logic_atr_call self w market_data overall_slope s r s' t prices :
  runs (carry_signal_logic self w market_data overall_slope) s r s' t ->
  Call (calculate_atr_simple_call prices) ∈ t ->
  ((contango_threshold (config self) < overall_slope)%Qc
   \/ (overall_slope < - backwardation_threshold (config self))%Qc)
  /\ (20 <= length (price_15m market_data))%nat
  /\ prices = Py.last_n 20 (price_15m market_data).
Proof.
  unfold runs, carry_signal_logic.
  destruct (Py.gt overall_slope (contango_threshold (config self))) eqn:Hgt;
    [|destruct (Py.lt overall_slope (- backwardation_threshold (config self))%Qc) eqn:Hlt].
  - destruct (signal_strength overall_slope (contango_threshold (config self)))
      as [strength|e]; seq.
    + destruct (atr_of w market_data s) as [[[atr|e] s1] t1] eqn:Hatr; seq;
        intros H Hin; inversion H; subst; rewrite ?app_nil_r in Hin;
        (split; [left; now apply gt_true|exact (atr_of_call _ _ _ _ _ _ _ Hatr Hin)]).
    + intros H Hin. inversion H; subst. now apply elem_of_nil in Hin.
  - destruct (signal_strength (Py.abs overall_slope)
                (backwardation_threshold (config self))) as [strength|e]; seq.
    + destruct (atr_of w market_data s) as [[[atr|e] s1] t1] eqn:Hatr; seq;
        intros H Hin; inversion H; subst; rewrite ?app_nil_r in Hin;
        (split; [right; now apply lt_true|exact (atr_of_call _ _ _ _ _ _ _ Hatr Hin)]).
    + intros H Hin. inversion H; subst. now apply elem_of_nil in Hin.
  - seq. intros H Hin. inversion H; subst. now apply elem_of_nil in Hin.
Qed.

Lemma collect_no_atr_call w tfs vs :
  emits (fun ev => forall prices, ev <> Call (calculate_atr_simple_call prices))
        (collect_vol_structure w tfs vs).
Proof. apply collect_emits. intros timeframe prices. discriminate. Qed.

Lemma analyze_atr_call self w market_data s prices :
  Call (calculate_atr_simple_call prices) ∈ trace (_analyze_term_structure self w market_data) s ->
  exists vols_5m vols_15m vols_1h overall_slope,
    available w "5m" vols_5m /\ available w "15m" vols_15m /\ available w "1h" vols_1h
    /\ slope (default 0%Qc (vols_1h !! "20_period"))
             (default 0%Qc (vols_5m !! "20_period")) = Ok overall_slope
    /\ ((contango_threshold (config self) < overall_slope)%Qc
        \/ (overall_slope < - backwardation_threshold (config self))%Qc)
    /\ (20 <= length (price_15m market_data))%nat
    /\ prices = Py.last_n 20 (price_15m market_data).
Proof.
  intros Hin.
  destruct (collect_cases w s) as [(v5 & v15 & v1 & A5 & A15 & A1)
                                  |[(vs & t & Hrun & Hsize)|(e & t & Hrun)]].
  - destruct (slope_never_raises (default 0%Qc (v1 !! "20_period"))
                (default 0%Qc (v5 !! "20_period"))) as [overall_slope Hslope].
    pose proof (runs_observed (carry_signal_logic self w market_data overall_slope) s)
      as Hlogic.
    rewrite (preserves_carry_signal_logic self w market_data overall_slope s) in Hlogic.
    pose proof (body_available self w market_data s _ _ _ _ _ _ A5 A15 A1 Hslope Hlogic)
      as Hbody.
    exists v5, v15, v1, overall_slope. repeat (split; [assumption|]).
    apply (logic_atr_call _ _ _ _ _ _ _ _ _ Hlogic).
    unfold _analyze_term_structure in Hin.
    destruct (result (carry_signal_logic self w market_data overall_slope) s)
      as [locals|e].
    + rewrite (runs_trace _ _ _ _ _ (runs_try_ok _ _ _ _ _ _ Hbody)) in Hin.
      unfold reading_calls, analysis_log in Hin.
      repeat (rewrite ?elem_of_app, ?elem_of_cons, ?elem_of_nil in Hin).
      intuition discriminate.
    + rewrite (runs_trace _ _ _ _ _
                 (runs_try_raise _ _ _ _ _ _ _ _ _ Hbody
                (body_raises_Exception _ _ _ _ _ _ _ Hbody) (runs_log_ret _ _ _ _))) in Hin.
      unfold reading_calls in Hin.
      repeat (rewrite ?elem_of_app, ?elem_of_cons, ?elem_of_nil in Hin).
      intuition discriminate.
  - exfalso.
    assert (Hbody : runs (analyze_term_structure_body self w market_data) s (Ok None) s (t ++ [])).
    { unfold analyze_term_structure_body. eapply runs_bind_ok; [exact Hrun|].
      rewrite Hsize. apply runs_ret. }
    unfold _analyze_term_structure in Hin.
    rewrite (runs_trace _ _ _ _ _ (runs_try_ok _ _ _ _ _ _ Hbody)), app_nil_r in Hin.
    pose proof (collect_no_atr_call w timeframes ∅ s) as Hno.
    rewrite (runs_trace _ _ _ _ _ Hrun) in Hno.
    rewrite list.Forall_forall in Hno. exact (Hno _ Hin prices eq_refl).
  - exfalso.
    assert (Hbody : runs (analyze_term_structure_body self w market_data) s (Raise e) s t).
    { unfold analyze_term_structure_body. eapply runs_bind_raise. exact Hrun. }
    unfold _analyze_term_structure in Hin.
    rewrite (runs_trace _ _ _ _ _
               (runs_try_raise _ _ _ _ _ _ _ _ _ Hbody
                (body_raises_Exception _ _ _ _ _ _ _ Hbody) (runs_log_ret _ _ _ _))) in Hin.
    apply elem_of_app in Hin. destruct Hin as [Hin|Hin].
    + pose proof (collect_no_atr_call w timeframes ∅ s) as Hno.
      rewrite (runs_trace _ _ _ _ _ Hrun) in Hno.
      rewrite list.Forall_forall in Hno. exact (Hno _ Hin prices eq_refl).
    + apply list_elem_of_singleton in Hin. discriminate.
Qed.

(** The ATR helper is asked only when the three readings are available, the
    overall slope is beyond one of the two thresholds and the 15-minute
    series has at least 20 points; it then receives the last 20 points of
    the series and nothing else. *)
Theorem atr_helper_sees_last_twenty (self : Strategy) (w : Collaborators)
    (market_data : MarketData) (s : StrategyState) (prices : list Qc) :
  Call (calculate_atr_simple_call prices) ∈ trace (generate_signal self w market_data) s ->
  (20 <= length (price_15m market_data))%nat
  /\ prices = Py.last_n 20 (price_15m market_data)
  /\ length prices = 20%nat
  /\ (exists earlier, price_15m market_data = earlier ++ prices)
  /\ exists vols_5m vols_15m vols_1h overall_slope,
       available w "5m" vols_5m /\ available w "15m" vols_15m /\ available w "1h" vols_1h
       /\ slope (default 0%Qc (vols_1h !! "20_period"))
                (default 0%Qc (vols_5m !! "20_period")) = Ok overall_slope
       /\ ((contango_threshold (config self) < overall_slope)%Qc
           \/ (overall_slope < - backwardation_threshold (config self))%Qc).
Proof.
  intros Hin.
  assert (Hanalysis : Call (calculate_atr_simple_call prices)
                      ∈ trace (_analyze_term_structure self w market_data) s).
  { destruct (generate_signal_path self w market_data s) as (outcome & t & Hrun & Hpath).
    rewrite (runs_trace _ _ _ _ _ Hrun) in Hin.
    assert (Htv : forall signal r tv,
               runs (_validate_carry_opportunity self w signal market_data) s r s tv ->
               Call (calculate_atr_simple_call prices) ∉ tv).
    { intros signal r tv Hv. eapply not_in_validation_events; [|reflexivity].
      eapply validate_run_events; eauto. }
    destruct Hpath;
      repeat (rewrite ?elem_of_app, ?elem_of_cons, ?elem_of_nil in Hin);
      try (exfalso; intuition (try discriminate; eauto); fail);
      match goal with
      | Ha : runs (_analyze_term_structure _ _ _) _ _ _ ?ta |- _ =>
          rewrite (runs_trace _ _ _ _ _ Ha);
          intuition (try discriminate; try (exfalso; eauto; fail))
      end. }
  destruct (analyze_atr_call _ _ _ _ _ Hanalysis)
    as (v5 & v15 & v1 & overall_slope & A5 & A15 & A1 & Hslope & Hbranch & Hlen & ->).
  split; [exact Hlen|]. split; [reflexivity|]. split; [now apply last_n_length|].
  split; [apply last_n_suffix|]. exists v5, v15, v1, overall_slope. auto.
Qed.

(** *** Passing every gate *)

(** When every gate is passed the candidate of the analysis comes out of
    [generate_signal] unchanged: the update and the status request return,
    the three timeframes have their 100 points, the validator accepts the
    candidate, the risk gate returns true and the confidence is not below
    the system-wide minimum. *)
Theorem all_gates_passed_returns_candidate (self : Strategy) (w : Collaborators)
    (market_data : MarketData) (s : StrategyState)
    (status : gmap string (gmap string Z)) (signal : Signal) :
  update_price_history w market_data = Ok tt ->
  get_status w = Ok status ->
  (forall timeframe, timeframe ∈ ["5m"; "15m"; "1h"] ->
     (100 <= data_points status timeframe)%Z) ->
  result (_analyze_term_structure self w market_data) s = Ok (Some signal) ->
  result (_validate_carry_opportunity self w signal market_data) s = Ok true ->
  should_trade w market_data = Ok true ->
  (min_confidence (risk_management (system_config self)) <= confidence signal)%Qc ->
  result (generate_signal self w market_data) s = Ok (Some signal)
  /\ final (generate_signal self w market_data) s = s.
Proof.
  intros Hupdate Hstatus Hpoints Hanalysis Hvalid Htrade Hconf.
  apply sufficient_for_required in Hpoints.
  destruct (generate_signal_path self w market_data s) as (outcome & t & Hrun & Hpath).
  rewrite (runs_result _ _ _ _ _ Hrun), (runs_final _ _ _ _ _ Hrun).
  split; [|reflexivity].
  destruct Hpath;
    repeat match goal with
      | H : runs (_analyze_term_structure _ _ _) _ _ _ _ |- _ =>
          apply runs_result in H; rewrite Hanalysis in H; inversion H; clear H; subst
      | H : runs (_validate_carry_opportunity _ _ _ _) _ _ _ _ |- _ =>
          apply runs_result in H; rewrite Hvalid in H; inversion H; clear H
      end;
    try congruence.
  exfalso. eapply Qclt_not_le; eauto.
Qed.

(** The SELL candidate at readings 0.01, 0.015 and 0.02 passes every gate. *)
Lemma all_gates_passed_returns_candidate_witness :
  result (generate_signal (Example.strategy 0.5 0.3)
            (Example.world Example.full_status 0.01 0.015 0.02 "medium" None)
            Example.tick) Example.fresh
  = Ok (Some (contango_signal (Example.strategy 0.5 0.3) Example.tick
                (Py.float 1) (Py.float 0.9) (Py.float 1))).
Proof.
  refine (proj1 (all_gates_passed_returns_candidate (Example.strategy 0.5 0.3)
                   (Example.world Example.full_status 0.01 0.015 0.02 "medium" None)
                   Example.tick Example.fresh Example.full_status _
                   eq_refl eq_refl _ _ _ eq_refl _)).
  - intros timeframe Hin. rewrite !elem_of_cons, elem_of_nil in Hin.
    destruct Hin as [->|[->|[->|[]]]]; by_evaluation.
  - by_evaluation.
  - by_evaluation.
  - by_evaluation.
Defined.

(** *** A reading that is missing *)

Lemma collect_missing w s :
  (forall timeframe, timeframe ∈ ["5m"; "15m"; "1h"] ->
     exists answer, calculate_realized_volatility w timeframe (20, 60)%Z = Ok answer) ->
  (exists timeframe, timeframe ∈ ["5m"; "15m"; "1h"]
     /\ (calculate_realized_volatility w timeframe (20, 60)%Z = Ok None
         \/ exists vols, calculate_realized_volatility w timeframe (20, 60)%Z = Ok (Some vols)
                         /\ size vols = 0%nat)) ->
  exists vs, runs (collect_vol_structure w timeframes ∅) s (Ok vs) s reading_calls
             /\ (size vs <? 3)%nat = true.
Proof.
  intros Hok (timeframe & Hin & Hmissing).
  destruct (Hok "5m" ltac:(repeat constructor)) as [a5 H5].
  destruct (Hok "15m" ltac:(repeat constructor)) as [a15 H15].
  destruct (Hok "1h" ltac:(repeat constructor)) as [a1 H1].
  unfold runs, timeframes. cbn [collect_vol_structure]. seq.
  rewrite H5, H15, H1.
  assert (Hcase : (a5 = None \/ exists v, a5 = Some v /\ Py.nonempty v = false)
                  \/ (a15 = None \/ exists v, a15 = Some v /\ Py.nonempty v = false)
                  \/ (a1 = None \/ exists v, a1 = Some v /\ Py.nonempty v = false)).
  { rewrite !elem_of_cons, elem_of_nil in Hin.
    assert (Hempty : forall v : gmap string Qc, size v = 0%nat -> Py.nonempty v = false).
    { intros v Hv. unfold Py.nonempty. now rewrite Hv. }
    destruct Hin as [->|[->|[->|[]]]];
      [left|right; left|right; right];
      (destruct Hmissing as [Hn|(v & Hv & Hsize)];
       [left; congruence|right; exists v; split; [congruence|auto]]). }
  destruct a5 as [v5|]; [destruct (Py.nonempty v5) eqn:N5|];
    (destruct a15 as [v15|]; [destruct (Py.nonempty v15) eqn:N15|]);
    (destruct a1 as [v1|]; [destruct (Py.nonempty v1) eqn:N1|]);
    seq;
    try (eexists; split; [reflexivity|vm_compute; reflexivity]).
  exfalso.
  destruct Hcase as [[?|(v & Hv & Hn)]|[[?|(v & Hv & Hn)]|[?|(v & Hv & Hn)]]];
    try discriminate; inversion Hv; subst; congruence.
Qed.

(** When no reading raises and one of the three is [None] or an empty
    dictionary, the analyzer returns none after asking for the three
    timeframes in the order 5m, 15m, 1h: it makes no other call and writes
    no log record, not even the one of the term-structure analysis. *)
Theorem missing_reading_gives_no_candidate (self : Strategy) (w : Collaborators)
    (market_data : MarketData) (s : StrategyState) :
  (forall timeframe, timeframe ∈ ["5m"; "15m"; "1h"] ->
     exists answer, calculate_realized_volatility w timeframe (20, 60)%Z = Ok answer) ->
  (exists timeframe, timeframe ∈ ["5m"; "15m"; "1h"]
     /\ (calculate_realized_volatility w timeframe (20, 60)%Z = Ok None
         \/ exists vols, calculate_realized_volatility w timeframe (20, 60)%Z = Ok (Some vols)
                         /\ size vols = 0%nat)) ->
  _analyze_term_structure self w market_data s
  = (Ok None, s,
     [Call (calculate_realized_volatility_call "5m" (20, 60)%Z);
      Call (calculate_realized_volatility_call "15m" (20, 60)%Z);
      Call (calculate_realized_volatility_call "1h" (20, 60)%Z)]).
Proof.
  intros Hok Hmissing.
  destruct (collect_missing w s Hok Hmissing) as (vs & Hrun & Hsize).
  assert (Hbody : runs (analyze_term_structure_body self w market_data) s (Ok None) s
                    (reading_calls ++ [])).
  { unfold analyze_term_structure_body. eapply runs_bind_ok; [exact Hrun|].
    rewrite Hsize. apply runs_ret. }
  exact (runs_try_ok _ _ _ _ _ _ Hbody).
Qed.

(** An empty 15-minute reading between two good ones. *)
Lemma missing_reading_gives_no_candidate_witness :
  _analyze_term_structure (Example.strategy 0.5 0.3)
    (Example.with_readings
       (fun timeframe =>
          if bool_decide (timeframe = "15m") then Some ∅ else Example.reading 0.01)
       (Example.world Example.full_status 0.01 0.015 0.02 "medium" None))
    Example.tick Example.fresh
  = (Ok None, Example.fresh,
     [Call (calculate_realized_volatility_call "5m" (20, 60)%Z);
      Call (calculate_realized_volatility_call "15m" (20, 60)%Z);
      Call (calculate_realized_volatility_call "1h" (20, 60)%Z)]).
Proof.
  refine (missing_reading_gives_no_candidate _ _ _ _ _ _).
  - intros timeframe _. eexists. reflexivity.
  - exists "15m". split; [repeat constructor|]. right. exists ∅. split; reflexivity.
Defined.

(** *** What the slope says about the readings *)

Lemma slope_value (longer shorter x : Qc) :
  slope longer shorter = Ok x ->
  ((shorter <= 0)%Qc /\ x = 0%Qc)
  \/ ((0 < shorter)%Qc /\ x = ((longer - shorter) / shorter)%Qc).
Proof.
  intros H. destruct (Qclt_le_dec 0 shorter) as [Hpos|Hneg].
  - right. split; [exact Hpos|].
    rewrite (proj2 (slope_positive longer shorter Hpos)) in H. now inversion H.
  - left. split; [exact Hneg|]. rewrite (slope_nonpositive longer shorter Hneg) in H.
    now inversion H.
Qed.

Lemma slope_sign (longer shorter : Qc) :
  (0 < shorter)%Qc ->
  ((0 < (longer - shorter) / shorter)%Qc -> (shorter < longer)%Qc)
  /\ (((longer - shorter) / shorter < 0)%Qc -> (longer < shorter)%Qc)
  /\ ((0 <= longer)%Qc -> (- (1) <= (longer - shorter) / shorter)%Qc).
Proof.
  intros Hpos. split; [|split].
  - intros H. apply Qcnot_le_lt. intros Hle.
    apply (Qclt_not_le _ _ H). to_Q.
    apply Qle_shift_div_r; [exact Hpos|lra].
  - intros H. apply Qcnot_le_lt. intros Hle.
    apply (Qclt_not_le _ _ H). to_Q.
    apply Qle_shift_div_l; [exact Hpos|lra].
  - intros Hlong. to_Q. apply Qle_shift_div_l; [exact Hpos|lra].
Qed.

Lemma candidates_positive_short self w market_data s signal :
  (0 <= contango_threshold (config self))%Qc ->
  (0 <= backwardation_threshold (config self))%Qc ->
  result (_analyze_term_structure self w market_data) s = Ok (Some signal) ->
  exists vols_5m,
    available w "5m" vols_5m /\ (0 < default 0%Qc (vols_5m !! "20_period"))%Qc.
Proof.
  intros Hct Hbt H.
  destruct (analyze_some_inv _ _ _ _ _ H)
    as (v5 & v15 & v1 & overall_slope & strength & atr & t
        & A5 & _ & _ & Hslope & _ & Hcases).
  exists v5. split; [exact A5|].
  destruct (slope_value _ _ _ Hslope) as [[Hneg ->]|[Hpos _]]; [exfalso|exact Hpos].
  destruct Hcases as [(Hgt & _)|(_ & Hlt & _)].
  - apply gt_true in Hgt. exact (Qclt_not_le _ _ Hgt Hct).
  - apply lt_true in Hlt. apply (Qclt_not_le _ _ Hlt). to_Q. lra.
Qed.

(** With thresholds that are not negative the candidates follow the term
    structure: a SELL candidate is built only in contango (the 1-hour
    volatility is above the 5-minute one) and a BUY candidate only in
    backwardation (it is below), and in both cases the 5-minute volatility is
    strictly positive.  The slope of a 1-hour volatility that is not negative
    is at least -1, so a backwardation threshold of 1 or more never gives a
    BUY. *)
Theorem candidates_follow_term_structure (self : Strategy) (w : Collaborators)
    (market_data : MarketData) (s : StrategyState) (signal : Signal) :
  (0 <= contango_threshold (config self))%Qc ->
  (0 <= backwardation_threshold (config self))%Qc ->
  result (_analyze_term_structure self w market_data) s = Ok (Some signal) ->
  exists vols_5m vols_1h,
    available w "5m" vols_5m /\ available w "1h" vols_1h
    /\ (0 < default 0%Qc (vols_5m !! "20_period"))%Qc
    /\ (action signal = SELL ->
        (default 0%Qc (vols_5m !! "20_period") < default 0%Qc (vols_1h !! "20_period"))%Qc)
    /\ (action signal = BUY ->
        (default 0%Qc (vols_1h !! "20_period") < default 0%Qc (vols_5m !! "20_period"))%Qc
        /\ ((0 <= default 0%Qc (vols_1h !! "20_period"))%Qc ->
            (backwardation_threshold (config self) < 1)%Qc)).
Proof.
  intros Hct Hbt H.
  destruct (analyze_some_inv _ _ _ _ _ H)
    as (v5 & v15 & v1 & overall_slope & strength & atr & t
        & A5 & A15 & A1 & Hslope & Hatr & Hcases).
  exists v5, v1. split; [exact A5|]. split; [exact A1|].
  set (short := default 0%Qc (v5 !! "20_period")) in *.
  set (long := default 0%Qc (v1 !! "20_period")) in *.
  destruct (slope_value _ _ _ Hslope) as [[Hneg ->]|[Hpos ->]].
  - exfalso. destruct Hcases as [(Hgt & _)|(_ & Hlt & _)].
    + apply gt_true in Hgt. exact (Qclt_not_le _ _ Hgt Hct).
    + apply lt_true in Hlt. apply (Qclt_not_le _ _ Hlt). to_Q. lra.
  - split; [exact Hpos|].
    destruct (slope_sign long short Hpos) as (Hup & Hdown & Hfloor).
    destruct Hcases as [(Hgt & _ & ->)|(_ & Hlt & _ & ->)]; cbn [action contango_signal
      backwardation_signal].
    + apply gt_true in Hgt. split; [|discriminate]. intros _. apply Hup.
      exact (Qcle_lt_trans _ _ _ Hct Hgt).
    + apply lt_true in Hlt. split; [discriminate|]. intros _.
      assert (Hnegslope : ((long - short) / short < 0)%Qc).
      { eapply Qclt_le_trans; [exact Hlt|]. to_Q. lra. }
      split; [now apply Hdown|].
      intros Hlong. specialize (Hfloor Hlong).
      assert (Hb : (- (1) < - backwardation_threshold (config self))%Qc)
        by exact (Qcle_lt_trans _ _ _ Hfloor Hlt).
      to_Q. lra.
Qed.

(** The SELL candidate at readings 0.01 and 0.02: contango. *)
Lemma candidates_follow_term_structure_witness :
  exists vols_5m vols_1h,
    available (Example.world Example.full_status 0.01 0.015 0.02 "medium" None) "5m" vols_5m
    /\ available (Example.world Example.full_status 0.01 0.015 0.02 "medium" None) "1h" vols_1h
    /\ (default 0%Qc (vols_5m !! "20_period") < default 0%Qc (vols_1h !! "20_period"))%Qc.
Proof.
  destruct (candidates_follow_term_structure (Example.strategy 0.5 0.3)
              (Example.world Example.full_status 0.01 0.015 0.02 "medium" None)
              Example.tick Example.fresh
              (contango_signal (Example.strategy 0.5 0.3) Example.tick
                 (Py.float 1) (Py.float 0.9) (Py.float 1))
              ltac:(by_evaluation) ltac:(by_evaluation) ltac:(by_evaluation))
    as (v5 & v1 & A5 & A1 & _ & Hsell & _).
  exists v5, v1. split; [exact A5|]. split; [exact A1|]. exact (Hsell eq_refl).
Defined.

(** A 5-minute volatility that is zero, negative or missing (the reading has
    no "20_period" entry, which counts for 0.0) makes the overall slope 0,
    and then no candidate is built unless a threshold is negative. *)
Theorem no_short_volatility_no_candidate (self : Strategy) (w : Collaborators)
    (market_data : MarketData) (s : StrategyState) (vols_5m : gmap string Qc) :
  (0 <= contango_threshold (config self))%Qc ->
  (0 <= backwardation_threshold (config self))%Qc ->
  calculate_realized_volatility w "5m" (20, 60)%Z = Ok (Some vols_5m) ->
  (vols_5m !! "20_period" = None
   \/ exists short_vol, vols_5m !! "20_period" = Some short_vol /\ (short_vol <= 0)%Qc) ->
  result (_analyze_term_structure self w market_data) s = Ok None.
Proof.
  intros Hct Hbt H5 Hshort. apply analyze_none_unless_available. intros signal H.
  destruct (candidates_positive_short self w market_data s signal Hct Hbt H)
    as (v5 & [H5' _] & Hpos).
  rewrite H5 in H5'. inversion H5'; subst v5.
  apply (Qclt_not_le _ _ Hpos).
  destruct Hshort as [->|(short_vol & -> & Hle)]; [apply Qcle_refl|exact Hle].
Qed.

(** A 5-minute reading without a "20_period" entry. *)
Lemma no_short_volatility_no_candidate_witness :
  result (_analyze_term_structure (Example.strategy 0.5 0.3)
            (Example.with_readings
               (fun timeframe =>
                  if bool_decide (timeframe = "5m")
                  then Some {[ "60_period" := Py.float 0.01 ]}
                  else Example.reading 0.02)
               (Example.world Example.full_status 0.01 0.015 0.02 "medium" None))
            Example.tick) Example.fresh = Ok None.
Proof.
  refine (no_short_volatility_no_candidate (Example.strategy 0.5 0.3)
            (Example.with_readings
               (fun timeframe =>
                  if bool_decide (timeframe = "5m")
                  then Some {[ "60_period" := Py.float 0.01 ]}
                  else Example.reading 0.02)
               (Example.world Example.full_status 0.01 0.015 0.02 "medium" None))
            Example.tick Example.fresh {[ "60_period" := Py.float 0.01 ]}
            _ _ eq_refl _).
  - by_evaluation.
  - by_evaluation.
  - left. vm_compute. reflexivity.
Defined.

(** The ones of the evaluation that passes every gate. *)
Lemma risk_gate_only_after_validation_witness :
  exists signal,
    result (_analyze_term_structure (Example.strategy 0.5 0.3)
              (Example.world Example.full_status 0.01 0.015 0.02 "medium" None)
              Example.tick) Example.fresh = Ok (Some signal)
    /\ result (_validate_carry_opportunity (Example.strategy 0.5 0.3)
                 (Example.world Example.full_status 0.01 0.015 0.02 "medium" None)
                 signal Example.tick) Example.fresh = Ok true.
Proof.
  exact (proj1 (proj2 (proj2
           (risk_gate_only_after_validation (Example.strategy 0.5 0.3)
              (Example.world Example.full_status 0.01 0.015 0.02 "medium" None)
              Example.tick Example.fresh Example.tick ltac:(by_evaluation))))).
Defined.

(** A series of 25 points: the helper receives 20 of them. *)
Lemma atr_helper_sees_last_twenty_witness :
  exists earlier,
    price_15m Example.long_tick = earlier ++ replicate 20 (Py.float 100).
Proof.
  exact (proj1 (proj2 (proj2 (proj2
           (atr_helper_sees_last_twenty (Example.strategy 0.5 0.3)
              (Example.world Example.full_status 0.01 0.015 0.02 "medium" None)
              Example.long_tick Example.fresh (replicate 20 (Py.float 100))
              ltac:(by_evaluation)))))).
Defined.

(** *** The scale of the confidence *)

Lemma strength_range (x c : Qc) :
  (0 < c)%Qc -> (c < x)%Qc ->
  (1 < Py.min (x / c) (Py.float 2.0))%Qc
  /\ (Py.min (x / c) (Py.float 2.0) <= Py.float 2.0)%Qc
  /\ ((Py.float 2 * c <= x)%Qc -> Py.min (x / c) (Py.float 2.0) = Py.float 2.0)
  /\ ((x <= Py.float 2 * c)%Qc -> Py.min (x / c) (Py.float 2.0) = (x / c)%Qc).
Proof.
  intros Hc Hx. pose proof (div_gt_1 x c Hc Hx) as Hone.
  split; [|split; [apply min_le_r|split]].
  - unfold Py.min. destruct (Py.lt (Py.float 2.0) (x / c)); [by_evaluation|exact Hone].
  - intros Hbig. unfold Py.min. destruct (Py.lt (Py.float 2.0) (x / c)) eqn:E;
      [reflexivity|].
    apply lt_false in E. apply Qcle_antisym; [exact E|].
    to_Q. apply Qle_shift_div_l; [exact Hc|lra].
  - intros Hsmall. unfold Py.min. destruct (Py.lt (Py.float 2.0) (x / c)) eqn:E;
      [|reflexivity].
    exfalso. apply lt_true in E. apply (Qclt_not_le _ _ E).
    to_Q. apply Qle_shift_div_r; [exact Hc|lra].
Qed.

Lemma confidence_unclamped (strength : Qc) :
  (strength <= Py.float 2.0)%Qc ->
  signal_confidence strength = (Py.float 0.5 + strength * Py.float 0.2)%Qc.
Proof.
  intros H. unfold signal_confidence, Py.min.
  destruct (Py.lt (Py.float 0.9) (Py.float 0.5 + strength * Py.float 0.2)) eqn:E;
    [|reflexivity].
  exfalso. apply lt_true in E. apply (Qclt_not_le _ _ E). to_Q. lra.
Qed.

Lemma confidence_scale (x c : Qc) (strength : Qc) :
  (0 < c)%Qc -> (c < x)%Qc -> signal_strength x c = Ok strength ->
  (Py.float 0.7 < signal_confidence strength)%Qc
  /\ ((Py.float 2 * c <= x)%Qc -> signal_confidence strength = Py.float 0.9)
  /\ ((x <= Py.float 2 * c)%Qc ->
      signal_confidence strength = (Py.float 0.5 + x / c * Py.float 0.2)%Qc).
Proof.
  intros Hc Hx Hst. destruct (signal_strength_inv _ _ _ Hst) as [_ ->].
  destruct (strength_range x c Hc Hx) as (Hone & Htwo & Hbig & Hsmall).
  rewrite (confidence_unclamped _ Htwo). split; [|split].
  - clear Hst Htwo Hbig Hsmall. revert Hone.
    generalize (Py.min (x / c) (Py.float 2.0)). intros strength Hone. to_Q. lra.
  - intros H. rewrite (Hbig H). by_evaluation.
  - intros H. now rewrite (Hsmall H).
Qed.

(** With positive thresholds the confidence of a candidate is a linear
    function of the magnitude of the overall slope, measured in units of the
    threshold of its branch: [0.5 + 0.2 * abs(slope) / threshold] while the
    magnitude is at most twice the threshold, and 0.9 from there on.  It is
    therefore above 0.7 and at most 0.9, so a confidence floor of 0.7 or less
    does not reject any candidate. *)
Theorem candidate_confidence_scale (self : Strategy) (w : Collaborators)
    (market_data : MarketData) (s : StrategyState) (signal : Signal) :
  (0 < contango_threshold (config self))%Qc ->
  (0 < backwardation_threshold (config self))%Qc ->
  result (_analyze_term_structure self w market_data) s = Ok (Some signal) ->
  exists vols_5m vols_1h overall_slope threshold,
    available w "5m" vols_5m /\ available w "1h" vols_1h
    /\ slope (default 0%Qc (vols_1h !! "20_period"))
             (default 0%Qc (vols_5m !! "20_period")) = Ok overall_slope
    /\ ((action signal = SELL /\ threshold = contango_threshold (config self))
        \/ (action signal = BUY /\ threshold = backwardation_threshold (config self)))
    /\ (threshold < Py.abs overall_slope)%Qc
    /\ (Py.float 0.7 < confidence signal)%Qc
    /\ (confidence signal <= Py.float 0.9)%Qc
    /\ ((Py.float 2 * threshold <= Py.abs overall_slope)%Qc ->
        confidence signal = Py.float 0.9)
    /\ ((Py.abs overall_slope <= Py.float 2 * threshold)%Qc ->
        confidence signal
        = (Py.float 0.5 + Py.abs overall_slope / threshold * Py.float 0.2)%Qc)
    /\ (forall floor, (floor <= Py.float 0.7)%Qc ->
          Py.lt (confidence signal) floor = false).
Proof.
  intros Hct Hbt H.
  destruct (analyze_some_inv _ _ _ _ _ H)
    as (v5 & v15 & v1 & overall_slope & strength & atr & t
        & A5 & A15 & A1 & Hslope & Hatr & Hcases).
  assert (Hgoal : forall threshold,
             (0 < threshold)%Qc -> (threshold < Py.abs overall_slope)%Qc ->
             signal_strength (Py.abs overall_slope) threshold = Ok strength ->
             confidence signal = signal_confidence strength ->
             (threshold < Py.abs overall_slope)%Qc
             /\ (Py.float 0.7 < confidence signal)%Qc
             /\ (confidence signal <= Py.float 0.9)%Qc
             /\ ((Py.float 2 * threshold <= Py.abs overall_slope)%Qc ->
                 confidence signal = Py.float 0.9)
             /\ ((Py.abs overall_slope <= Py.float 2 * threshold)%Qc ->
                 confidence signal
                 = (Py.float 0.5 + Py.abs overall_slope / threshold * Py.float 0.2)%Qc)
             /\ (forall floor, (floor <= Py.float 0.7)%Qc ->
                   Py.lt (confidence signal) floor = false)).
  { intros threshold Hpos Habove Hst ->.
    destruct (confidence_scale _ _ _ Hpos Habove Hst) as (Hlow & Hbig & Hsmall).
    split; [exact Habove|]. split; [exact Hlow|].
    split; [apply signal_confidence_le|]. split; [exact Hbig|]. split; [exact Hsmall|].
    intros floor Hfloor. apply lt_false. apply Qclt_le_weak.
    exact (Qcle_lt_trans _ _ _ Hfloor Hlow). }
  exists v5, v1, overall_slope.
  destruct Hcases as [(Hgt & Hst & ->)|(Hgt & Hlt & Hst & ->)].
  - exists (contango_threshold (config self)).
    split; [exact A5|]. split; [exact A1|]. split; [exact Hslope|].
    split; [left; split; reflexivity|].
    apply gt_true in Hgt.
    assert (Habs : Py.abs overall_slope = overall_slope).
    { apply Qcabs_pos. apply Qclt_le_weak. exact (Qclt_trans _ _ _ Hct Hgt). }
    apply Hgoal; [exact Hct|now rewrite Habs|now rewrite Habs|reflexivity].
  - exists (backwardation_threshold (config self)).
    split; [exact A5|]. split; [exact A1|]. split; [exact Hslope|].
    split; [right; split; reflexivity|].
    apply lt_true in Hlt.
    apply Hgoal; [exact Hbt|now apply abs_above|exact Hst|reflexivity].
Qed.

(** The SELL candidate at readings 0.01 and 0.02, slope 1 and threshold 0.5:
    the confidence is 0.9. *)
Lemma candidate_confidence_scale_witness :
  (Py.float 0.7
   < confidence (contango_signal (Example.strategy 0.5 0.3) Example.tick
                   (Py.float 1) (Py.float 0.9) (Py.float 1)))%Qc.
Proof.
  destruct (candidate_confidence_scale (Example.strategy 0.5 0.3)
              (Example.world Example.full_status 0.01 0.015 0.02 "medium" None)
              Example.tick Example.fresh
              (contango_signal (Example.strategy 0.5 0.3) Example.tick
                 (Py.float 1) (Py.float 0.9) (Py.float 1))
              ltac:(by_evaluation) ltac:(by_evaluation) ltac:(by_evaluation))
    as (v5 & v1 & overall_slope & threshold & _ & _ & _ & _ & _ & Hlow & _).
  exact Hlow.
Defined.

(** *** A floor above the cap *)

(** The confidence of a candidate never exceeds 0.9, so a system-wide
    [min_confidence] or a [min_carry_confidence] above 0.9 silences the
    strategy: [generate_signal] returns none whatever the market and the
    collaborators are. *)
Theorem floor_above_cap_silences (self : Strategy) (w : Collaborators)
    (market_data : MarketData) (s : StrategyState) :
  (Py.float 0.9 < min_confidence (risk_management (system_config self)))%Qc
  \/ (Py.float 0.9 < min_carry_confidence (config self))%Qc ->
  result (generate_signal self w market_data) s = Ok None.
Proof.
  intros Hfloor.
  destruct (generate_signal_never_raises self w market_data s) as [[signal|] Hres];
    [exfalso|exact Hres].
  destruct (generate_signal_some_inv _ _ _ _ _ Hres)
    as (_ & _ & Hanalysis & Hvalid & _ & Hmin).
  assert (Hcap : (confidence signal <= Py.float 0.9)%Qc).
  { destruct (analyze_some_inv _ _ _ _ _ Hanalysis)
      as (v5 & v15 & v1 & overall_slope & strength & atr & t
          & _ & _ & _ & _ & _ & [(_ & _ & ->)|(_ & _ & _ & ->)]);
      apply signal_confidence_le. }
  destruct Hfloor as [Hsystem|Hcarry].
  - apply lt_false in Hmin.
    exact (Qclt_not_le _ _ Hsystem (Qcle_trans _ _ _ Hmin Hcap)).
  - rewrite validate_result in Hvalid.
    assert (Hlt : Py.lt (confidence signal) (min_carry_confidence (config self)) = true).
    { apply lt_true. exact (Qcle_lt_trans _ _ _ Hcap Hcarry). }
    rewrite Hlt in Hvalid.
    destruct (calculate_volatility_regime w "15m") as [vol_regime|e]; [|discriminate].
    destruct (bool_decide (vol_regime = "low") && bool_decide (action signal = 2%Z));
      [discriminate|].
    destruct (bool_decide (vol_regime = "high") && bool_decide (action signal = 1%Z));
      [discriminate|].
    destruct (calculate_volatility_breakout w "15m") as [breakout_info|e]; [|discriminate].
    destruct (strong_breakout breakout_info); discriminate.
Qed.

(** A system-wide minimum of 0.95 on the evaluation that otherwise passes
    every gate. *)
Lemma floor_above_cap_silences_witness :
  result (generate_signal
            {| name := "VolatilityCarry";
               config := Example.strategy_config 0.5 0.3;
               system_config :=
                 {| risk_management :=
                      {| stop_loss_atr_multiplier := Py.float 2;
                         min_confidence := Py.float 0.95 |} |} |}
            (Example.world Example.full_status 0.01 0.015 0.02 "medium" None)
            Example.tick) Example.fresh = Ok None.
Proof.
  refine (floor_above_cap_silences _ _ _ _ _). left. by_evaluation.
Defined.

(** *** The calls of an evaluation *)

Lemma calls_app (t1 t2 : list event) : calls (t1 ++ t2) = calls t1 ++ calls t2.
Proof. apply omap_app. Qed.

Lemma within_ret {A : Type} (L : list call) (a : A) : within L (ret a).
Proof. intros s. apply sublist_nil_l. Qed.

Lemma within_lift {A : Type} (L : list call) (r : res A) : within L (lift r).
Proof. intros s. apply sublist_nil_l. Qed.

Lemma within_log (L : list call) (l : level) (m : message) : within L (log l m).
Proof. intros s. apply sublist_nil_l. Qed.

Lemma within_invoke {A : Type} (L : list call) (c : call) (r : res A) :
  within (c :: L) (invoke c r).
Proof. intros s. apply sublist_skip, sublist_nil_l. Qed.

Lemma within_bind {A B : Type} (L1 L2 : list call) (m : M A) (k : A -> M B) :
  within L1 m -> (forall a, within L2 (k a)) -> within (L1 ++ L2) (bind m k).
Proof.
  intros Hm Hk s. specialize (Hm s). unfold trace, bind in *.
  destruct (m s) as [[[a|e] s1] t1]; cbn in *.
  - specialize (Hk a s1). unfold trace in Hk.
    destruct (k a s1) as [[r s2] t2]. cbn in *. rewrite calls_app.
    now apply sublist_app.
  - now apply sublist_inserts_r.
Qed.

Lemma within_try_except {A : Type} (L1 L2 : list call) (m : M A) (h : exn -> M A) :
  within L1 m -> (forall e, within L2 (h e)) -> within (L1 ++ L2) (try_except m h).
Proof.
  intros Hm Hh s. specialize (Hm s). unfold trace, try_except in *.
  destruct (m s) as [[[a|e] s1] t1]; cbn in *.
  - now apply sublist_inserts_r.
  - destruct (is_Exception e); [|now apply sublist_inserts_r].
    specialize (Hh e s1). unfold trace in Hh.
    destruct (h e s1) as [[r s2] t2]. cbn in *. rewrite calls_app.
    now apply sublist_app.
Qed.

(** A step that makes no call, then the rest. *)
Lemma within_silent_step {A B : Type} (L : list call) (m : M A) (k : A -> M B) :
  within [] m -> (forall a, within L (k a)) -> within L (bind m k).
Proof. intros Hm Hk. exact (within_bind [] L m k Hm Hk). Qed.

(** A call, then the rest. *)
Lemma within_call_step {A B : Type} (L : list call) (c : call) (r : res A)
    (k : A -> M B) :
  (forall a, within L (k a)) -> within (c :: L) (bind (invoke c r) k).
Proof. intros Hk. exact (within_bind [c] L _ k (within_invoke [] c r) Hk). Qed.

(** A handler that only logs. *)
Lemma within_guarded {A : Type} (L : list call) (m : M A) (h : exn -> M A) :
  within L m -> (forall e, within [] (h e)) -> within L (try_except m h).
Proof.
  intros Hm Hh. rewrite <- (app_nil_r L). now apply within_try_except.
Qed.

Lemma within_skip {A : Type} (c : call) (L : list call) (m : M A) :
  within L m -> within (c :: L) m.
Proof. intros H s. apply sublist_cons, H. Qed.

(** Walks a method whose calls are listed in the goal. *)
Ltac within :=
  repeat first
    [ apply within_ret
    | apply within_lift
    | apply within_log
    | apply within_invoke
    | apply within_call_step
    | apply within_guarded
    | apply within_silent_step
    | match goal with |- forall _, _ => intro end
    | match goal with
      | |- within _ (if ?b then _ else _) => destruct b
      | |- within _ (match ?x with Some _ => _ | None => _ end) => destruct x
      end ].

Lemma within_collect_vol_structure w tfs vs :
  within (map (fun timeframe => calculate_realized_volatility_call timeframe (20, 60)%Z) tfs)
         (collect_vol_structure w tfs vs).
Proof.
  revert vs. induction tfs as [|tf tfs IH]; intros vs; cbn [collect_vol_structure map].
  - apply within_ret.
  - apply within_call_step. intros [vols|]; [destruct (Py.nonempty vols)|]; apply IH.
Qed.

Lemma within_atr_of w market_data :
  within [calculate_atr_simple_call (Py.last_n 20 (price_15m market_data))]
         (atr_of w market_data).
Proof. unfold atr_of. within. Qed.

Lemma within_carry_signal_logic self w market_data overall_slope :
  within [calculate_atr_simple_call (Py.last_n 20 (price_15m market_data))]
         (carry_signal_logic self w market_data overall_slope).
Proof.
  unfold carry_signal_logic.
  destruct (Py.gt overall_slope (contango_threshold (config self)));
    [|destruct (Py.lt overall_slope (- backwardation_threshold (config self))%Qc)];
    [| |apply within_ret];
    (apply within_silent_step; [apply within_lift|]; intros strength;
     rewrite <- (app_nil_r [_]); apply within_bind;
     [apply within_atr_of|intros atr; apply within_ret]).
Qed.

Lemma within_analyze_term_structure self w market_data :
  within [calculate_realized_volatility_call "5m" (20, 60)%Z;
          calculate_realized_volatility_call "15m" (20, 60)%Z;
          calculate_realized_volatility_call "1h" (20, 60)%Z;
          calculate_atr_simple_call (Py.last_n 20 (price_15m market_data))]
         (_analyze_term_structure self w market_data).
Proof.
  unfold _analyze_term_structure, analyze_term_structure_body.
  apply within_guarded; [|within].
  apply (within_bind
           (map (fun timeframe => calculate_realized_volatility_call timeframe (20, 60)%Z)
              timeframes)
           [calculate_atr_simple_call (Py.last_n 20 (price_15m market_data))]);
    [apply within_collect_vol_structure|].
  intros vs. destruct (size vs <? 3)%nat; [apply within_ret|].
  do 6 (apply within_silent_step; [apply within_lift|]; intro).
  rewrite <- (app_nil_r [_]). apply within_bind;
    [apply within_carry_signal_logic|within].
Qed.

Lemma within_validate_carry_opportunity self w signal market_data :
  within [calculate_volatility_regime_call "15m"; calculate_volatility_breakout_call "15m"]
         (_validate_carry_opportunity self w signal market_data).
Proof. unfold _validate_carry_opportunity. within. Qed.

Lemma within_generate_signal self w market_data :
  within (evaluation_calls market_data) (generate_signal self w market_data).
Proof.
  unfold generate_signal, _has_sufficient_data, evaluation_calls.
  apply within_guarded; [|within].
  apply within_call_step. intros _.
  apply (within_bind [get_status_call]); [within|].
  intros sufficient. destruct (negb sufficient); [within|].
  apply (within_bind
           [calculate_realized_volatility_call "5m" (20, 60)%Z;
            calculate_realized_volatility_call "15m" (20, 60)%Z;
            calculate_realized_volatility_call "1h" (20, 60)%Z;
            calculate_atr_simple_call (Py.last_n 20 (price_15m market_data))]);
    [apply within_analyze_term_structure|].
  intros [primary_signal|]; [|within].
  apply (within_bind
           [calculate_volatility_regime_call "15m";
            calculate_volatility_breakout_call "15m"]);
    [apply within_validate_carry_opportunity|].
  intros valid. destruct (negb valid); within.
Qed.

Lemma evaluation_calls_NoDup market_data : NoDup (evaluation_calls market_data).
Proof.
  unfold evaluation_calls.
  repeat (apply NoDup_cons_2;
          [rewrite ?elem_of_cons, elem_of_nil; intuition discriminate|]).
  apply NoDup_nil_2.
Qed.

(** One evaluation asks the collaborators in a fixed order and never twice:
    the price-history update, the history status, the realized volatility of
    5m, 15m and 1h, the ATR helper on the last 20 points of the 15-minute
    series, the regime and the breakout report of 15m, and the risk gate.
    The calls it makes are some of these nine, in this order.  The status
    reporter makes one call, for the volatility metrics. *)
Theorem collaborators_called_in_order (self : Strategy) (w : Collaborators)
    (market_data : MarketData) (s : StrategyState) :
  calls (trace (generate_signal self w market_data) s)
    `sublist_of` evaluation_calls market_data
  /\ NoDup (calls (trace (generate_signal self w market_data) s))
  /\ (length (calls (trace (generate_signal self w market_data) s)) <= 9)%nat
  /\ calls (trace (get_strategy_status self w) s) = [calculate_volatility_metrics_call].
Proof.
  pose proof (within_generate_signal self w market_data s) as H.
  split; [exact H|]. split; [|split].
  - exact (sublist_NoDup _ _ (evaluation_calls_NoDup market_data) H).
  - exact (sublist_length _ _ H).
  - unfold trace, get_strategy_status, get_state. seq.
    destruct (calculate_volatility_metrics w) as [vol_metrics|e]; [reflexivity|].
    now destruct (is_Exception e).
Qed.

(** *** The run of the validator *)

Lemma regime_rejects_spec (vol_regime : string) (signal : Signal) :
  regime_rejects vol_regime signal = true
  <-> (vol_regime = "low" /\ action signal = SELL)
      \/ (vol_regime = "high" /\ action signal = BUY).
Proof.
  unfold regime_rejects, SELL, BUY.
  rewrite orb_true_iff, !andb_true_iff, !bool_decide_eq_true. reflexivity.
Qed.

Lemma validate_run self w signal market_data s :
  _validate_carry_opportunity self w signal market_data s =
  match calculate_volatility_regime w "15m" with
  | Raise e =>
      (Ok false, s,
       [Call (calculate_volatility_regime_call "15m"); Log ERROR (ErrorValidating e)])
  | Ok vol_regime =>
      if regime_rejects vol_regime signal
      then (Ok false, s, [Call (calculate_volatility_regime_call "15m")])
      else
        match calculate_volatility_breakout w "15m" with
        | Raise e =>
            (Ok false, s,
             [Call (calculate_volatility_regime_call "15m");
              Call (calculate_volatility_breakout_call "15m");
              Log ERROR (ErrorValidating e)])
        | Ok breakout_info =>
            (Ok (negb (strong_breakout breakout_info)
                 && negb (Py.lt (confidence signal) (min_carry_confidence (config self)))),
             s,
             [Call (calculate_volatility_regime_call "15m");
              Call (calculate_volatility_breakout_call "15m")])
        end
  end.
Proof.
  unfold _validate_carry_opportunity, regime_rejects. seq.
  destruct (calculate_volatility_regime w "15m") as [vol_regime|e] eqn:Hregime;
    [|caught; reflexivity].
  destruct (bool_decide (vol_regime = "low") && bool_decide (action signal = 2%Z));
    [reflexivity|].
  destruct (bool_decide (vol_regime = "high") && bool_decide (action signal = 1%Z));
    [reflexivity|].
  cbn [orb].
  destruct (calculate_volatility_breakout w "15m") as [breakout_info|e] eqn:Hbreakout;
    [|caught; reflexivity].
  destruct (strong_breakout breakout_info); [reflexivity|].
  now destruct (Py.lt (confidence signal) (min_carry_confidence (config self))).
Qed.

Lemma validate_log_inv self w signal market_data s l m :
  Log l m ∈ trace (_validate_carry_opportunity self w signal market_data) s ->
  l = ERROR
  /\ exists e, m = ErrorValidating e
               /\ (calculate_volatility_regime w "15m" = Raise e
                   \/ calculate_volatility_breakout w "15m" = Raise e).
Proof.
  unfold trace. rewrite validate_run.
  destruct (calculate_volatility_regime w "15m") as [vol_regime|e];
    [destruct (regime_rejects vol_regime signal);
     [|destruct (calculate_volatility_breakout w "15m") as [breakout_info|e]]|];
    cbn [snd]; rewrite ?elem_of_cons, elem_of_nil; intros H;
    repeat match type of H with _ \/ _ => destruct H as [H|H] end;
    try discriminate; try contradiction;
    inversion H; subst; eauto.
Qed.

(** The validator stops at the first filter that rejects.  When the regime
    filter rejects (a SELL in a "low" regime, a BUY in a "high" one) the
    breakout report is not requested: the regime request is the only event of
    the run.  The breakout report is requested only for the 15-minute
    timeframe and only after a regime that does not reject.  A rejection is
    silent: the validator writes a record only for an exception of one of its
    two collaborators, at ERROR and naming that exception, and it then
    returns false. *)
Theorem validator_short_circuits (self : Strategy) (w : Collaborators)
    (signal : Signal) (market_data : MarketData) (s : StrategyState) :
  (forall vol_regime,
      calculate_volatility_regime w "15m" = Ok vol_regime ->
      (vol_regime = "low" /\ action signal = SELL)
      \/ (vol_regime = "high" /\ action signal = BUY) ->
      _validate_carry_opportunity self w signal market_data s
      = (Ok false, s, [Call (calculate_volatility_regime_call "15m")]))
  /\ (forall timeframe,
        Call (calculate_volatility_breakout_call timeframe)
          ∈ trace (_validate_carry_opportunity self w signal market_data) s ->
        timeframe = "15m"
        /\ exists vol_regime,
             calculate_volatility_regime w "15m" = Ok vol_regime
             /\ ~ (vol_regime = "low" /\ action signal = SELL)
             /\ ~ (vol_regime = "high" /\ action signal = BUY))
  /\ (forall l m,
        Log l m ∈ trace (_validate_carry_opportunity self w signal market_data) s ->
        l = ERROR
        /\ result (_validate_carry_opportunity self w signal market_data) s = Ok false
        /\ exists e, m = ErrorValidating e
                     /\ (calculate_volatility_regime w "15m" = Raise e
                         \/ calculate_volatility_breakout w "15m" = Raise e)).
Proof.
  split; [|split].
  - intros vol_regime Hregime Hrejects. rewrite validate_run, Hregime.
    now rewrite (proj2 (regime_rejects_spec vol_regime signal) Hrejects).
  - intros timeframe. unfold trace. rewrite validate_run.
    destruct (calculate_volatility_regime w "15m") as [vol_regime|e];
      [destruct (regime_rejects vol_regime signal) eqn:Hrejects;
       [|destruct (calculate_volatility_breakout w "15m") as [breakout_info|e]]|];
      cbn [snd]; rewrite ?elem_of_cons, elem_of_nil; intros H;
      repeat match type of H with _ \/ _ => destruct H as [H|H] end;
      try discriminate; try contradiction;
      inversion H; subst; (split; [reflexivity|]); exists vol_regime;
      (split; [reflexivity|]);
      split; intros Hcase;
      (assert (Htrue : regime_rejects vol_regime signal = true)
         by (apply regime_rejects_spec; auto));
      congruence.
  - intros l m Hin.
    destruct (validate_log_inv _ _ _ _ _ _ _ Hin) as (Hl & e & Hm & Hraise).
    split; [exact Hl|]. split; [|eauto].
    apply validate_collaborator_raises. destruct Hraise; eauto.
Qed.

(** *** What an ERROR record tells *)

Lemma collect_raise_inv w tfs vs s e s' t :
  runs (collect_vol_structure w tfs vs) s (Raise e) s' t ->
  exists timeframe,
    timeframe ∈ tfs /\ calculate_realized_volatility w timeframe (20, 60)%Z = Raise e.
Proof.
  revert vs t. induction tfs as [|tf tfs IH]; intros vs t; cbn [collect_vol_structure].
  - discriminate.
  - unfold runs. seq.
    destruct (calculate_realized_volatility w tf (20, 60)%Z) as [answer|e'] eqn:Hanswer.
    + seq. intros H.
      assert (Hrest : exists vs' t', runs (collect_vol_structure w tfs vs') s (Raise e) s' t').
      { destruct answer as [vols|]; [destruct (Py.nonempty vols)|];
          match type of H with
          | context [collect_vol_structure ?o tfs ?v s] =>
              destruct (collect_vol_structure o tfs v s) as [[[a|e0] s1] t1] eqn:Hrun;
              [discriminate|]; exists v, t1; unfold runs; rewrite Hrun;
              inversion H; reflexivity
          end. }
      destruct Hrest as (vs' & t' & Hrun).
      destruct (IH _ _ Hrun) as (timeframe & Hin & Hraise).
      exists timeframe. split; [now apply list_elem_of_further|exact Hraise].
    + seq. intros H. inversion H; subst. exists tf. split; [apply list_elem_of_here|exact Hanswer].
Qed.

Lemma logic_raise_inv self w market_data overall_slope s e s' t :
  runs (carry_signal_logic self w market_data overall_slope) s (Raise e) s' t ->
  ((20 <= length (price_15m market_data))%nat
   /\ calculate_atr_simple w (Py.last_n 20 (price_15m market_data)) = Raise e)
  \/ (e = ZeroDivisionError
      /\ (contango_threshold (config self) = 0%Qc
          \/ backwardation_threshold (config self) = 0%Qc)).
Proof.
  assert (Hstrength : forall x threshold,
             signal_strength x threshold = Raise e ->
             e = ZeroDivisionError /\ threshold = 0%Qc).
  { intros x threshold. unfold signal_strength, Py.truediv.
    case_bool_decide as Hz; [|discriminate]. intros H. inversion H. auto. }
  assert (Hatr : forall s1 t1,
             atr_of w market_data s = (Raise e, s1, t1) ->
             (20 <= length (price_15m market_data))%nat
             /\ calculate_atr_simple w (Py.last_n 20 (price_15m market_data)) = Raise e).
  { intros s1 t1. unfold atr_of.
    destruct (Nat.leb_spec 20 (length (price_15m market_data))) as [Hlen|Hlen];
      seq; [|discriminate].
    intros H. inversion H. auto. }
  unfold runs, carry_signal_logic.
  destruct (Py.gt overall_slope (contango_threshold (config self)));
    [|destruct (Py.lt overall_slope (- backwardation_threshold (config self))%Qc)].
  - destruct (signal_strength overall_slope (contango_threshold (config self)))
      as [strength|e'] eqn:Hst; seq.
    + destruct (atr_of w market_data s) as [[[atr|e'] s1] t1] eqn:Hrun; seq;
        intros H; inversion H; subst. left. eauto.
    + intros H. inversion H; subst. right.
      destruct (Hstrength _ _ Hst). auto.
  - destruct (signal_strength (Py.abs overall_slope)
                (backwardation_threshold (config self))) as [strength|e'] eqn:Hst; seq.
    + destruct (atr_of w market_data s) as [[[atr|e'] s1] t1] eqn:Hrun; seq;
        intros H; inversion H; subst. left. eauto.
    + intros H. inversion H; subst. right.
      destruct (Hstrength _ _ Hst). auto.
  - seq. discriminate.
Qed.

Lemma logic_emits_calls self w market_data overall_slope :
  emits (fun ev => exists c, ev = Call c)
        (carry_signal_logic self w market_data overall_slope).
Proof. unfold carry_signal_logic, atr_of. emits; eauto. Qed.

Lemma collect_emits_calls w tfs vs :
  emits (fun ev => exists c, ev = Call c) (collect_vol_structure w tfs vs).
Proof. apply collect_emits. intros timeframe. eexists. reflexivity. Qed.

Lemma analyze_error_inv self w market_data s m :
  Log ERROR m ∈ trace (_analyze_term_structure self w market_data) s ->
  exists e,
    m = ErrorInTermStructure e
    /\ ((exists timeframe,
           timeframe ∈ ["5m"; "15m"; "1h"]
           /\ calculate_realized_volatility w timeframe (20, 60)%Z = Raise e)
        \/ ((20 <= length (price_15m market_data))%nat
            /\ calculate_atr_simple w (Py.last_n 20 (price_15m market_data)) = Raise e)
        \/ (e = ZeroDivisionError
            /\ (contango_threshold (config self) = 0%Qc
                \/ backwardation_threshold (config self) = 0%Qc))).
Proof.
  intros Hin.
  assert (Hcalls : forall t : list event,
             Forall (fun ev => exists c, ev = Call c) t -> Log ERROR m ∉ t).
  { intros t Hall Hel. rewrite list.Forall_forall in Hall.
    destruct (Hall _ Hel) as [c Hc]. discriminate. }
  destruct (collect_cases w s) as [(v5 & v15 & v1 & A5 & A15 & A1)
                                  |[(vs & t & Hrun & Hsize)|(e & t & Hrun)]].
  - destruct (slope_never_raises (default 0%Qc (v1 !! "20_period"))
                (default 0%Qc (v5 !! "20_period"))) as [overall_slope Hslope].
    pose proof (runs_observed (carry_signal_logic self w market_data overall_slope) s)
      as Hlogic.
    rewrite (preserves_carry_signal_logic self w market_data overall_slope s) in Hlogic.
    pose proof (body_available self w market_data s _ _ _ _ _ _ A5 A15 A1 Hslope Hlogic)
      as Hbody.
    pose proof (logic_emits_calls self w market_data overall_slope s) as Hquiet.
    unfold _analyze_term_structure in Hin.
    destruct (result (carry_signal_logic self w market_data overall_slope) s)
      as [locals|e] eqn:Hres.
    + exfalso.
      rewrite (runs_trace _ _ _ _ _ (runs_try_ok _ _ _ _ _ _ Hbody)) in Hin.
      unfold reading_calls, analysis_log in Hin.
      rewrite !elem_of_app in Hin. destruct Hin as [Hin|[Hin|Hin]].
      * rewrite !elem_of_cons, elem_of_nil in Hin. intuition discriminate.
      * exact (Hcalls _ Hquiet Hin).
      * rewrite !elem_of_cons, elem_of_nil in Hin. intuition discriminate.
    + rewrite (runs_trace _ _ _ _ _
                 (runs_try_raise _ _ _ _ _ _ _ _ _ Hbody
                (body_raises_Exception _ _ _ _ _ _ _ Hbody) (runs_log_ret _ _ _ _))) in Hin.
      unfold reading_calls in Hin.
      rewrite !elem_of_app in Hin. destruct Hin as [[Hin|[Hin|Hin]]|Hin].
      * rewrite !elem_of_cons, elem_of_nil in Hin. intuition discriminate.
      * exfalso. exact (Hcalls _ Hquiet Hin).
      * now apply elem_of_nil in Hin.
      * apply list_elem_of_singleton in Hin. inversion Hin; subst.
        exists e. split; [reflexivity|]. right.
        exact (logic_raise_inv _ _ _ _ _ _ _ _ Hlogic).
  - exfalso.
    assert (Hbody : runs (analyze_term_structure_body self w market_data) s (Ok None) s (t ++ [])).
    { unfold analyze_term_structure_body. eapply runs_bind_ok; [exact Hrun|].
      rewrite Hsize. apply runs_ret. }
    unfold _analyze_term_structure in Hin.
    rewrite (runs_trace _ _ _ _ _ (runs_try_ok _ _ _ _ _ _ Hbody)), app_nil_r in Hin.
    pose proof (collect_emits_calls w timeframes ∅ s) as Hquiet.
    rewrite (runs_trace _ _ _ _ _ Hrun) in Hquiet. exact (Hcalls _ Hquiet Hin).
  - assert (Hbody : runs (analyze_term_structure_body self w market_data) s (Raise e) s t).
    { unfold analyze_term_structure_body. eapply runs_bind_raise. exact Hrun. }
    unfold _analyze_term_structure in Hin.
    rewrite (runs_trace _ _ _ _ _
               (runs_try_raise _ _ _ _ _ _ _ _ _ Hbody
                (body_raises_Exception _ _ _ _ _ _ _ Hbody) (runs_log_ret _ _ _ _))) in Hin.
    apply elem_of_app in Hin. destruct Hin as [Hin|Hin].
    + exfalso.
      pose proof (collect_emits_calls w timeframes ∅ s) as Hquiet.
      rewrite (runs_trace _ _ _ _ _ Hrun) in Hquiet. exact (Hcalls _ Hquiet Hin).
    + apply list_elem_of_singleton in Hin. inversion Hin; subst.
      exists e. split; [reflexivity|]. left. exact (collect_raise_inv _ _ _ _ _ _ _ Hrun).
Qed.

(** Every ERROR record of an evaluation names a fault: the exception a
    collaborator raised, or the division by a threshold that is zero.  The
    record of [generate_signal] is for the price-history update, the status
    request or the risk gate; the one of the analysis for a realized
    volatility, the ATR helper on a series of at least 20 points or a zero
    threshold; the one of the validation for the regime or the breakout
    report.  When no collaborator raises and no threshold is zero, an
    evaluation therefore logs at INFO only. *)
Theorem error_record_names_the_fault (self : Strategy) (w : Collaborators)
    (market_data : MarketData) (s : StrategyState) (m : message) :
  Log ERROR m ∈ trace (generate_signal self w market_data) s ->
  exists e,
    (m = ErrorGeneratingSignal e
     /\ (update_price_history w market_data = Raise e
         \/ get_status w = Raise e
         \/ should_trade w market_data = Raise e))
    \/ (m = ErrorInTermStructure e
        /\ ((exists timeframe,
               timeframe ∈ ["5m"; "15m"; "1h"]
               /\ calculate_realized_volatility w timeframe (20, 60)%Z = Raise e)
            \/ ((20 <= length (price_15m market_data))%nat
                /\ calculate_atr_simple w (Py.last_n 20 (price_15m market_data)) = Raise e)
            \/ (e = ZeroDivisionError
                /\ (contango_threshold (config self) = 0%Qc
                    \/ backwardation_threshold (config self) = 0%Qc))))
    \/ (m = ErrorValidating e
        /\ (calculate_volatility_regime w "15m" = Raise e
            \/ calculate_volatility_breakout w "15m" = Raise e)).
Proof.
  destruct (generate_signal_path self w market_data s) as (outcome & t & Hrun & Hpath).
  rewrite (runs_trace _ _ _ _ _ Hrun).
  assert (Hta : forall r ta,
             runs (_analyze_term_structure self w market_data) s r s ta ->
             Log ERROR m ∈ ta ->
             exists e,
               m = ErrorInTermStructure e
               /\ ((exists timeframe,
                      timeframe ∈ ["5m"; "15m"; "1h"]
                      /\ calculate_realized_volatility w timeframe (20, 60)%Z = Raise e)
                   \/ ((20 <= length (price_15m market_data))%nat
                       /\ calculate_atr_simple w (Py.last_n 20 (price_15m market_data))
                          = Raise e)
                   \/ (e = ZeroDivisionError
                       /\ (contango_threshold (config self) = 0%Qc
                           \/ backwardation_threshold (config self) = 0%Qc)))).
  { intros r ta Ha Hin. apply (analyze_error_inv self w market_data s).
    now rewrite (runs_trace _ _ _ _ _ Ha). }
  assert (Htv : forall signal r tv,
             runs (_validate_carry_opportunity self w signal market_data) s r s tv ->
             Log ERROR m ∈ tv ->
             exists e, m = ErrorValidating e
                       /\ (calculate_volatility_regime w "15m" = Raise e
                           \/ calculate_volatility_breakout w "15m" = Raise e)).
  { intros signal r tv Hv Hin.
    apply (validate_log_inv self w signal market_data s ERROR).
    now rewrite (runs_trace _ _ _ _ _ Hv). }
  destruct Hpath; intros Hin;
    repeat (rewrite ?elem_of_app, ?elem_of_cons, ?elem_of_nil in Hin);
    repeat match type of Hin with
      | _ \/ _ => destruct Hin as [Hin|Hin]
      end;
    try discriminate; try contradiction;
    try (inversion Hin; subst; eexists; left; split; [reflexivity|]; auto; fail);
    try match goal with
      | Ha : runs (_analyze_term_structure _ _ _) _ _ _ ?ta, Hin : _ ∈ ?ta |- _ =>
          destruct (Hta _ _ Ha Hin) as (e' & Hm & Hcause);
          exists e'; right; left; split; assumption
      | Hv : runs (_validate_carry_opportunity _ _ _ _) _ _ _ ?tv, Hin : _ ∈ ?tv |- _ =>
          destruct (Htv _ _ _ Hv Hin) as (e' & Hm & Hcause);
          exists e'; right; right; split; assumption
      end.
Qed.

(** A contango threshold of zero: the analysis logs the division fault, and
    the record leads back to the threshold. *)
Lemma error_record_names_the_fault_witness :
  contango_threshold (config (Example.strategy 0 0.3)) = 0%Qc
  \/ backwardation_threshold (config (Example.strategy 0 0.3)) = 0%Qc.
Proof.
  destruct (error_record_names_the_fault (Example.strategy 0 0.3)
              (Example.world Example.full_status 0.01 0.015 0.02 "medium" None)
              Example.tick Example.fresh (ErrorInTermStructure ZeroDivisionError)
              ltac:(by_evaluation))
    as [e [[Hm _]|[[_ Hfault]|[Hm _]]]]; [discriminate Hm| |discriminate Hm].
  destruct Hfault as [(timeframe & _ & Hraise)|[[Hlen _]|[_ Hzero]]].
  - discriminate Hraise.
  - cbn in Hlen. lia.
  - exact Hzero.
Defined.

(** *** The records of the analysis *)

(** The six records of lines 158-163 are written only at the end of an
    analysis that had its three readings and met no fault.  They then close
    the run, after nothing but collaborator calls, and they tell what the
    analysis returns: the volatilities are the "20_period" entries of the
    readings (0.0 for a missing one), the slope is the overall slope and the
    action is the one of the candidate returned, or none when the analysis
    returns none. *)
Theorem analysis_log_reports_the_result (self : Strategy) (w : Collaborators)
    (market_data : MarketData) (s : StrategyState) (l : level) (a : option Z) :
  Log l (SignalAction a) ∈ trace (_analyze_term_structure self w market_data) s ->
  exists vols_5m vols_15m vols_1h overall_slope candidate earlier,
    available w "5m" vols_5m /\ available w "15m" vols_15m /\ available w "1h" vols_1h
    /\ slope (default 0%Qc (vols_1h !! "20_period"))
             (default 0%Qc (vols_5m !! "20_period")) = Ok overall_slope
    /\ result (_analyze_term_structure self w market_data) s = Ok candidate
    /\ l = INFO
    /\ a = action <$> candidate
    /\ trace (_analyze_term_structure self w market_data) s
       = earlier
         ++ analysis_log (default 0%Qc (vols_5m !! "20_period"))
              (default 0%Qc (vols_15m !! "20_period"))
              (default 0%Qc (vols_1h !! "20_period")) overall_slope candidate
    /\ Forall (fun ev => exists c, ev = Call c) earlier.
Proof.
  intros Hin.
  assert (Hcalls : forall t : list event,
             Forall (fun ev => exists c, ev = Call c) t -> Log l (SignalAction a) ∉ t).
  { intros t Hall Hel. rewrite list.Forall_forall in Hall.
    destruct (Hall _ Hel) as [c Hc]. discriminate. }
  assert (Hreadings : Forall (fun ev => exists c, ev = Call c) reading_calls).
  { repeat constructor; eexists; reflexivity. }
  destruct (collect_cases w s) as [(v5 & v15 & v1 & A5 & A15 & A1)
                                  |[(vs & t & Hrun & Hsize)|(e & t & Hrun)]].
  - destruct (slope_never_raises (default 0%Qc (v1 !! "20_period"))
                (default 0%Qc (v5 !! "20_period"))) as [overall_slope Hslope].
    pose proof (runs_observed (carry_signal_logic self w market_data overall_slope) s)
      as Hlogic.
    rewrite (preserves_carry_signal_logic self w market_data overall_slope s) in Hlogic.
    pose proof (body_available self w market_data s _ _ _ _ _ _ A5 A15 A1 Hslope Hlogic)
      as Hbody.
    pose proof (logic_emits_calls self w market_data overall_slope s) as Hquiet.
    unfold _analyze_term_structure in *.
    destruct (result (carry_signal_logic self w market_data overall_slope) s)
      as [locals|e] eqn:Hres.
    + pose proof (runs_try_ok _ (fun e => log ERROR (ErrorInTermStructure e);; ret None)
                    _ _ _ _ Hbody) as Htry.
      rewrite (runs_trace _ _ _ _ _ Htry) in Hin.
      rewrite (runs_trace _ _ _ _ _ Htry), (runs_result _ _ _ _ _ Htry).
      exists v5, v15, v1, overall_slope, locals.1,
        (reading_calls ++ trace (carry_signal_logic self w market_data overall_slope) s).
      repeat (split; [assumption|]). split; [reflexivity|].
      rewrite !elem_of_app in Hin. destruct Hin as [Hin|[Hin|Hin]].
      * exfalso. exact (Hcalls _ Hreadings Hin).
      * exfalso. exact (Hcalls _ Hquiet Hin).
      * unfold analysis_log in Hin. rewrite !elem_of_cons, elem_of_nil in Hin.
        repeat match type of Hin with _ \/ _ => destruct Hin as [Hin|Hin] end;
          try discriminate; try contradiction.
        inversion Hin; subst. split; [reflexivity|]. split; [reflexivity|].
        split; [now rewrite <- app_assoc|]. apply Forall_app. now split.
    + exfalso.
      rewrite (runs_trace _ _ _ _ _
                 (runs_try_raise _ _ _ _ _ _ _ _ _ Hbody
                (body_raises_Exception _ _ _ _ _ _ _ Hbody) (runs_log_ret _ _ _ _))) in Hin.
      rewrite !elem_of_app in Hin. destruct Hin as [[Hin|[Hin|Hin]]|Hin].
      * exact (Hcalls _ Hreadings Hin).
      * exact (Hcalls _ Hquiet Hin).
      * now apply elem_of_nil in Hin.
      * apply list_elem_of_singleton in Hin. discriminate.
  - exfalso.
    assert (Hbody : runs (analyze_term_structure_body self w market_data) s (Ok None) s (t ++ [])).
    { unfold analyze_term_structure_body. eapply runs_bind_ok; [exact Hrun|].
      rewrite Hsize. apply runs_ret. }
    unfold _analyze_term_structure in Hin.
    rewrite (runs_trace _ _ _ _ _ (runs_try_ok _ _ _ _ _ _ Hbody)), app_nil_r in Hin.
    pose proof (collect_emits_calls w timeframes ∅ s) as Hquiet.
    rewrite (runs_trace _ _ _ _ _ Hrun) in Hquiet. exact (Hcalls _ Hquiet Hin).
  - exfalso.
    assert (Hbody : runs (analyze_term_structure_body self w market_data) s (Raise e) s t).
    { unfold analyze_term_structure_body. eapply runs_bind_raise. exact Hrun. }
    unfold _analyze_term_structure in Hin.
    rewrite (runs_trace _ _ _ _ _
               (runs_try_raise _ _ _ _ _ _ _ _ _ Hbody
                (body_raises_Exception _ _ _ _ _ _ _ Hbody) (runs_log_ret _ _ _ _))) in Hin.
    apply elem_of_app in Hin. destruct Hin as [Hin|Hin].
    + pose proof (collect_emits_calls w timeframes ∅ s) as Hquiet.
      rewrite (runs_trace _ _ _ _ _ Hrun) in Hquiet. exact (Hcalls _ Hquiet Hin).
    + apply list_elem_of_singleton in Hin. discriminate.
Qed.

(** The record of a SELL candidate. *)
Lemma analysis_log_reports_the_result_witness :
  exists candidate,
    result (_analyze_term_structure (Example.strategy 0.5 0.3)
              (Example.world Example.full_status 0.01 0.015 0.02 "medium" None)
              Example.tick) Example.fresh = Ok candidate
    /\ Some SELL = action <$> candidate.
Proof.
  destruct (analysis_log_reports_the_result (Example.strategy 0.5 0.3)
              (Example.world Example.full_status 0.01 0.015 0.02 "medium" None)
              Example.tick Example.fresh INFO (Some SELL) ltac:(by_evaluation))
    as (v5 & v15 & v1 & overall_slope & candidate & earlier
        & _ & _ & _ & _ & Hresult & _ & Haction & _).
  exists candidate. split; [exact Hresult|exact Haction].
Defined.

(** ** The worked examples on binary64 floats *)

Lemma binary64_positive_not_zero (x : PrimFloat.float) :
  PrimFloat.ltb 0%float x = true -> PrimFloat.eqb x 0%float = false.
Proof.
  rewrite FloatAxioms.ltb_spec, FloatAxioms.eqb_spec.
  change (Prim2SF 0%float) with (S754_zero false).
  destruct (Prim2SF x) as [sign|sign| |sign m e]; try destruct sign; cbn;
    try discriminate; reflexivity.
Qed.

(** On doubles too the slope never faults: the guard [shorter > 0] excludes
    both zeros, and a NaN denominator fails the comparison and yields 0. *)
Lemma binary64_slope_never_raises (longer shorter : PrimFloat.float) :
  (exists x, Binary64.slope longer shorter = Ok x)
  /\ (PrimFloat.ltb 0%float shorter = false -> Binary64.slope longer shorter = Ok 0%float).
Proof.
  unfold Binary64.slope, Binary64.truediv.
  destruct (PrimFloat.ltb 0%float shorter) eqn:Hpos.
  - rewrite (binary64_positive_not_zero shorter Hpos). split; [eauto|discriminate].
  - split; [eauto|reflexivity].
Qed.

(** Readings 0.01 and 0.02 with a contango threshold of 0.5: slope 1.0,
    strength 2.0, confidence 0.9. *)
Example binary64_contango :
  Binary64.slope 0.02%float 0.01%float = Ok 1.0%float
  /\ Binary64.signal_strength 1.0%float 0.5%float = Ok 2.0%float
  /\ Binary64.signal_confidence 2.0%float = 0.9%float.
Proof. repeat split; vm_compute; reflexivity. Qed.

(** Readings 0.02 and 0.01 with a backwardation threshold of 0.3: slope
    -0.5, strength 1.6666666666666667, confidence 0.8333333333333334. *)
Example binary64_backwardation :
  Binary64.slope 0.01%float 0.02%float = Ok (-0.5)%float
  /\ Binary64.signal_strength (PrimFloat.abs (-0.5)%float) 0.3%float
     = Ok 1.6666666666666667%float
  /\ Binary64.signal_confidence 1.6666666666666667%float = 0.8333333333333334%float
  /\ PrimFloat.ltb 0.833%float 0.8333333333333334%float = true
  /\ PrimFloat.ltb 0.8333333333333334%float 0.834%float = true.
Proof. repeat split; vm_compute; reflexivity. Qed.

(** A zero threshold makes the strength fault, a negative one takes the
    confidence below 0.5, on doubles as on rationals. *)
Example binary64_thresholds :
  Binary64.signal_strength 1.0%float 0%float = Raise ZeroDivisionError
  /\ Binary64.signal_strength 1.0%float (-0.5)%float = Ok (-2.0)%float
  /\ PrimFloat.ltb (Binary64.signal_confidence (-2.0)%float) 0.5%float = true.
Proof. repeat split; vm_compute; reflexivity. Qed.
